(** * Shallow embedding of [TacitImage] (tacit-texview, Src/TacitImage.cpp)

    The image aggregate, its load/unload lifecycle, its dimension, pixel and
    opacity queries, the thumbnail worker with its cache key, and the
    process-wide admission counter of thumbnail workers.

    Pictures ([tImage::tPicture]) are modelled as a width, a height and a
    pixel store addressed by [(x, y)]; [SetPixel] is a point update of the
    store, which is how every loop of the source writes pixels.  The GL
    round trip that decodes compressed DDS data is modelled by the decoded
    levels a texture yields ([TexDecoded]). *)

From Stdlib Require Import ZArith Bool List String Ascii Lia.
From Stdlib Require Import Floats.SpecFloat.
Import ListNotations.
Open Scope Z_scope.

(** ** Pixels and pictures (tacent [tPixel], [tColouri], [tPicture]) *)

Record tPixel := mkPixel { PR : Z; PG : Z; PB : Z; PA : Z }.

(** [tPixel::transparent] and [tColouri::black]. *)
Definition transparent : tPixel := mkPixel 0 0 0 0.
Definition black : tPixel := mkPixel 0 0 0 255.

Record tPicture := mkPicture {
  PWidth : Z;
  PHeight : Z;
  PPixels : Z -> Z -> tPixel
}.

(** A default-constructed or cleared picture: no pixel storage. *)
Definition picture_invalid : tPicture := mkPicture 0 0 (fun _ _ => transparent).

(** [tPicture::IsValid]: the pixel storage exists, i.e. the area is non-zero. *)
Definition picture_IsValid (p : tPicture) : bool := (0 <? PWidth p) && (0 <? PHeight p).

Definition picture_GetPixel (p : tPicture) (x y : Z) : tPixel := PPixels p x y.

Definition picture_SetPixel (p : tPicture) (x y : Z) (c : tPixel) : tPicture :=
  mkPicture (PWidth p) (PHeight p)
    (fun a b => if (a =? x) && (b =? y) then c else PPixels p a b).

(** [tPicture::Set(w, h, colour)]: a non-positive size leaves it cleared. *)
Definition picture_Set (w h : Z) (c : tPixel) : tPicture :=
  if (w <=? 0) || (h <=? 0) then picture_invalid else mkPicture w h (fun _ _ => c).

Definition picture_NumPixels (p : tPicture) : Z :=
  if picture_IsValid p then PWidth p * PHeight p else 0.

(** The loop range [0 .. n-1] of a [for (int i = 0; i < n; i++)]. *)
Definition zseq (n : Z) : list Z := map Z.of_nat (seq 0 (Z.to_nat n)).

(** A 32-bit [int] result: the two's-complement wrap of the exact value. *)
Definition int32_wrap (z : Z) : Z := (z + 2 ^ 31) mod 2 ^ 32 - 2 ^ 31.

(** The element count of a [new T[n]] whose [n] is an [int]: it must be a
    non-negative value that the [int] arithmetic computing it represents. *)
Definition new_size_ok (n : Z) : bool := (0 <=? n) && (n <? 2 ^ 31).

(** [tPicture::IsOpaque]: every pixel has full alpha. *)
Definition picture_IsOpaque (p : tPicture) : bool :=
  forallb (fun y => forallb (fun x => PA (PPixels p x y) =? 255) (zseq (PWidth p)))
    (zseq (PHeight p)).

(** ** Pixel formats and file types *)

Inductive tPixelFormat :=
| PF_Invalid | R8G8B8 | R8G8B8A8 | B8G8R8 | B8G8R8A8
| BC1_DXT1 | BC1_DXT1BA | BC2_DXT3 | BC3_DXT5
| G3B5A1R5G2 | G4B4A4R4 | G3B5R5G3.

(** [tIsNormalFormat]: not block compressed (and not invalid). *)
Definition tIsNormalFormat (f : tPixelFormat) : bool :=
  match f with
  | R8G8B8 | R8G8B8A8 | B8G8R8 | B8G8R8A8 | G3B5A1R5G2 | G4B4A4R4 | G3B5R5G3 => true
  | _ => false
  end.

Definition tGetBytesPerPixel (f : tPixelFormat) : Z :=
  match f with
  | R8G8B8 | B8G8R8 => 3
  | R8G8B8A8 | B8G8R8A8 => 4
  | G3B5A1R5G2 | G4B4A4R4 | G3B5R5G3 => 2
  | _ => 0
  end.

Inductive tFileType := FT_Unknown | FT_DDS | FT_TGA | FT_PNG | FT_JPG | FT_BMP | FT_GIF.

Definition ends_with (suf s : string) : bool :=
  (String.length suf <=? String.length s)%nat &&
  String.eqb (substring (String.length s - String.length suf) (String.length suf) s) suf.

(** [tSystem::tGetFileType]: dispatch on the file extension. *)
Definition tGetFileType (fname : string) : tFileType :=
  if ends_with ".dds" fname then FT_DDS
  else if ends_with ".tga" fname then FT_TGA
  else if ends_with ".png" fname then FT_PNG
  else if ends_with ".jpg" fname then FT_JPG
  else if ends_with ".bmp" fname then FT_BMP
  else if ends_with ".gif" fname then FT_GIF
  else FT_Unknown.

Definition tFileType_eqb (a b : tFileType) : bool :=
  match a, b with
  | FT_Unknown, FT_Unknown | FT_DDS, FT_DDS | FT_TGA, FT_TGA | FT_PNG, FT_PNG
  | FT_JPG, FT_JPG | FT_BMP, FT_BMP | FT_GIF, FT_GIF => true
  | _, _ => false
  end.

(** ** DDS containers ([tTexture], [tCubemap]) *)

(** A 2D texture with its mip chain.  [TexOpaque] is the format-level opacity
    marker answered by [tTexture::IsOpaque]; [TexDecoded level x y] is what the
    GL readback of [level] yields. *)
Record tTexture := mkTexture {
  TexValid : bool;
  TexFormat : tPixelFormat;
  TexWidth : Z;
  TexHeight : Z;
  TexNumLayers : Z;
  TexOpaque : bool;
  TexDecoded : Z -> Z -> Z -> tPixel
}.

Definition texture_empty : tTexture :=
  mkTexture false PF_Invalid 0 0 0 true (fun _ _ _ => transparent).

Inductive tSide := PosX | NegX | PosY | NegY | PosZ | NegZ.

Record tCubemap := mkCubemap {
  CubeValid : bool;
  GetSide : tSide -> tTexture
}.

Definition cubemap_empty : tCubemap := mkCubemap false (fun _ => texture_empty).

Definition AllSidesOpaque (c : tCubemap) : bool :=
  forallb (fun s => TexOpaque (GetSide c s)) [PosX; NegX; PosY; NegY; PosZ; NegZ].

(** ** The info record *)

Record ImgInfo := mkImgInfo {
  IWidth : Z;
  IHeight : Z;
  IPixelFormat : tPixelFormat;
  ISrcFileBitDepth : Z;
  IOpaque : bool;
  IFileSizeBytes : Z;
  IMemSizeBytes : Z;
  IMipmaps : Z
}.

(** The default-constructed (unpopulated) info record. *)
Definition ImgInfo_default : ImgInfo := mkImgInfo 0 0 PF_Invalid (-1) false 0 0 0.

Definition Info_set_MemSizeBytes (i : ImgInfo) (m : Z) : ImgInfo :=
  mkImgInfo (IWidth i) (IHeight i) (IPixelFormat i) (ISrcFileBitDepth i) (IOpaque i)
    (IFileSizeBytes i) m (IMipmaps i).

(** ** The image aggregate *)

Record TacitImage := mkTacitImage {
  Filename : string;
  Filetype : tFileType;
  FileModTime : Z;
  FileSizeB : Z;
  DDSTexture2D : tTexture;
  DDSCubemap : tCubemap;
  Pictures : list tPicture;
  AltPicture : tPicture;
  AltPictureEnabled : bool;
  TexIDPrimary : Z;
  TexIDAlt : Z;
  TexIDThumbnail : Z;
  Info : ImgInfo;
  LoadedTime : Z;
  ThumbnailRequested : bool;
  ThumbnailThreadRunning : bool;
  ThumbnailThreadFlag : bool;
  ThumbnailThreadAlive : bool;
  ThumbnailPicture : tPicture
}.

Definition set_Filename (i : TacitImage) (v : string) : TacitImage :=
  mkTacitImage v (Filetype i) (FileModTime i) (FileSizeB i) (DDSTexture2D i) (DDSCubemap i) (Pictures i) (AltPicture i) (AltPictureEnabled i) (TexIDPrimary i) (TexIDAlt i) (TexIDThumbnail i) (Info i) (LoadedTime i) (ThumbnailRequested i) (ThumbnailThreadRunning i) (ThumbnailThreadFlag i) (ThumbnailThreadAlive i) (ThumbnailPicture i).

Definition set_Filetype (i : TacitImage) (v : tFileType) : TacitImage :=
  mkTacitImage (Filename i) v (FileModTime i) (FileSizeB i) (DDSTexture2D i) (DDSCubemap i) (Pictures i) (AltPicture i) (AltPictureEnabled i) (TexIDPrimary i) (TexIDAlt i) (TexIDThumbnail i) (Info i) (LoadedTime i) (ThumbnailRequested i) (ThumbnailThreadRunning i) (ThumbnailThreadFlag i) (ThumbnailThreadAlive i) (ThumbnailPicture i).

Definition set_FileModTime (i : TacitImage) (v : Z) : TacitImage :=
  mkTacitImage (Filename i) (Filetype i) v (FileSizeB i) (DDSTexture2D i) (DDSCubemap i) (Pictures i) (AltPicture i) (AltPictureEnabled i) (TexIDPrimary i) (TexIDAlt i) (TexIDThumbnail i) (Info i) (LoadedTime i) (ThumbnailRequested i) (ThumbnailThreadRunning i) (ThumbnailThreadFlag i) (ThumbnailThreadAlive i) (ThumbnailPicture i).

Definition set_FileSizeB (i : TacitImage) (v : Z) : TacitImage :=
  mkTacitImage (Filename i) (Filetype i) (FileModTime i) v (DDSTexture2D i) (DDSCubemap i) (Pictures i) (AltPicture i) (AltPictureEnabled i) (TexIDPrimary i) (TexIDAlt i) (TexIDThumbnail i) (Info i) (LoadedTime i) (ThumbnailRequested i) (ThumbnailThreadRunning i) (ThumbnailThreadFlag i) (ThumbnailThreadAlive i) (ThumbnailPicture i).

Definition set_DDSTexture2D (i : TacitImage) (v : tTexture) : TacitImage :=
  mkTacitImage (Filename i) (Filetype i) (FileModTime i) (FileSizeB i) v (DDSCubemap i) (Pictures i) (AltPicture i) (AltPictureEnabled i) (TexIDPrimary i) (TexIDAlt i) (TexIDThumbnail i) (Info i) (LoadedTime i) (ThumbnailRequested i) (ThumbnailThreadRunning i) (ThumbnailThreadFlag i) (ThumbnailThreadAlive i) (ThumbnailPicture i).

Definition set_DDSCubemap (i : TacitImage) (v : tCubemap) : TacitImage :=
  mkTacitImage (Filename i) (Filetype i) (FileModTime i) (FileSizeB i) (DDSTexture2D i) v (Pictures i) (AltPicture i) (AltPictureEnabled i) (TexIDPrimary i) (TexIDAlt i) (TexIDThumbnail i) (Info i) (LoadedTime i) (ThumbnailRequested i) (ThumbnailThreadRunning i) (ThumbnailThreadFlag i) (ThumbnailThreadAlive i) (ThumbnailPicture i).

Definition set_Pictures (i : TacitImage) (v : list tPicture) : TacitImage :=
  mkTacitImage (Filename i) (Filetype i) (FileModTime i) (FileSizeB i) (DDSTexture2D i) (DDSCubemap i) v (AltPicture i) (AltPictureEnabled i) (TexIDPrimary i) (TexIDAlt i) (TexIDThumbnail i) (Info i) (LoadedTime i) (ThumbnailRequested i) (ThumbnailThreadRunning i) (ThumbnailThreadFlag i) (ThumbnailThreadAlive i) (ThumbnailPicture i).

Definition set_AltPicture (i : TacitImage) (v : tPicture) : TacitImage :=
  mkTacitImage (Filename i) (Filetype i) (FileModTime i) (FileSizeB i) (DDSTexture2D i) (DDSCubemap i) (Pictures i) v (AltPictureEnabled i) (TexIDPrimary i) (TexIDAlt i) (TexIDThumbnail i) (Info i) (LoadedTime i) (ThumbnailRequested i) (ThumbnailThreadRunning i) (ThumbnailThreadFlag i) (ThumbnailThreadAlive i) (ThumbnailPicture i).

Definition set_AltPictureEnabled (i : TacitImage) (v : bool) : TacitImage :=
  mkTacitImage (Filename i) (Filetype i) (FileModTime i) (FileSizeB i) (DDSTexture2D i) (DDSCubemap i) (Pictures i) (AltPicture i) v (TexIDPrimary i) (TexIDAlt i) (TexIDThumbnail i) (Info i) (LoadedTime i) (ThumbnailRequested i) (ThumbnailThreadRunning i) (ThumbnailThreadFlag i) (ThumbnailThreadAlive i) (ThumbnailPicture i).

Definition set_TexIDPrimary (i : TacitImage) (v : Z) : TacitImage :=
  mkTacitImage (Filename i) (Filetype i) (FileModTime i) (FileSizeB i) (DDSTexture2D i) (DDSCubemap i) (Pictures i) (AltPicture i) (AltPictureEnabled i) v (TexIDAlt i) (TexIDThumbnail i) (Info i) (LoadedTime i) (ThumbnailRequested i) (ThumbnailThreadRunning i) (ThumbnailThreadFlag i) (ThumbnailThreadAlive i) (ThumbnailPicture i).

Definition set_TexIDAlt (i : TacitImage) (v : Z) : TacitImage :=
  mkTacitImage (Filename i) (Filetype i) (FileModTime i) (FileSizeB i) (DDSTexture2D i) (DDSCubemap i) (Pictures i) (AltPicture i) (AltPictureEnabled i) (TexIDPrimary i) v (TexIDThumbnail i) (Info i) (LoadedTime i) (ThumbnailRequested i) (ThumbnailThreadRunning i) (ThumbnailThreadFlag i) (ThumbnailThreadAlive i) (ThumbnailPicture i).

Definition set_TexIDThumbnail (i : TacitImage) (v : Z) : TacitImage :=
  mkTacitImage (Filename i) (Filetype i) (FileModTime i) (FileSizeB i) (DDSTexture2D i) (DDSCubemap i) (Pictures i) (AltPicture i) (AltPictureEnabled i) (TexIDPrimary i) (TexIDAlt i) v (Info i) (LoadedTime i) (ThumbnailRequested i) (ThumbnailThreadRunning i) (ThumbnailThreadFlag i) (ThumbnailThreadAlive i) (ThumbnailPicture i).

Definition set_Info (i : TacitImage) (v : ImgInfo) : TacitImage :=
  mkTacitImage (Filename i) (Filetype i) (FileModTime i) (FileSizeB i) (DDSTexture2D i) (DDSCubemap i) (Pictures i) (AltPicture i) (AltPictureEnabled i) (TexIDPrimary i) (TexIDAlt i) (TexIDThumbnail i) v (LoadedTime i) (ThumbnailRequested i) (ThumbnailThreadRunning i) (ThumbnailThreadFlag i) (ThumbnailThreadAlive i) (ThumbnailPicture i).

Definition set_LoadedTime (i : TacitImage) (v : Z) : TacitImage :=
  mkTacitImage (Filename i) (Filetype i) (FileModTime i) (FileSizeB i) (DDSTexture2D i) (DDSCubemap i) (Pictures i) (AltPicture i) (AltPictureEnabled i) (TexIDPrimary i) (TexIDAlt i) (TexIDThumbnail i) (Info i) v (ThumbnailRequested i) (ThumbnailThreadRunning i) (ThumbnailThreadFlag i) (ThumbnailThreadAlive i) (ThumbnailPicture i).

Definition set_ThumbnailRequested (i : TacitImage) (v : bool) : TacitImage :=
  mkTacitImage (Filename i) (Filetype i) (FileModTime i) (FileSizeB i) (DDSTexture2D i) (DDSCubemap i) (Pictures i) (AltPicture i) (AltPictureEnabled i) (TexIDPrimary i) (TexIDAlt i) (TexIDThumbnail i) (Info i) (LoadedTime i) v (ThumbnailThreadRunning i) (ThumbnailThreadFlag i) (ThumbnailThreadAlive i) (ThumbnailPicture i).

Definition set_ThumbnailThreadRunning (i : TacitImage) (v : bool) : TacitImage :=
  mkTacitImage (Filename i) (Filetype i) (FileModTime i) (FileSizeB i) (DDSTexture2D i) (DDSCubemap i) (Pictures i) (AltPicture i) (AltPictureEnabled i) (TexIDPrimary i) (TexIDAlt i) (TexIDThumbnail i) (Info i) (LoadedTime i) (ThumbnailRequested i) v (ThumbnailThreadFlag i) (ThumbnailThreadAlive i) (ThumbnailPicture i).

Definition set_ThumbnailThreadFlag (i : TacitImage) (v : bool) : TacitImage :=
  mkTacitImage (Filename i) (Filetype i) (FileModTime i) (FileSizeB i) (DDSTexture2D i) (DDSCubemap i) (Pictures i) (AltPicture i) (AltPictureEnabled i) (TexIDPrimary i) (TexIDAlt i) (TexIDThumbnail i) (Info i) (LoadedTime i) (ThumbnailRequested i) (ThumbnailThreadRunning i) v (ThumbnailThreadAlive i) (ThumbnailPicture i).

Definition set_ThumbnailThreadAlive (i : TacitImage) (v : bool) : TacitImage :=
  mkTacitImage (Filename i) (Filetype i) (FileModTime i) (FileSizeB i) (DDSTexture2D i) (DDSCubemap i) (Pictures i) (AltPicture i) (AltPictureEnabled i) (TexIDPrimary i) (TexIDAlt i) (TexIDThumbnail i) (Info i) (LoadedTime i) (ThumbnailRequested i) (ThumbnailThreadRunning i) (ThumbnailThreadFlag i) v (ThumbnailPicture i).

Definition set_ThumbnailPicture (i : TacitImage) (v : tPicture) : TacitImage :=
  mkTacitImage (Filename i) (Filetype i) (FileModTime i) (FileSizeB i) (DDSTexture2D i) (DDSCubemap i) (Pictures i) (AltPicture i) (AltPictureEnabled i) (TexIDPrimary i) (TexIDAlt i) (TexIDThumbnail i) (Info i) (LoadedTime i) (ThumbnailRequested i) (ThumbnailThreadRunning i) (ThumbnailThreadFlag i) (ThumbnailThreadAlive i) v.

(** ** The outside world as [Load] observes it *)

Record tFileInfo := mkFileInfo {
  FileSize : Z;
  CreationTime : Z;
  ModificationTime : Z;
  AccessTime : Z;
  ReadOnly : bool
}.

Definition tFileInfo_default : tFileInfo := mkFileInfo 0 0 0 0 false.

(** [ReadPicture] is [tPicture::Load] (the decoded picture and its source bit
    depth; [None] when the file is unreadable or corrupt, or the decoder
    throws); [ReadCubemap] and [ReadTexture2D] are the DDS readers;
    [GenTexOK] says whether [glGenTextures] yields a texture name. *)
Record LoadEnv := mkLoadEnv {
  Now : Z;
  FileInfoOf : string -> option tFileInfo;
  ReadPicture : string -> option (tPicture * Z);
  ReadCubemap : string -> option tCubemap;
  ReadTexture2D : string -> option tTexture;
  GenTexOK : bool
}.

Definition tGetFileSize (env : LoadEnv) (f : string) : Z :=
  match FileInfoOf env f with Some fi => FileSize fi | None => 0 end.

(** ** Queries *)

(** Modelled from the spec: [IsLoaded] (declared in TacitImage.h, not under
    src/).  The primary mip chain is "always populated once loaded" and
    [Unload] clears it, so an aggregate is loaded when its chain is non-empty. *)
Definition IsLoaded (i : TacitImage) : bool :=
  match Pictures i with [] => false | _ :: _ => true end.

(** Modelled from the spec: [GetPrimaryPicture] (TacitImage.h): the primary
    representation is mip level 0, the first picture of the chain, or null. *)
Definition GetPrimaryPicture (i : TacitImage) : option tPicture := hd_error (Pictures i).

Definition GetWidth (i : TacitImage) : Z :=
  if picture_IsValid (AltPicture i) && AltPictureEnabled i then PWidth (AltPicture i)
  else match Pictures i with
       | p :: _ => if picture_IsValid p then PWidth p else 0
       | [] => 0
       end.

Definition GetHeight (i : TacitImage) : Z :=
  if picture_IsValid (AltPicture i) && AltPictureEnabled i then PHeight (AltPicture i)
  else match Pictures i with
       | p :: _ => if picture_IsValid p then PHeight p else 0
       | [] => 0
       end.

Definition GetPixel (i : TacitImage) (x y : Z) : tPixel :=
  if picture_IsValid (AltPicture i) && AltPictureEnabled i then picture_GetPixel (AltPicture i) x y
  else match Pictures i with
       | p :: _ => if picture_IsValid p then picture_GetPixel p x y else black
       | [] => black
       end.

Definition IsOpaque (i : TacitImage) : bool :=
  if CubeValid (DDSCubemap i) then AllSidesOpaque (DDSCubemap i)
  else if TexValid (DDSTexture2D i) then TexOpaque (DDSTexture2D i)
  else match Pictures i with
       | p :: _ => if picture_IsValid p then picture_IsOpaque p else true
       | [] => true
       end.

(** [sizeof(tPixel)] is 4.  [numBytes] is an [int]: each [+=] adds a
    [size_t] and converts the sum back to [int], which wraps. *)
Definition GetMemSizeBytes (i : TacitImage) : Z :=
  let numBytes := fold_left (fun n p => int32_wrap (n + picture_NumPixels p * 4)) (Pictures i) 0 in
  int32_wrap (numBytes + (if picture_IsValid (AltPicture i) then picture_NumPixels (AltPicture i) * 4 else 0)).

(** ** Decoding DDS containers into pictures *)

Definition ConvertTexture2DToPicture (env : LoadEnv) (i : TacitImage) : TacitImage * bool :=
  let tex := DDSTexture2D i in
  if negb (TexValid tex) || negb (Z.of_nat (List.length (Pictures i)) <=? 0) then (i, false)
  else if negb (GenTexOK env) then (i, false)
  else
    let w := TexWidth tex in
    let h := TexHeight tex in
    let mips := map (fun level =>
                       let mipW := Z.max (Z.shiftr w level) 1 in
                       let mipH := Z.max (Z.shiftr h level) 1 in
                       mkPicture mipW mipH (TexDecoded tex level))
                    (zseq (TexNumLayers tex)) in
    (set_Pictures i (Pictures i ++ mips), true).

(** Line 619 allocates [new uint8[mipW * mipH * 4]] with the size computed
    in [int].  When the product is not representable the size overflows:
    wrapped to a negative value, [new[]] throws [std::bad_array_new_length],
    which nothing catches (the conversion runs after [Load]'s try block,
    and that block only catches [tError]), so the process terminates;
    wrapped to a smaller value, [glGetTexImage] writes past the buffer.
    Either way the conversion does not return. *)
Definition ConvertTexture2DToPicture_aborts (env : LoadEnv) (i : TacitImage) : bool :=
  let tex := DDSTexture2D i in
  if negb (TexValid tex) || negb (Z.of_nat (List.length (Pictures i)) <=? 0) then false
  else if negb (GenTexOK env) then false
  else
    let w := TexWidth tex in
    let h := TexHeight tex in
    existsb (fun level =>
               let mipW := Z.max (Z.shiftr w level) 1 in
               let mipH := Z.max (Z.shiftr h level) 1 in
               negb (new_size_ok (mipW * mipH * 4)))
            (zseq (TexNumLayers tex)).

(** The front (+Z) face first. *)
Definition sideOrder : list tSide := [PosZ; NegZ; PosX; NegX; PosY; NegY].

Definition ConvertCubemapToPicture (i : TacitImage) : TacitImage * bool :=
  let cube := DDSCubemap i in
  if negb (CubeValid cube) || negb (Z.of_nat (List.length (Pictures i)) <=? 0) then (i, false)
  else
    let w := TexWidth (GetSide cube PosX) in
    let h := TexHeight (GetSide cube PosX) in
    let faces := map (fun s => mkPicture w h (TexDecoded (GetSide cube s) 0)) sideOrder in
    (set_Pictures i (Pictures i ++ faces), true).

(** Line 659: [new uint8[w * h * 4]], the size computed in [int], as at
    line 619; every side has the size of [PosX], so the first one aborts. *)
Definition ConvertCubemapToPicture_aborts (i : TacitImage) : bool :=
  let cube := DDSCubemap i in
  if negb (CubeValid cube) || negb (Z.of_nat (List.length (Pictures i)) <=? 0) then false
  else
    let w := TexWidth (GetSide cube PosX) in
    let h := TexHeight (GetSide cube PosX) in
    negb (new_size_ok (w * h * 4)).

(** ** Alt composites *)

(** The nested pixel-copy loop of the source: [pic] copied into [dst] with
    its origin at [(originX, originY)]. *)
Definition blit (dst pic : tPicture) (originX originY : Z) : tPicture :=
  fold_left
    (fun d y =>
       fold_left
         (fun d x => picture_SetPixel d (originX + x) (originY + y) (picture_GetPixel pic x y))
         (zseq (PWidth pic)) d)
    (zseq (PHeight pic)) dst.

Definition CreateAltPictureDDS2DMipmaps (i : TacitImage) : TacitImage :=
  let width := fold_left (fun w layer => w + PWidth layer) (Pictures i) 0 in
  let height := GetHeight i in
  let '(alt, _) :=
    fold_left (fun '(alt, originX) layer => (blit alt layer originX 0, originX + PWidth layer))
      (Pictures i) (picture_Set width height transparent, 0) in
  set_AltPicture i alt.

Definition CreateAltPictureDDSCubemap (i : TacitImage) : TacitImage :=
  match Pictures i with
  | pz :: nz :: px :: nx :: py :: ny :: _ =>
      let width := PWidth pz in
      let height := PHeight pz in
      let alt := picture_Set (width * 4) (height * 3) transparent in
      let alt := blit alt pz width height in
      let alt := blit alt nz (3 * width) height in
      let alt := blit alt px (2 * width) height in
      let alt := blit alt nx 0 height in
      let alt := blit alt py width (2 * height) in
      let alt := blit alt ny width 0 in
      set_AltPicture i alt
  | _ => i
  end.

(** ** [Load] and [Unload] *)

Definition bitdepth_of (pf : tPixelFormat) : Z :=
  if tIsNormalFormat pf then tGetBytesPerPixel pf * 8 else -1.

(** Lines 87-120 of [TacitImage::Load()], the try block: run the decoder.
    Returns the aggregate, the decoder's success and the source bit
    depth. *)
Definition Load_read (env : LoadEnv) (i : TacitImage) : TacitImage * bool * Z :=
  if tFileType_eqb (Filetype i) FT_DDS then
    match ReadCubemap env (Filename i) with
    | Some c => (set_DDSCubemap i c, true, bitdepth_of (TexFormat (GetSide c PosX)))
    | None =>
        let i' := set_DDSCubemap i cubemap_empty in
        match ReadTexture2D env (Filename i) with
        | Some t => (set_DDSTexture2D i' t, true, bitdepth_of (TexFormat t))
        | None => (set_DDSTexture2D i' texture_empty, false, bitdepth_of PF_Invalid)
        end
    end
  else
    (* The picture is appended to the chain before it is loaded. *)
    match ReadPicture env (Filename i) with
    | Some (p, bd) => (set_Pictures i (Pictures i ++ [p]), true, bd)
    | None => (set_Pictures i (Pictures i ++ [picture_invalid]), false, -1)
    end.

(** Lines 122-127: for DDS files, decode the container into the mip
    chain. *)
Definition Load_convert (env : LoadEnv) (isDDS : bool) (i1 : TacitImage) : TacitImage :=
  if isDDS then
    if CubeValid (DDSCubemap i1) then fst (ConvertCubemapToPicture i1)
    else if TexValid (DDSTexture2D i1) then fst (ConvertTexture2DToPicture env i1)
    else i1
  else i1.

(** Whether the conversion of lines 122-127 aborts. *)
Definition Load_convert_aborts (env : LoadEnv) (isDDS : bool) (i1 : TacitImage) : bool :=
  if isDDS then
    if CubeValid (DDSCubemap i1) then ConvertCubemapToPicture_aborts i1
    else if TexValid (DDSTexture2D i1) then ConvertTexture2DToPicture_aborts env i1
    else false
  else false.

(** Lines 87-127: the decoder, then the conversion. *)
Definition Load_decode (env : LoadEnv) (i : TacitImage) : TacitImage * bool * Z :=
  let isDDS := tFileType_eqb (Filetype i) FT_DDS in
  let '(i1, success, srcFileBitdepth) := Load_read env i in
  (Load_convert env isDDS i1, success, srcFileBitdepth).

(** Lines 129-166: on success, stamp the load time, fill in the info record
    and build the alt composite. *)
Definition Load_finish (env : LoadEnv) (i2 : TacitImage) (success : bool) (srcFileBitdepth : Z)
    : TacitImage * bool :=
  if success then
    let isDDS := tFileType_eqb (Filetype i2) FT_DDS in
    let i3 := set_LoadedTime i2 (Now env) in
    let format :=
      if isDDS then
        if CubeValid (DDSCubemap i3) then TexFormat (GetSide (DDSCubemap i3) PosX)
        else TexFormat (DDSTexture2D i3)
      else match Pictures i3 with
           | _ :: _ => if srcFileBitdepth =? 24 then R8G8B8 else R8G8B8A8
           | [] => PF_Invalid
           end in
    let info := mkImgInfo (GetWidth i3) (GetHeight i3) format srcFileBitdepth
                  (IsOpaque i3) (tGetFileSize env (Filename i3)) (GetMemSizeBytes i3)
                  (Z.of_nat (List.length (Pictures i3))) in
    let i4 := set_Info i3 info in
    let i5 :=
      if CubeValid (DDSCubemap i4) then CreateAltPictureDDSCubemap i4
      else if TexValid (DDSTexture2D i4) && (1 <? IMipmaps info)
      then CreateAltPictureDDS2DMipmaps i4
      else i4 in
    (i5, true)
  else (i2, false).

(** [TacitImage::Load()]. *)
Definition Load_noarg (env : LoadEnv) (i : TacitImage) : TacitImage * bool :=
  if IsLoaded i then (set_LoadedTime i (Now env), true)
  else if tFileType_eqb (Filetype i) FT_Unknown then (i, false)
  else
    let '(i2, success, srcFileBitdepth) := Load_decode env i in
    Load_finish env i2 success srcFileBitdepth.

(** Whether [TacitImage::Load()] aborts: it reaches a conversion whose
    allocation size overflows. *)
Definition Load_aborts (env : LoadEnv) (i : TacitImage) : bool :=
  if IsLoaded i then false
  else if tFileType_eqb (Filetype i) FT_Unknown then false
  else
    let '(i1, _, _) := Load_read env i in
    Load_convert_aborts env (tFileType_eqb (Filetype i) FT_DDS) i1.

(** The outcome of [TacitImage::Load()]: [None] when the process aborts
    inside it, else the aggregate and the result of [Load_noarg]. *)
Definition Load_result (env : LoadEnv) (i : TacitImage) : option (TacitImage * bool) :=
  if Load_aborts env i then None else Some (Load_noarg env i).

(** [TacitImage::Load(filename)]. *)
Definition Load_filename (env : LoadEnv) (filename : string) (i : TacitImage) : TacitImage * bool :=
  if String.eqb filename "" then (i, false)
  else
    let i1 := set_Filetype (set_Filename i filename) (tGetFileType filename) in
    let i2 := match FileInfoOf env filename with
              | Some fi => set_FileSizeB (set_FileModTime i1 (ModificationTime fi)) (FileSize fi)
              | None => i1
              end in
    Load_noarg env i2.

Definition Unbind (i : TacitImage) : TacitImage :=
  let i := if negb (TexIDPrimary i =? 0) then set_TexIDPrimary i 0 else i in
  if negb (TexIDAlt i =? 0) then set_TexIDAlt i 0 else i.

Definition Unload (i : TacitImage) : TacitImage * bool :=
  if negb (IsLoaded i) then (i, true)
  else
    let i := Unbind i in
    let i := set_DDSTexture2D i texture_empty in
    let i := set_DDSCubemap i cubemap_empty in
    let i := set_AltPicture i picture_invalid in
    let i := set_AltPictureEnabled i false in
    let i := set_Pictures i [] in
    let i := set_Info i (Info_set_MemSizeBytes (Info i) 0) in
    let i := set_LoadedTime i (-1) in
    (i, true).

(** A constructed, empty aggregate ([TacitImage(filename)] before [Load]). *)
Definition TacitImage_new (env : LoadEnv) (filename : string) : TacitImage :=
  let fi := FileInfoOf env filename in
  mkTacitImage filename (tGetFileType filename)
    (match fi with Some f => ModificationTime f | None => 0 end)
    (match fi with Some f => FileSize f | None => 0 end)
    texture_empty cubemap_empty [] picture_invalid false 0 0 0 ImgInfo_default (-1)
    false false false false picture_invalid.

(** ** The thumbnail worker *)

(** [float] is IEEE binary32: 24 bits of precision, exponent of the
    infinities 128, round to nearest even. *)
Definition prec32 : Z := 24.
Definition emax32 : Z := 128.

Definition float_of_int (n : Z) : spec_float := binary_normalize prec32 emax32 n 0 false.
Definition fdiv : spec_float -> spec_float -> spec_float := SFdiv prec32 emax32.
Definition fmul : spec_float -> spec_float -> spec_float := SFmul prec32 emax32.
Definition fadd : spec_float -> spec_float -> spec_float := SFadd prec32 emax32.
Definition fltb : spec_float -> spec_float -> bool := SFltb.
Definition half_f : spec_float := binary_normalize prec32 emax32 1 (-1) false.

Definition signed_mantissa (s : bool) (m : positive) : Z := if s then Z.neg m else Z.pos m.

(** [floorf]. *)
Definition tFloor (f : spec_float) : spec_float :=
  match f with
  | S754_finite s m e =>
      if 0 <=? e then f else float_of_int (signed_mantissa s m / 2 ^ (- e))
  | _ => f
  end.

(** tacent's [tRound]: [floorf(v + 0.5f)]. *)
Definition tRound (v : spec_float) : spec_float := tFloor (fadd v half_f).

(** The conversion [int(f)]: truncation toward zero; a NaN, an infinity or an
    out-of-range value gives the x86 "integer indefinite" [INT_MIN]. *)
Definition int_of_float (f : spec_float) : Z :=
  let int_min := - 2 ^ 31 in
  match f with
  | S754_zero _ => 0
  | S754_finite s m e =>
      let v := if 0 <=? e then signed_mantissa s m * 2 ^ e
               else Z.quot (signed_mantissa s m) (2 ^ (- e)) in
      if (int_min <=? v) && (v <? 2 ^ 31) then v else int_min
  | _ => int_min
  end.

(** Lines 777-791: the intermediate size that keeps the aspect ratio. *)
Definition thumb_dims (ThumbWidth ThumbHeight srcW srcH : Z) : Z * Z :=
  let scaleX := fdiv (float_of_int ThumbWidth) (float_of_int srcW) in
  let scaleY := fdiv (float_of_int ThumbHeight) (float_of_int srcH) in
  if fltb scaleX scaleY
  then (ThumbWidth, int_of_float (tRound (fmul (float_of_int srcH) scaleX)))
  else (int_of_float (tRound (fmul (float_of_int srcW) scaleY)), ThumbHeight).

(** The tacent services the worker calls: the pixel kernel of
    [tPicture::Resample] with the bilinear filter, and the hash primitives
    [tHashData256] (data bytes, running hash), its default initial value,
    [tHashString256], and the [%032|128X] rendering of a key. *)
Record Tacent := mkTacent {
  ResampleKernel : tPicture -> Z -> Z -> (Z -> Z -> tPixel);
  tHashData256 : list Z -> Z -> Z;
  HashIV256 : Z;
  tHashString256 : string -> Z -> Z;
  RenderKey : Z -> string
}.

(** [tPicture::Resample]: a refused resample (invalid picture or non-positive
    size) leaves the picture as it is. *)
Definition picture_Resample (lib : Tacent) (p : tPicture) (w h : Z) : tPicture :=
  if picture_IsValid p && (0 <? w) && (0 <? h) then mkPicture w h (ResampleKernel lib p w h)
  else p.

(** Modelled from the spec: [tPicture::Crop] (tacent) "reframes around the
    image center, padding new area with the fill colour (transparent) when
    the target is larger, truncating symmetrically when smaller"; a no-op on
    an invalid picture or a non-positive size. *)
Definition picture_Crop (p : tPicture) (newW newH : Z) : tPicture :=
  if negb (picture_IsValid p) || (newW <=? 0) || (newH <=? 0) then p
  else
    let originX := PWidth p / 2 - newW / 2 in
    let originY := PHeight p / 2 - newH / 2 in
    mkPicture newW newH
      (fun x y =>
         let sx := x + originX in
         let sy := y + originY in
         if (0 <=? sx) && (sx <? PWidth p) && (0 <=? sy) && (sy <? PHeight p)
         then PPixels p sx sy else transparent).

(** Lines 776-800: resample to the intermediate size, then center-crop. *)
Definition ThumbFromSource (lib : Tacent) (ThumbWidth ThumbHeight : Z) (srcPic : tPicture) : tPicture :=
  let '(iw, ih) := thumb_dims ThumbWidth ThumbHeight (PWidth srcPic) (PHeight srcPic) in
  picture_Crop (picture_Resample lib srcPic iw ih) ThumbWidth ThumbHeight.

(** The little-endian bytes of an [n]-byte integer, as hashed through
    a byte pointer to the value. *)
Definition le_bytes (n : Z) (v : Z) : list Z :=
  map (fun k => Z.land (Z.shiftr v (8 * k)) 255) (zseq n).

(** The thumbnail worker's view of the world: the loader's view, the cache
    directory, the cache files ([Some] when the file exists, with the picture
    its chunk holds), and whether a hidden GL context can be created. *)
Record ThumbEnv := mkThumbEnv {
  TLoad : LoadEnv;
  ThumbCacheDir : string;
  CacheRead : string -> option tPicture;
  ContextOK : bool
}.

(** Lines 730-740. *)
Definition CacheKey (lib : Tacent) (te : ThumbEnv) (ThumbWidth ThumbHeight : Z) (i : TacitImage) : Z :=
  let thumbVersion := 1 in
  let fileInfo := match FileInfoOf (TLoad te) (Filename i) with
                  | Some fi => fi | None => tFileInfo_default end in
  let hash := tHashData256 lib (le_bytes 4 thumbVersion) (HashIV256 lib) in
  let hash := tHashString256 lib (Filename i) hash in
  let hash := tHashData256 lib (le_bytes 8 (FileSize fileInfo)) hash in
  let hash := tHashData256 lib (le_bytes 8 (CreationTime fileInfo)) hash in
  let hash := tHashData256 lib (le_bytes 8 (ModificationTime fileInfo)) hash in
  let hash := tHashData256 lib (le_bytes 4 ThumbWidth) hash in
  tHashData256 lib (le_bytes 4 ThumbHeight) hash.

(** Line 742. *)
Definition CacheFile (lib : Tacent) (te : ThumbEnv) (hash : Z) : string :=
  ThumbCacheDir te ++ RenderKey lib hash ++ ".bin".

(** The default-constructed aggregate [TacitImage thumbLoader;]. *)
Definition TacitImage_default : TacitImage :=
  mkTacitImage "" FT_Unknown 0 0 texture_empty cubemap_empty [] picture_invalid false 0 0 0
    ImgInfo_default (-1) false false false false picture_invalid.

(** How a run of the worker ends: the thumbnail picture it leaves and the
    cache file it writes, or a dereference of a null source picture (the
    [tAssert(srcPic)] of line 774). *)
Inductive ThumbOutcome :=
| ThumbCrash
| ThumbDone (pic : tPicture) (written : option (string * tPicture)).

(** [TacitImage::GenerateThumbnail]. *)
Definition GenerateThumbnail (lib : Tacent) (te : ThumbEnv) (ThumbWidth ThumbHeight : Z)
    (i : TacitImage) : ThumbOutcome :=
  if picture_IsValid (ThumbnailPicture i) then ThumbDone (ThumbnailPicture i) None
  else
    let hash := CacheKey lib te ThumbWidth ThumbHeight i in
    let hashFile := CacheFile lib te hash in
    match CacheRead te hashFile with
    | Some cached => ThumbDone cached None
    | None =>
        if tFileType_eqb (Filetype i) FT_DDS && negb (ContextOK te)
        then ThumbDone (ThumbnailPicture i) None
        else
          let thumbLoader := fst (Load_filename (TLoad te) (Filename i) TacitImage_default) in
          match GetPrimaryPicture thumbLoader with
          | None => ThumbCrash
          | Some srcPic =>
              let pic := ThumbFromSource lib ThumbWidth ThumbHeight srcPic in
              ThumbDone pic (Some (hashFile, pic))
          end
    end.

(** ** The cross layout of a cubemap, read from the spec

    Cell [(col, row)] of the 4-by-3 grid of face-sized cells, row 0 at the
    bottom: front (+Z) at (1,1), back (-Z) at (3,1), right (+X) at (2,1),
    left (-X) at (0,1), top (+Y) at (1,2), bottom (-Y) at (1,0). *)
Definition cross_cell (col row : Z) : option tSide :=
  if (col =? 1) && (row =? 1) then Some PosZ
  else if (col =? 3) && (row =? 1) then Some NegZ
  else if (col =? 2) && (row =? 1) then Some PosX
  else if (col =? 0) && (row =? 1) then Some NegX
  else if (col =? 1) && (row =? 2) then Some PosY
  else if (col =? 1) && (row =? 0) then Some NegY
  else None.

(** The pixel the spec places at [(x, y)] of the composite: the level-0
    pixel of the face owning the cell, or the transparent fill. *)
Definition cross_pixel (c : tCubemap) (faceW faceH x y : Z) : tPixel :=
  match cross_cell (x / faceW) (y / faceH) with
  | Some s => TexDecoded (GetSide c s) 0 (x mod faceW) (y mod faceH)
  | None => transparent
  end.

(** ** Worlds and outcomes compared across runs *)

(** The same file system observed at another time. *)
Definition env_at (env : LoadEnv) (t : Z) : LoadEnv :=
  mkLoadEnv t (FileInfoOf env) (ReadPicture env) (ReadCubemap env) (ReadTexture2D env) (GenTexOK env).

(** The cache file a run of the worker writes, with its content. *)
Definition CacheWritten (o : ThumbOutcome) : option (string * tPicture) :=
  match o with ThumbCrash => None | ThumbDone _ w => w end.

(** ** The representation the queries read, as the spec states it

    Read from the spec: "read from the alt buffer if present and enabled,
    else from mip level 0 of the primary chain, else report zero/black". *)
Definition displayed (i : TacitImage) : option tPicture :=
  if AltPictureEnabled i && picture_IsValid (AltPicture i) then Some (AltPicture i)
  else match nth_error (Pictures i) 0 with
       | Some p => if picture_IsValid p then Some p else None
       | None => None
       end.

(** ** [tSystem::tGetNumCores] (tMachine.cpp) *)

(** The [int] the unsigned [dwNumberOfProcessors] converts to. *)
Definition int32_of_uint32 (u : Z) : Z := if u <? 2 ^ 31 then u else u - 2 ^ 32.

(** One call: the cached [static int numCores] and the [dwNumberOfProcessors]
    [GetSystemInfo] would report; the result and the new cache. The test
    [== -1] compares as unsigned, against [0xFFFFFFFF]. *)
Definition tGetNumCores (numCores : Z) (dwNumberOfProcessors : Z) : Z * Z :=
  if 0 <? numCores then (numCores, numCores)
  else
    let numCores := if (dwNumberOfProcessors =? 0) || (dwNumberOfProcessors =? 2 ^ 32 - 1) then 1
                    else int32_of_uint32 dwNumberOfProcessors in
    (numCores, numCores).

(** Successive calls, each with the count the system would report then. *)
Fixpoint tGetNumCores_calls (numCores : Z) (reports : list Z) : list Z :=
  match reports with
  | [] => []
  | dw :: rest => let '(r, c) := tGetNumCores numCores dw in r :: tGetNumCores_calls c rest
  end.

(** ** Admission of thumbnail workers

    The process-wide [ThumbnailNumThreadsRunning] counter and the aggregates
    of the process.  [ThumbnailThreadAlive] says that the worker thread is
    still executing its body ([GenerateThumbnail], then the clear of
    [ThumbnailThreadFlag]). *)

(** [tClampMin]. *)
Definition tClampMin (v m : Z) : Z := if v <? m then m else v.

(** Line 815: [tGetNumCores() - 2] is [int] arithmetic, which wraps. *)
Definition numThreadsMax (numCores : Z) : Z := tClampMin (int32_wrap (numCores - 2)) 2.

(** [TacitImage::RequestThumbnail] with the counter it reads and bumps;
    the worker thread is started alive, its flag set. *)
Definition RequestThumbnail (numCores : Z) (i : TacitImage) (numRunning : Z) : TacitImage * Z :=
  if ThumbnailRequested i then (i, numRunning)
  else if numThreadsMax numCores <=? numRunning then (i, numRunning)
  else
    let i := set_ThumbnailRequested i true in
    let i := set_ThumbnailThreadRunning i true in
    let i := set_ThumbnailThreadFlag i true in
    (set_ThumbnailThreadAlive i true, numRunning + 1).

(** The worker's last two statements: the thumbnail picture it leaves
    ([ThumbnailPicture] after [GenerateThumbnail]), then the clear of the
    flag; the thread then ends. *)
Definition WorkerFinish (pic : tPicture) (i : TacitImage) : TacitImage :=
  if ThumbnailThreadAlive i then
    set_ThumbnailThreadAlive (set_ThumbnailThreadFlag (set_ThumbnailPicture i pic) false) false
  else i.

(** [TacitImage::BindThumbnail]: the aggregate, the counter and the returned
    texture name; [gen] is the name [glGenTextures] yields (0 on failure).
    [test_and_set] leaves the flag set in both branches. *)
Definition BindThumbnail (gen : Z) (i : TacitImage) (numRunning : Z) : TacitImage * Z * Z :=
  if negb (ThumbnailRequested i) then (i, numRunning, 0)
  else
    let '(i, numRunning) :=
      if negb (ThumbnailThreadFlag i)
      then (set_ThumbnailThreadRunning (set_ThumbnailThreadFlag i true) false, numRunning - 1)
      else (i, numRunning) in
    if ThumbnailThreadRunning i then (i, numRunning, 0)
    else if picture_IsValid (ThumbnailPicture i) then
      if negb (TexIDThumbnail i =? 0) then (i, numRunning, TexIDThumbnail i)
      else (set_TexIDThumbnail i gen, numRunning, gen)
    else (i, numRunning, 0).

(** [TacitImage::UnrequestThumbnail]. *)
Definition UnrequestThumbnail (i : TacitImage) : TacitImage :=
  if ThumbnailRequested i && negb (ThumbnailThreadRunning i) && negb (picture_IsValid (ThumbnailPicture i))
  then set_ThumbnailRequested i false
  else i.

Record World := mkWorld {
  NumCores : Z;
  ThumbnailNumThreadsRunning : Z;
  Images : list TacitImage
}.

(** The calls the process makes: construct an aggregate, request, bind or
    unrequest its thumbnail, let its worker finish with a picture, destroy
    it (the destructor joins a worker still alive, so it completes once the
    worker has finished). *)
Inductive ThumbOp :=
| OpNew (env : LoadEnv) (filename : string)
| OpRequest (n : nat)
| OpBind (n : nat) (gen : Z)
| OpFinish (n : nat) (pic : tPicture)
| OpUnrequest (n : nat)
| OpDestroy (n : nat).

Fixpoint set_nth {A : Type} (n : nat) (l : list A) (x : A) : list A :=
  match l, n with
  | [], _ => []
  | _ :: t, O => x :: t
  | y :: t, S n => y :: set_nth n t x
  end.

Fixpoint remove_nth {A : Type} (n : nat) (l : list A) : list A :=
  match l, n with
  | [], _ => []
  | _ :: t, O => t
  | y :: t, S n => y :: remove_nth n t
  end.

Definition step (w : World) (op : ThumbOp) : World :=
  let imgs := Images w in
  let cnt := ThumbnailNumThreadsRunning w in
  match op with
  | OpNew env f => mkWorld (NumCores w) cnt (imgs ++ [TacitImage_new env f])
  | OpRequest n =>
      match nth_error imgs n with
      | Some i => let '(i', cnt') := RequestThumbnail (NumCores w) i cnt in
                  mkWorld (NumCores w) cnt' (set_nth n imgs i')
      | None => w
      end
  | OpBind n gen =>
      match nth_error imgs n with
      | Some i => let '(i', cnt', _) := BindThumbnail gen i cnt in
                  mkWorld (NumCores w) cnt' (set_nth n imgs i')
      | None => w
      end
  | OpFinish n pic =>
      match nth_error imgs n with
      | Some i => mkWorld (NumCores w) cnt (set_nth n imgs (WorkerFinish pic i))
      | None => w
      end
  | OpUnrequest n =>
      match nth_error imgs n with
      | Some i => mkWorld (NumCores w) cnt (set_nth n imgs (UnrequestThumbnail i))
      | None => w
      end
  | OpDestroy n =>
      match nth_error imgs n with
      | Some i => if ThumbnailThreadAlive i then w
                  else mkWorld (NumCores w) cnt (remove_nth n imgs)
      | None => w
      end
  end.

Definition run (w : World) (ops : list ThumbOp) : World := fold_left step ops w.

(** [GetSystemInfo] reports the machine's count of logical processors in
    the unsigned 32-bit [dwNumberOfProcessors] (a count is not negative). *)
Definition dwNumberOfProcessors_of (logicalCores : Z) : Z := Z.max logicalCores 0 mod 2 ^ 32.

(** The process at start-up on a machine of [logicalCores] logical
    processors: no aggregate, no worker.  [NumCores] is what
    [tGetNumCores()] returns there; the machine's count does not change, so
    every call returns that first result (cached when positive, queried
    again to the same value otherwise). *)
Definition world_init (logicalCores : Z) : World :=
  mkWorld (fst (tGetNumCores 0 (dwNumberOfProcessors_of logicalCores))) 0 [].

Fixpoint count (f : TacitImage -> bool) (l : list TacitImage) : Z :=
  match l with
  | [] => 0
  | i :: t => (if f i then 1 else 0) + count f t
  end.

(** The worker-state discipline of one aggregate: a live worker belongs to
    a running request whose flag is still set; a running worker belongs to a
    request; a request whose flag has been cleared is still running (not yet
    joined). *)
Definition thumb_state_ok (i : TacitImage) : bool :=
  implb (ThumbnailThreadAlive i) (ThumbnailThreadRunning i && ThumbnailThreadFlag i) &&
  implb (ThumbnailThreadRunning i) (ThumbnailRequested i) &&
  implb (ThumbnailRequested i && negb (ThumbnailThreadFlag i)) (ThumbnailThreadRunning i).

Definition world_ok (w : World) : Prop :=
  forallb thumb_state_ok (Images w) = true /\
  count ThumbnailThreadRunning (Images w) <= ThumbnailNumThreadsRunning w <= numThreadsMax (NumCores w).

(** ** Concrete worlds *)

(** A cube map of six 1x1 opaque black faces, saved as [sky.dds]. *)
Definition ex_face : tTexture := mkTexture true R8G8B8A8 1 1 1 true (fun _ _ _ => black).
Definition ex_cube : tCubemap := mkCubemap true (fun _ => ex_face).
Definition ex_fileinfo : tFileInfo := mkFileInfo 4096 11 22 33 false.

Definition ex_cube_env : LoadEnv :=
  mkLoadEnv 7 (fun _ => Some ex_fileinfo) (fun _ => None) (fun _ => Some ex_cube) (fun _ => None) true.

Definition ex_cube_img : TacitImage := TacitImage_new ex_cube_env "sky.dds".

(** A 2x2 opaque black PNG, [photo.png], of 32 bits per pixel. *)
Definition ex_photo : tPicture := mkPicture 2 2 (fun _ _ => black).

Definition ex_png_env : LoadEnv :=
  mkLoadEnv 5 (fun _ => Some ex_fileinfo) (fun _ => Some (ex_photo, 32)) (fun _ => None) (fun _ => None) true.

Definition ex_png_img : TacitImage := TacitImage_new ex_png_env "photo.png".

(** A file system where no file exists. *)
Definition ex_env_missing : LoadEnv :=
  mkLoadEnv 3 (fun _ => None) (fun _ => None) (fun _ => None) (fun _ => None) true.

(** Tacent services: a resample kernel that fills with black, a toy hash. *)
Definition ex_lib : Tacent :=
  mkTacent (fun _ _ _ _ _ => black) (fun bs h => fold_left (fun a b => a * 257 + b) bs h) 1
    (fun s h => h * 65537 + Z.of_nat (String.length s)) (fun _ => "key"%string).

Definition ex_te1 : ThumbEnv := mkThumbEnv ex_cube_env "cache/" (fun _ => None) true.
Definition ex_te2 : ThumbEnv := mkThumbEnv (env_at ex_cube_env 1000) "cache/" (fun _ => None) true.
Definition ex_te_missing : ThumbEnv := mkThumbEnv ex_env_missing "cache/" (fun _ => None) true.

(** ** Uploading pictures to GL ([Bind], [BindLayers], [GetGLFormatInfo]) *)

(** The GL enumerants the viewer passes (all calls target [GL_TEXTURE_2D]). *)
Inductive GLenum :=
| GL_RGB | GL_RGBA | GL_BGR | GL_BGRA
| GL_RGB8 | GL_RGBA8 | GL_RGB5_A1 | GL_RGBA4 | GL_RGB5
| GL_COMPRESSED_RGB_S3TC_DXT1_EXT | GL_COMPRESSED_RGBA_S3TC_DXT1_EXT
| GL_COMPRESSED_RGBA_S3TC_DXT3_EXT | GL_COMPRESSED_RGBA_S3TC_DXT5_EXT
| GL_UNSIGNED_BYTE | GL_UNSIGNED_SHORT_1_5_5_5_REV | GL_UNSIGNED_SHORT_4_4_4_4_REV
| GL_UNSIGNED_SHORT_5_6_5
| GL_REPEAT | GL_NEAREST | GL_LINEAR | GL_LINEAR_MIPMAP_LINEAR
| GL_TEXTURE_WRAP_S | GL_TEXTURE_WRAP_T | GL_TEXTURE_MAG_FILTER | GL_TEXTURE_MIN_FILTER.

(** The four out-parameters of [GetGLFormatInfo]. *)
Record GLFormatInfo := mkGLFormatInfo {
  srcFormat : GLenum;
  srcType : GLenum;
  dstFormat : GLenum;
  compressed : bool
}.

(** [TacitImage::GetGLFormatInfo]: the defaults, overridden per format. *)
Definition GetGLFormatInfo (pixelFormat : tPixelFormat) : GLFormatInfo :=
  match pixelFormat with
  | R8G8B8 => mkGLFormatInfo GL_RGB GL_UNSIGNED_BYTE GL_RGB8 false
  | R8G8B8A8 => mkGLFormatInfo GL_RGBA GL_UNSIGNED_BYTE GL_RGBA8 false
  | B8G8R8 => mkGLFormatInfo GL_BGR GL_UNSIGNED_BYTE GL_RGB8 false
  | B8G8R8A8 => mkGLFormatInfo GL_BGRA GL_UNSIGNED_BYTE GL_RGBA8 false
  | BC1_DXT1BA =>
      mkGLFormatInfo GL_COMPRESSED_RGBA_S3TC_DXT1_EXT GL_UNSIGNED_BYTE GL_COMPRESSED_RGBA_S3TC_DXT1_EXT true
  | BC1_DXT1 =>
      mkGLFormatInfo GL_COMPRESSED_RGB_S3TC_DXT1_EXT GL_UNSIGNED_BYTE GL_COMPRESSED_RGB_S3TC_DXT1_EXT true
  | BC2_DXT3 =>
      mkGLFormatInfo GL_COMPRESSED_RGBA_S3TC_DXT3_EXT GL_UNSIGNED_BYTE GL_COMPRESSED_RGBA_S3TC_DXT3_EXT true
  | BC3_DXT5 =>
      mkGLFormatInfo GL_COMPRESSED_RGBA_S3TC_DXT5_EXT GL_UNSIGNED_BYTE GL_COMPRESSED_RGBA_S3TC_DXT5_EXT true
  | G3B5A1R5G2 => mkGLFormatInfo GL_BGRA GL_UNSIGNED_SHORT_1_5_5_5_REV GL_RGB5_A1 false
  | G4B4A4R4 => mkGLFormatInfo GL_BGRA GL_UNSIGNED_SHORT_4_4_4_4_REV GL_RGBA4 false
  | G3B5R5G3 => mkGLFormatInfo GL_RGB GL_UNSIGNED_SHORT_5_6_5 GL_RGB5 false
  | PF_Invalid => mkGLFormatInfo GL_RGBA GL_UNSIGNED_BYTE GL_RGBA8 false
  end.

(** A [tLayer]: a pixel format, a size and the bytes it points at. *)
Record tLayer := mkLayer {
  LPixelFormat : tPixelFormat;
  LWidth : Z;
  LHeight : Z;
  LData : list Z
}.

(** The GL calls the viewer makes on the bound [GL_TEXTURE_2D] target. *)
Inductive GLCmd :=
| glBindTexture (texID : Z)
| glTexParameteri (pname param : GLenum)
| glCompressedTexImage2D (level : Z) (internalFormat : GLenum) (width height imageSize : Z) (data : list Z)
| glTexImage2D (level : Z) (internalFormat : GLenum) (width height : Z) (format type : GLenum)
    (data : list Z).

(** The bytes behind [tPicture::GetPixelPointer]: the pixels row by row,
    each as its R, G, B and A bytes. *)
Definition picture_bytes (p : tPicture) : list Z :=
  flat_map (fun y => flat_map (fun x => let c := PPixels p x y in [PR c; PG c; PB c; PA c])
                              (zseq (PWidth p)))
           (zseq (PHeight p)).

Section Upload.

(** [tLayer::GetDataSize] and [tTexture::GetLayers] (tacent). *)
Variable GetDataSize : tLayer -> Z.
Variable GetLayers : tTexture -> list tLayer.

(** [TacitImage::BindLayers]: the calls it makes.  Every level is uploaded
    with the GL format of the first layer. *)
Definition BindLayers (layers : list tLayer) (texID : Z) : list GLCmd :=
  match layers with
  | [] => []
  | first :: _ =>
      let mipmapped := 1 <? Z.of_nat (List.length layers) in
      [glBindTexture texID;
       glTexParameteri GL_TEXTURE_WRAP_S GL_REPEAT;
       glTexParameteri GL_TEXTURE_WRAP_T GL_REPEAT;
       glTexParameteri GL_TEXTURE_MAG_FILTER GL_NEAREST;
       glTexParameteri GL_TEXTURE_MIN_FILTER
         (if mipmapped then GL_LINEAR_MIPMAP_LINEAR else GL_LINEAR)] ++
      map (fun '(mipmapLevel, layer) =>
             let fi := GetGLFormatInfo (LPixelFormat first) in
             if compressed fi
             then glCompressedTexImage2D mipmapLevel (dstFormat fi) (LWidth layer) (LHeight layer)
                    (GetDataSize layer) (LData layer)
             else glTexImage2D mipmapLevel (dstFormat fi) (LWidth layer) (LHeight layer)
                    (srcFormat fi) (srcType fi) (LData layer))
          (combine (zseq (Z.of_nat (List.length layers))) layers)
  end.

(** The single RGBA8 layer made of a picture. *)
Definition picture_layer (p : tPicture) : tLayer :=
  mkLayer R8G8B8A8 (PWidth p) (PHeight p) (picture_bytes p).

(** [TacitImage::Bind]: the aggregate (with the texture names it keeps),
    the returned name and the GL calls; [gen] is the name
    [glGenTextures] yields (0 on failure). *)
Definition Bind (gen : Z) (i : TacitImage) : TacitImage * Z * list GLCmd :=
  if AltPictureEnabled i && picture_IsValid (AltPicture i) then
    if negb (TexIDAlt i =? 0) then (i, TexIDAlt i, [glBindTexture (TexIDAlt i)])
    else
      let i := set_TexIDAlt i gen in
      if TexIDAlt i =? 0 then (i, 0, [])
      else (i, TexIDAlt i, BindLayers [picture_layer (AltPicture i)] (TexIDAlt i))
  else if negb (TexIDPrimary i =? 0) then (i, TexIDPrimary i, [glBindTexture (TexIDPrimary i)])
  else if negb (IsLoaded i) then (i, 0, [])
  else
    let i := set_TexIDPrimary i gen in
    if TexIDPrimary i =? 0 then (i, 0, [])
    else if AltPictureEnabled i && CubeValid (DDSCubemap i) then
      (i, TexIDPrimary i, BindLayers (GetLayers (GetSide (DDSCubemap i) PosZ)) (TexIDPrimary i))
    else if AltPictureEnabled i && TexValid (DDSTexture2D i) then
      (i, TexIDPrimary i, BindLayers (GetLayers (DDSTexture2D i)) (TexIDPrimary i))
    else
      match Pictures i with
      | p :: _ =>
          if picture_IsValid p
          then (i, TexIDPrimary i, BindLayers [picture_layer p] (TexIDPrimary i))
          else (i, 0, [])
      | [] => (i, 0, [])
      end.

End Upload.

(** ** Viewer settings (Settings.cpp)

    The fields of [Settings] (declared in Settings.h, not under src/), with
    the types their initialisers and clamps give them: [int] fields as [Z],
    [bool] fields, [ThumbnailWidth] a [float] and [SlidehowFrameDuration] a
    [double], both as [spec_float]. *)
Record Settings := mkSettings {
  WindowW : Z;
  WindowH : Z;
  WindowX : Z;
  WindowY : Z;
  ShowLog : bool;
  InfoOverlayShow : bool;
  ContentViewShow : bool;
  ThumbnailWidth : spec_float;
  SortKey : Z;
  SortAscending : bool;
  OverlayCorner : Z;
  Tile : bool;
  BackgroundStyle : Z;
  BackgroundExtend : bool;
  ResampleFilter : Z;
  ConfirmDeletes : bool;
  ConfirmFileOverwrites : bool;
  SlidehowFrameDuration : spec_float;
  FileSaveType : Z;
  FileSaveTargaRLE : bool;
  SaveAllSizeMode : Z;
  MaxImageMemMB : Z;
  MaxCacheFiles : Z
}.

Definition set_WindowW (s : Settings) (v : Z) : Settings :=
  mkSettings v (WindowH s) (WindowX s) (WindowY s) (ShowLog s) (InfoOverlayShow s) (ContentViewShow s) (ThumbnailWidth s) (SortKey s) (SortAscending s) (OverlayCorner s) (Tile s) (BackgroundStyle s) (BackgroundExtend s) (ResampleFilter s) (ConfirmDeletes s) (ConfirmFileOverwrites s) (SlidehowFrameDuration s) (FileSaveType s) (FileSaveTargaRLE s) (SaveAllSizeMode s) (MaxImageMemMB s) (MaxCacheFiles s).

Definition set_WindowH (s : Settings) (v : Z) : Settings :=
  mkSettings (WindowW s) v (WindowX s) (WindowY s) (ShowLog s) (InfoOverlayShow s) (ContentViewShow s) (ThumbnailWidth s) (SortKey s) (SortAscending s) (OverlayCorner s) (Tile s) (BackgroundStyle s) (BackgroundExtend s) (ResampleFilter s) (ConfirmDeletes s) (ConfirmFileOverwrites s) (SlidehowFrameDuration s) (FileSaveType s) (FileSaveTargaRLE s) (SaveAllSizeMode s) (MaxImageMemMB s) (MaxCacheFiles s).

Definition set_WindowX (s : Settings) (v : Z) : Settings :=
  mkSettings (WindowW s) (WindowH s) v (WindowY s) (ShowLog s) (InfoOverlayShow s) (ContentViewShow s) (ThumbnailWidth s) (SortKey s) (SortAscending s) (OverlayCorner s) (Tile s) (BackgroundStyle s) (BackgroundExtend s) (ResampleFilter s) (ConfirmDeletes s) (ConfirmFileOverwrites s) (SlidehowFrameDuration s) (FileSaveType s) (FileSaveTargaRLE s) (SaveAllSizeMode s) (MaxImageMemMB s) (MaxCacheFiles s).

Definition set_WindowY (s : Settings) (v : Z) : Settings :=
  mkSettings (WindowW s) (WindowH s) (WindowX s) v (ShowLog s) (InfoOverlayShow s) (ContentViewShow s) (ThumbnailWidth s) (SortKey s) (SortAscending s) (OverlayCorner s) (Tile s) (BackgroundStyle s) (BackgroundExtend s) (ResampleFilter s) (ConfirmDeletes s) (ConfirmFileOverwrites s) (SlidehowFrameDuration s) (FileSaveType s) (FileSaveTargaRLE s) (SaveAllSizeMode s) (MaxImageMemMB s) (MaxCacheFiles s).

Definition set_ShowLog (s : Settings) (v : bool) : Settings :=
  mkSettings (WindowW s) (WindowH s) (WindowX s) (WindowY s) v (InfoOverlayShow s) (ContentViewShow s) (ThumbnailWidth s) (SortKey s) (SortAscending s) (OverlayCorner s) (Tile s) (BackgroundStyle s) (BackgroundExtend s) (ResampleFilter s) (ConfirmDeletes s) (ConfirmFileOverwrites s) (SlidehowFrameDuration s) (FileSaveType s) (FileSaveTargaRLE s) (SaveAllSizeMode s) (MaxImageMemMB s) (MaxCacheFiles s).

Definition set_InfoOverlayShow (s : Settings) (v : bool) : Settings :=
  mkSettings (WindowW s) (WindowH s) (WindowX s) (WindowY s) (ShowLog s) v (ContentViewShow s) (ThumbnailWidth s) (SortKey s) (SortAscending s) (OverlayCorner s) (Tile s) (BackgroundStyle s) (BackgroundExtend s) (ResampleFilter s) (ConfirmDeletes s) (ConfirmFileOverwrites s) (SlidehowFrameDuration s) (FileSaveType s) (FileSaveTargaRLE s) (SaveAllSizeMode s) (MaxImageMemMB s) (MaxCacheFiles s).

Definition set_ContentViewShow (s : Settings) (v : bool) : Settings :=
  mkSettings (WindowW s) (WindowH s) (WindowX s) (WindowY s) (ShowLog s) (InfoOverlayShow s) v (ThumbnailWidth s) (SortKey s) (SortAscending s) (OverlayCorner s) (Tile s) (BackgroundStyle s) (BackgroundExtend s) (ResampleFilter s) (ConfirmDeletes s) (ConfirmFileOverwrites s) (SlidehowFrameDuration s) (FileSaveType s) (FileSaveTargaRLE s) (SaveAllSizeMode s) (MaxImageMemMB s) (MaxCacheFiles s).

Definition set_ThumbnailWidth (s : Settings) (v : spec_float) : Settings :=
  mkSettings (WindowW s) (WindowH s) (WindowX s) (WindowY s) (ShowLog s) (InfoOverlayShow s) (ContentViewShow s) v (SortKey s) (SortAscending s) (OverlayCorner s) (Tile s) (BackgroundStyle s) (BackgroundExtend s) (ResampleFilter s) (ConfirmDeletes s) (ConfirmFileOverwrites s) (SlidehowFrameDuration s) (FileSaveType s) (FileSaveTargaRLE s) (SaveAllSizeMode s) (MaxImageMemMB s) (MaxCacheFiles s).

Definition set_SortKey (s : Settings) (v : Z) : Settings :=
  mkSettings (WindowW s) (WindowH s) (WindowX s) (WindowY s) (ShowLog s) (InfoOverlayShow s) (ContentViewShow s) (ThumbnailWidth s) v (SortAscending s) (OverlayCorner s) (Tile s) (BackgroundStyle s) (BackgroundExtend s) (ResampleFilter s) (ConfirmDeletes s) (ConfirmFileOverwrites s) (SlidehowFrameDuration s) (FileSaveType s) (FileSaveTargaRLE s) (SaveAllSizeMode s) (MaxImageMemMB s) (MaxCacheFiles s).

Definition set_SortAscending (s : Settings) (v : bool) : Settings :=
  mkSettings (WindowW s) (WindowH s) (WindowX s) (WindowY s) (ShowLog s) (InfoOverlayShow s) (ContentViewShow s) (ThumbnailWidth s) (SortKey s) v (OverlayCorner s) (Tile s) (BackgroundStyle s) (BackgroundExtend s) (ResampleFilter s) (ConfirmDeletes s) (ConfirmFileOverwrites s) (SlidehowFrameDuration s) (FileSaveType s) (FileSaveTargaRLE s) (SaveAllSizeMode s) (MaxImageMemMB s) (MaxCacheFiles s).

Definition set_OverlayCorner (s : Settings) (v : Z) : Settings :=
  mkSettings (WindowW s) (WindowH s) (WindowX s) (WindowY s) (ShowLog s) (InfoOverlayShow s) (ContentViewShow s) (ThumbnailWidth s) (SortKey s) (SortAscending s) v (Tile s) (BackgroundStyle s) (BackgroundExtend s) (ResampleFilter s) (ConfirmDeletes s) (ConfirmFileOverwrites s) (SlidehowFrameDuration s) (FileSaveType s) (FileSaveTargaRLE s) (SaveAllSizeMode s) (MaxImageMemMB s) (MaxCacheFiles s).

Definition set_Tile (s : Settings) (v : bool) : Settings :=
  mkSettings (WindowW s) (WindowH s) (WindowX s) (WindowY s) (ShowLog s) (InfoOverlayShow s) (ContentViewShow s) (ThumbnailWidth s) (SortKey s) (SortAscending s) (OverlayCorner s) v (BackgroundStyle s) (BackgroundExtend s) (ResampleFilter s) (ConfirmDeletes s) (ConfirmFileOverwrites s) (SlidehowFrameDuration s) (FileSaveType s) (FileSaveTargaRLE s) (SaveAllSizeMode s) (MaxImageMemMB s) (MaxCacheFiles s).

Definition set_BackgroundStyle (s : Settings) (v : Z) : Settings :=
  mkSettings (WindowW s) (WindowH s) (WindowX s) (WindowY s) (ShowLog s) (InfoOverlayShow s) (ContentViewShow s) (ThumbnailWidth s) (SortKey s) (SortAscending s) (OverlayCorner s) (Tile s) v (BackgroundExtend s) (ResampleFilter s) (ConfirmDeletes s) (ConfirmFileOverwrites s) (SlidehowFrameDuration s) (FileSaveType s) (FileSaveTargaRLE s) (SaveAllSizeMode s) (MaxImageMemMB s) (MaxCacheFiles s).

Definition set_BackgroundExtend (s : Settings) (v : bool) : Settings :=
  mkSettings (WindowW s) (WindowH s) (WindowX s) (WindowY s) (ShowLog s) (InfoOverlayShow s) (ContentViewShow s) (ThumbnailWidth s) (SortKey s) (SortAscending s) (OverlayCorner s) (Tile s) (BackgroundStyle s) v (ResampleFilter s) (ConfirmDeletes s) (ConfirmFileOverwrites s) (SlidehowFrameDuration s) (FileSaveType s) (FileSaveTargaRLE s) (SaveAllSizeMode s) (MaxImageMemMB s) (MaxCacheFiles s).

Definition set_ResampleFilter (s : Settings) (v : Z) : Settings :=
  mkSettings (WindowW s) (WindowH s) (WindowX s) (WindowY s) (ShowLog s) (InfoOverlayShow s) (ContentViewShow s) (ThumbnailWidth s) (SortKey s) (SortAscending s) (OverlayCorner s) (Tile s) (BackgroundStyle s) (BackgroundExtend s) v (ConfirmDeletes s) (ConfirmFileOverwrites s) (SlidehowFrameDuration s) (FileSaveType s) (FileSaveTargaRLE s) (SaveAllSizeMode s) (MaxImageMemMB s) (MaxCacheFiles s).

Definition set_ConfirmDeletes (s : Settings) (v : bool) : Settings :=
  mkSettings (WindowW s) (WindowH s) (WindowX s) (WindowY s) (ShowLog s) (InfoOverlayShow s) (ContentViewShow s) (ThumbnailWidth s) (SortKey s) (SortAscending s) (OverlayCorner s) (Tile s) (BackgroundStyle s) (BackgroundExtend s) (ResampleFilter s) v (ConfirmFileOverwrites s) (SlidehowFrameDuration s) (FileSaveType s) (FileSaveTargaRLE s) (SaveAllSizeMode s) (MaxImageMemMB s) (MaxCacheFiles s).

Definition set_ConfirmFileOverwrites (s : Settings) (v : bool) : Settings :=
  mkSettings (WindowW s) (WindowH s) (WindowX s) (WindowY s) (ShowLog s) (InfoOverlayShow s) (ContentViewShow s) (ThumbnailWidth s) (SortKey s) (SortAscending s) (OverlayCorner s) (Tile s) (BackgroundStyle s) (BackgroundExtend s) (ResampleFilter s) (ConfirmDeletes s) v (SlidehowFrameDuration s) (FileSaveType s) (FileSaveTargaRLE s) (SaveAllSizeMode s) (MaxImageMemMB s) (MaxCacheFiles s).

Definition set_SlidehowFrameDuration (s : Settings) (v : spec_float) : Settings :=
  mkSettings (WindowW s) (WindowH s) (WindowX s) (WindowY s) (ShowLog s) (InfoOverlayShow s) (ContentViewShow s) (ThumbnailWidth s) (SortKey s) (SortAscending s) (OverlayCorner s) (Tile s) (BackgroundStyle s) (BackgroundExtend s) (ResampleFilter s) (ConfirmDeletes s) (ConfirmFileOverwrites s) v (FileSaveType s) (FileSaveTargaRLE s) (SaveAllSizeMode s) (MaxImageMemMB s) (MaxCacheFiles s).

Definition set_FileSaveType (s : Settings) (v : Z) : Settings :=
  mkSettings (WindowW s) (WindowH s) (WindowX s) (WindowY s) (ShowLog s) (InfoOverlayShow s) (ContentViewShow s) (ThumbnailWidth s) (SortKey s) (SortAscending s) (OverlayCorner s) (Tile s) (BackgroundStyle s) (BackgroundExtend s) (ResampleFilter s) (ConfirmDeletes s) (ConfirmFileOverwrites s) (SlidehowFrameDuration s) v (FileSaveTargaRLE s) (SaveAllSizeMode s) (MaxImageMemMB s) (MaxCacheFiles s).

Definition set_FileSaveTargaRLE (s : Settings) (v : bool) : Settings :=
  mkSettings (WindowW s) (WindowH s) (WindowX s) (WindowY s) (ShowLog s) (InfoOverlayShow s) (ContentViewShow s) (ThumbnailWidth s) (SortKey s) (SortAscending s) (OverlayCorner s) (Tile s) (BackgroundStyle s) (BackgroundExtend s) (ResampleFilter s) (ConfirmDeletes s) (ConfirmFileOverwrites s) (SlidehowFrameDuration s) (FileSaveType s) v (SaveAllSizeMode s) (MaxImageMemMB s) (MaxCacheFiles s).

Definition set_SaveAllSizeMode (s : Settings) (v : Z) : Settings :=
  mkSettings (WindowW s) (WindowH s) (WindowX s) (WindowY s) (ShowLog s) (InfoOverlayShow s) (ContentViewShow s) (ThumbnailWidth s) (SortKey s) (SortAscending s) (OverlayCorner s) (Tile s) (BackgroundStyle s) (BackgroundExtend s) (ResampleFilter s) (ConfirmDeletes s) (ConfirmFileOverwrites s) (SlidehowFrameDuration s) (FileSaveType s) (FileSaveTargaRLE s) v (MaxImageMemMB s) (MaxCacheFiles s).

Definition set_MaxImageMemMB (s : Settings) (v : Z) : Settings :=
  mkSettings (WindowW s) (WindowH s) (WindowX s) (WindowY s) (ShowLog s) (InfoOverlayShow s) (ContentViewShow s) (ThumbnailWidth s) (SortKey s) (SortAscending s) (OverlayCorner s) (Tile s) (BackgroundStyle s) (BackgroundExtend s) (ResampleFilter s) (ConfirmDeletes s) (ConfirmFileOverwrites s) (SlidehowFrameDuration s) (FileSaveType s) (FileSaveTargaRLE s) (SaveAllSizeMode s) v (MaxCacheFiles s).

Definition set_MaxCacheFiles (s : Settings) (v : Z) : Settings :=
  mkSettings (WindowW s) (WindowH s) (WindowX s) (WindowY s) (ShowLog s) (InfoOverlayShow s) (ContentViewShow s) (ThumbnailWidth s) (SortKey s) (SortAscending s) (OverlayCorner s) (Tile s) (BackgroundStyle s) (BackgroundExtend s) (ResampleFilter s) (ConfirmDeletes s) (ConfirmFileOverwrites s) (SlidehowFrameDuration s) (FileSaveType s) (FileSaveTargaRLE s) (SaveAllSizeMode s) (MaxImageMemMB s) v.

(** [double] is IEEE binary64. *)
Definition prec64 : Z := 53.
Definition emax64 : Z := 1024.
Definition double_of_int (n : Z) : spec_float := binary_normalize prec64 emax64 n 0 false.

(** [Settings::Reset()]. *)
Definition Settings_Reset : Settings :=
  mkSettings 1280 720 100 100 false false false (float_of_int 128) 0 true 3 false 1 false 2
    true true (SFdiv prec64 emax64 (double_of_int 1) (double_of_int 30)) 0 false 0 1024 7000.

(** [Settings::Reset(screenW, screenH)]: the window centred on the screen. *)
Definition Settings_Reset_screen (screenW screenH : Z) : Settings :=
  let s := Settings_Reset in
  let s := set_WindowX s (Z.shiftr (screenW - WindowW s) 1) in
  set_WindowY s (Z.shiftr (screenH - WindowH s) 1).

(** tacent's [tiClamp] on an [int] and on a [float]:
    [val = (val < min) ? min : ((val > max) ? max : val)]. *)
Definition tiClamp (v lo hi : Z) : Z := if v <? lo then lo else if hi <? v then hi else v.
Definition tiClamp_f (v lo hi : spec_float) : spec_float :=
  if fltb v lo then lo else if fltb hi v then hi else v.

(** The values [Settings::Save] hands to [tScriptWriter::Comp], by type. *)
Inductive SValue := SInt (n : Z) | SBool (b : bool) | SFloat (f : spec_float) | SDouble (d : spec_float).

(** [Settings::Save]: the items in the order written
    ([BackgroundExtend] before [BackgroundStyle]). *)
Definition Settings_Save (s : Settings) : list (string * SValue) :=
  [("WindowX"%string, SInt (WindowX s));
   ("WindowY"%string, SInt (WindowY s));
   ("WindowW"%string, SInt (WindowW s));
   ("WindowH"%string, SInt (WindowH s));
   ("ShowLog"%string, SBool (ShowLog s));
   ("InfoOverlayShow"%string, SBool (InfoOverlayShow s));
   ("ContentViewShow"%string, SBool (ContentViewShow s));
   ("ThumbnailWidth"%string, SFloat (ThumbnailWidth s));
   ("SortKey"%string, SInt (SortKey s));
   ("SortAscending"%string, SBool (SortAscending s));
   ("OverlayCorner"%string, SInt (OverlayCorner s));
   ("Tile"%string, SBool (Tile s));
   ("BackgroundExtend"%string, SBool (BackgroundExtend s));
   ("BackgroundStyle"%string, SInt (BackgroundStyle s));
   ("ResampleFilter"%string, SInt (ResampleFilter s));
   ("ConfirmDeletes"%string, SBool (ConfirmDeletes s));
   ("ConfirmFileOverwrites"%string, SBool (ConfirmFileOverwrites s));
   ("SlidehowFrameDuration"%string, SDouble (SlidehowFrameDuration s));
   ("FileSaveType"%string, SInt (FileSaveType s));
   ("FileSaveTargaRLE"%string, SBool (FileSaveTargaRLE s));
   ("SaveAllSizeMode"%string, SInt (SaveAllSizeMode s));
   ("MaxImageMemMB"%string, SInt (MaxImageMemMB s));
   ("MaxCacheFiles"%string, SInt (MaxCacheFiles s))].

Section SettingsLoad.
(** tacent's script expressions ([tExpr], not under src/): the argument of
    an item and its conversions to [int], [bool], [float] and [double], and
    the string hash [tHash] ([tHashCT] at compile time, [Hash] at run time). *)
Variable tExpr : Type.
Variable ExprInt : tExpr -> Z.
Variable ExprBool : tExpr -> bool.
Variable ExprFloat : tExpr -> spec_float.
Variable ExprDouble : tExpr -> spec_float.
Variable tHash : string -> Z.

(** One [ReadItem] switch case of [Settings::Load] (lines 74-98): the
    hash of the command against each case label in turn. *)
Definition read_item (s : Settings) (h : Z) (e : tExpr) : Settings :=
  if h =? tHash "WindowX" then set_WindowX s (ExprInt e)
  else if h =? tHash "WindowY" then set_WindowY s (ExprInt e)
  else if h =? tHash "WindowW" then set_WindowW s (ExprInt e)
  else if h =? tHash "WindowH" then set_WindowH s (ExprInt e)
  else if h =? tHash "ShowLog" then set_ShowLog s (ExprBool e)
  else if h =? tHash "InfoOverlayShow" then set_InfoOverlayShow s (ExprBool e)
  else if h =? tHash "ContentViewShow" then set_ContentViewShow s (ExprBool e)
  else if h =? tHash "ThumbnailWidth" then set_ThumbnailWidth s (ExprFloat e)
  else if h =? tHash "SortKey" then set_SortKey s (ExprInt e)
  else if h =? tHash "SortAscending" then set_SortAscending s (ExprBool e)
  else if h =? tHash "OverlayCorner" then set_OverlayCorner s (ExprInt e)
  else if h =? tHash "Tile" then set_Tile s (ExprBool e)
  else if h =? tHash "BackgroundStyle" then set_BackgroundStyle s (ExprInt e)
  else if h =? tHash "BackgroundExtend" then set_BackgroundExtend s (ExprBool e)
  else if h =? tHash "ResampleFilter" then set_ResampleFilter s (ExprInt e)
  else if h =? tHash "ConfirmDeletes" then set_ConfirmDeletes s (ExprBool e)
  else if h =? tHash "ConfirmFileOverwrites" then set_ConfirmFileOverwrites s (ExprBool e)
  else if h =? tHash "SlidehowFrameDuration" then set_SlidehowFrameDuration s (ExprDouble e)
  else if h =? tHash "FileSaveType" then set_FileSaveType s (ExprInt e)
  else if h =? tHash "FileSaveTargaRLE" then set_FileSaveTargaRLE s (ExprBool e)
  else if h =? tHash "SaveAllSizeMode" then set_SaveAllSizeMode s (ExprInt e)
  else if h =? tHash "MaxImageMemMB" then set_MaxImageMemMB s (ExprInt e)
  else if h =? tHash "MaxCacheFiles" then set_MaxCacheFiles s (ExprInt e)
  else s.

(** [Settings::Load]: [None] is a missing file; a file is the list of its
    expressions, as (command, first argument). The clamps follow. *)
Definition Settings_Load (file : option (list (string * tExpr))) (screenW screenH : Z)
    (ThumbMinDispWidth ThumbWidth : Z) (s : Settings) : Settings :=
  let s := match file with
           | None => Settings_Reset_screen screenW screenH
           | Some exprs => fold_left (fun s '(cmd, e) => read_item s (tHash cmd) e) exprs s
           end in
  let s := set_ResampleFilter s (tiClamp (ResampleFilter s) 0 5) in
  let s := set_BackgroundStyle s (tiClamp (BackgroundStyle s) 0 4) in
  let s := set_WindowW s (tiClamp (WindowW s) 640 screenW) in
  let s := set_WindowH s (tiClamp (WindowH s) 360 screenH) in
  let s := set_WindowX s (tiClamp (WindowX s) 0 (screenW - WindowW s)) in
  let s := set_WindowY s (tiClamp (WindowY s) 0 (screenH - WindowH s)) in
  let s := set_OverlayCorner s (tiClamp (OverlayCorner s) 0 3) in
  let s := set_FileSaveType s (tiClamp (FileSaveType s) 0 4) in
  let s := set_ThumbnailWidth s (tiClamp_f (ThumbnailWidth s) (float_of_int ThumbMinDispWidth) (float_of_int ThumbWidth)) in
  let s := set_SortKey s (tiClamp (SortKey s) 0 3) in
  let s := set_MaxImageMemMB s (tClampMin (MaxImageMemMB s) 256) in
  let s := set_MaxCacheFiles s (tClampMin (MaxCacheFiles s) 200) in
  set_SaveAllSizeMode s (tiClamp (SaveAllSizeMode s) 0 3).

End SettingsLoad.

(** The names of the 23 items. *)
Definition settings_names : list string := ["WindowX"%string; "WindowY"%string; "WindowW"%string; "WindowH"%string; "ShowLog"%string; "InfoOverlayShow"%string; "ContentViewShow"%string; "ThumbnailWidth"%string; "SortKey"%string; "SortAscending"%string; "OverlayCorner"%string; "Tile"%string; "BackgroundStyle"%string; "BackgroundExtend"%string; "ResampleFilter"%string; "ConfirmDeletes"%string; "ConfirmFileOverwrites"%string; "SlidehowFrameDuration"%string; "FileSaveType"%string; "FileSaveTargaRLE"%string; "SaveAllSizeMode"%string; "MaxImageMemMB"%string; "MaxCacheFiles"%string].

(** The [int] and the [bool] fields of a settings value. *)
Definition int_fields (s : Settings) : list Z := [WindowW s; WindowH s; WindowX s; WindowY s; SortKey s; OverlayCorner s; BackgroundStyle s; ResampleFilter s; FileSaveType s; SaveAllSizeMode s; MaxImageMemMB s; MaxCacheFiles s].
Definition bool_fields (s : Settings) : list bool := [ShowLog s; InfoOverlayShow s; ContentViewShow s; SortAscending s; Tile s; BackgroundExtend s; ConfirmDeletes s; ConfirmFileOverwrites s; FileSaveTargaRLE s].

(** The ranges [Settings::Load]'s clamps enforce, for a screen. *)
Definition settings_in_range (screenW screenH : Z) (s : Settings) : bool :=
  (0 <=? ResampleFilter s) && (ResampleFilter s <=? 5) &&
  (0 <=? BackgroundStyle s) && (BackgroundStyle s <=? 4) &&
  (640 <=? WindowW s) && (WindowW s <=? screenW) &&
  (360 <=? WindowH s) && (WindowH s <=? screenH) &&
  (0 <=? WindowX s) && (WindowX s <=? screenW - WindowW s) &&
  (0 <=? WindowY s) && (WindowY s <=? screenH - WindowH s) &&
  (0 <=? OverlayCorner s) && (OverlayCorner s <=? 3) &&
  (0 <=? FileSaveType s) && (FileSaveType s <=? 4) &&
  (0 <=? SortKey s) && (SortKey s <=? 3) &&
  (256 <=? MaxImageMemMB s) && (200 <=? MaxCacheFiles s) &&
  (0 <=? SaveAllSizeMode s) && (SaveAllSizeMode s <=? 3).

Fixpoint nodupb (l : list Z) : bool :=
  match l with
  | [] => true
  | x :: r => negb (existsb (Z.eqb x) r) && nodupb r
  end.

(** ** The log window ([TextureViewerLog], TacitTexView.cpp) *)

(** The log: the text buffer, the offsets of the line starts and the
    scroll request. *)
Record TextureViewerLog := mkLog {
  Buf : list ascii;
  LineOffsets : list Z;
  ScrollToBottom : bool
}.

Definition newline : ascii := "010"%char.

(** [Clear]. *)
Definition Log_Clear (l : TextureViewerLog) : TextureViewerLog :=
  mkLog [] [0] (ScrollToBottom l).

(** The constructor: [ScrollToBottom(true)], then [Clear()]. *)
Definition Log_new : TextureViewerLog := Log_Clear (mkLog [] [] true).

(** What [appendfv("%s", text)] appends: the C string, up to its NUL. *)
Fixpoint cstr (text : list ascii) : list ascii :=
  match text with
  | [] => []
  | c :: r => if Ascii.eqb c "000"%char then [] else c :: cstr r
  end.

(** The loop of [AddLog]: from [old_size] up to [new_size], an offset
    [old_size + 1] pushed for each ['\n'] of the buffer. *)
Fixpoint scan_newlines (buf : list ascii) (old_size : Z) (fuel : nat) (offs : list Z) : list Z :=
  match fuel with
  | O => offs
  | S f => scan_newlines buf (old_size + 1) f
             (if Ascii.eqb (nth (Z.to_nat old_size) buf "000"%char) newline
              then offs ++ [old_size + 1] else offs)
  end.

(** [AddLog("%s", text)], as [PrintRedirectCallback] calls it. *)
Definition Log_AddLog (l : TextureViewerLog) (text : list ascii) : TextureViewerLog :=
  let old_size := Z.of_nat (List.length (Buf l)) in
  let buf := Buf l ++ cstr text in
  let new_size := Z.of_nat (List.length buf) in
  mkLog buf (scan_newlines buf old_size (Z.to_nat (new_size - old_size)) (LineOffsets l)) true.

(** The characters [TextUnformatted(line_start, line_end)] shows. *)
Definition buf_range (buf : list ascii) (s e : Z) : list ascii :=
  firstn (Z.to_nat (e - s)) (skipn (Z.to_nat s) buf).

(** Line [line_no] of [Draw]. *)
Definition Log_line (l : TextureViewerLog) (line_no : nat) : list ascii :=
  let line_start := nth line_no (LineOffsets l) 0 in
  let line_end := if (line_no + 1 <? List.length (LineOffsets l))%nat
                  then nth (line_no + 1) (LineOffsets l) 0 - 1
                  else Z.of_nat (List.length (Buf l)) in
  buf_range (Buf l) line_start line_end.

(** The lines [Draw] shows, without a filter (the clipper only picks the
    visible ones among them). *)
Definition Log_lines (l : TextureViewerLog) : list (list ascii) :=
  map (Log_line l) (seq 0 (List.length (LineOffsets l))).

Inductive LogOp := LogClear | LogAdd (text : list ascii).

Definition log_step (l : TextureViewerLog) (op : LogOp) : TextureViewerLog :=
  match op with
  | LogClear => Log_Clear l
  | LogAdd text => Log_AddLog l text
  end.

(** Lines joined back with ['\n']. *)
Fixpoint join_lines (ls : list (list ascii)) : list ascii :=
  match ls with
  | [] => []
  | [x] => x
  | x :: r => x ++ newline :: join_lines r
  end.

Definition count_newlines (b : list ascii) : nat :=
  List.length (filter (fun c => Ascii.eqb c newline) b).


(** The offsets after each ['\n'] of [b], placed at [p]. *)
Fixpoint nl_from (b : list ascii) (p : Z) : list Z :=
  match b with
  | [] => []
  | c :: r => if Ascii.eqb c newline then (p + 1) :: nl_from r (p + 1) else nl_from r (p + 1)
  end.

Fixpoint split_lines (b : list ascii) : list (list ascii) :=
  match b with
  | [] => [[]]
  | c :: r =>
      let ls := split_lines r in
      if Ascii.eqb c newline then [] :: ls
      else match ls with
           | x :: ls' => (c :: x) :: ls'
           | [] => [[c]]
           end
  end.

Fixpoint rec_lines (buf : list ascii) (offs : list Z) : list (list ascii) :=
  match offs with
  | [] => []
  | [o] => [buf_range buf o (Z.of_nat (List.length buf))]
  | o :: ((o' :: _) as r) => buf_range buf o (o' - 1) :: rec_lines buf r
  end.

(** An aggregate whose thumbnail machinery is at rest: no worker running or
    alive, and a requested thumbnail's flag set (so [BindThumbnail] has
    nothing to collect). *)
Definition thumb_idle (i : TacitImage) : bool :=
  negb (ThumbnailThreadRunning i) && negb (ThumbnailThreadAlive i) &&
  implb (ThumbnailRequested i) (ThumbnailThreadFlag i).

(** ** The contact sheet ([TexView::ShowContactSheetDialog], lines 985-1066) *)

(** [tPicture::GetPixel] and [tPicture::SetPixel] index the pixel array
    without a check: outside the picture (and on an invalid picture, whose
    array is null) the access is undefined behaviour. The model reports it
    as [None]. *)
Definition in_picture (p : tPicture) (x y : Z) : bool :=
  (0 <=? x) && (x <? PWidth p) && (0 <=? y) && (y <? PHeight p).

Definition picture_GetPixel_checked (p : tPicture) (x y : Z) : option tPixel :=
  if in_picture p x y then Some (picture_GetPixel p x y) else None.

Definition picture_SetPixel_checked (p : tPicture) (x y : Z) (c : tPixel) : option tPicture :=
  if in_picture p x y then Some (picture_SetPixel p x y c) else None.

Section ContactSheet.
(** The resampler of [Config.ResampleFilter], tacent's [tGetFileBaseName],
    the output file, and the loop's frame size and grid. *)
Variable lib : Tacent.
Variable tGetFileBaseName : string -> string.
Variable outFile : string.
Variables frameWidth frameHeight numCols numRows : Z.

(** Lines 1046-1054: the frame copied into its cell, rows counted from the
    bottom of the picture. *)
Definition CopyFrame (outPic currPic resampled : tPicture) (ix iy : Z) : option tPicture :=
  fold_left
    (fun acc y =>
       fold_left
         (fun acc x =>
            match acc with
            | None => None
            | Some outPic =>
                let c := if picture_IsValid resampled then picture_GetPixel_checked resampled x y
                         else picture_GetPixel_checked currPic x y in
                match c with
                | None => None
                | Some c => picture_SetPixel_checked outPic (x + ix * frameWidth)
                              (y + (numRows - 1 - iy) * frameHeight) c
                end
            end)
         (zseq frameWidth) acc)
    (zseq frameHeight) (Some outPic).

(** Lines 1019-1066: the [while] over the images. The result is the sheet
    and the lines printed, [(frame, Filename, ix, iy)]. *)
Fixpoint ContactSheet_loop (imgs : list TacitImage) (ix iy frame : Z) (outPic : tPicture)
    : option (tPicture * list (Z * string * Z * Z)) :=
  match imgs with
  | [] => Some (outPic, [])
  | img :: rest =>
      if negb (IsLoaded img) then ContactSheet_loop rest ix iy frame outPic
      else if String.eqb (tGetFileBaseName (Filename img)) (tGetFileBaseName outFile)
      then ContactSheet_loop rest ix iy frame outPic
      else
        match GetPrimaryPicture img with
        | None => None
        | Some currPic =>
            let resampled :=
              if negb (GetWidth img =? frameWidth) || negb (GetHeight img =? frameHeight)
              then picture_Resample lib currPic frameWidth frameHeight
              else picture_invalid in
            match CopyFrame outPic currPic resampled ix iy with
            | None => None
            | Some outPic =>
                let res :=
                  if numCols <=? ix + 1 then
                    if numRows <=? iy + 1 then Some (outPic, [])
                    else ContactSheet_loop rest 0 (iy + 1) (frame + 1) outPic
                  else ContactSheet_loop rest (ix + 1) iy (frame + 1) outPic in
                option_map (fun '(p, log) => (p, (frame, Filename img, ix, iy) :: log)) res
            end
        end
  end.

End ContactSheet.

(** Lines 1010-1017: every image not loaded is loaded. *)
Definition ContactSheet_LoadAll (env : LoadEnv) (imgs : list TacitImage) : list TacitImage :=
  map (fun i => if IsLoaded i then i else fst (Load_noarg env i)) imgs.

Inductive SheetOutcome :=
| SheetNotGenerated
| SheetFault
| SheetDone (pic : tPicture) (log : list (Z * string * Z * Z)) (allOpaque : bool).

(** A value an [int] holds. *)
Definition int_ok (z : Z) : bool := (-2^31 <=? z) && (z <? 2^31).

(** The generation, from the dialog's frame size and grid (lines 897-898:
    [contactWidth = frameWidth * numCols]): a fault on an [int] overflow
    (undefined behaviour) of the sizes; nothing with fewer than two images
    (line 992); a fault on a division by zero (no columns or rows); otherwise
    the sheet and the printed lines of the loop, and [allOpaque] (lines
    1009-1017), before the final resample and save. *)
Definition GenerateContactSheet (env : LoadEnv) (lib : Tacent) (tGetFileBaseName : string -> string)
    (outFile : string) (frameWidthS frameHeightS numRows numCols : Z) (imgs : list TacitImage)
    : SheetOutcome :=
  let contactWidth := frameWidthS * numCols in
  let contactHeight := frameHeightS * numRows in
  if negb (int_ok contactWidth && int_ok contactHeight) then SheetFault
  else if Z.of_nat (List.length imgs) <? 2 then SheetNotGenerated
  else if (numCols =? 0) || (numRows =? 0) then SheetFault
    else
      let outPic := picture_Set contactWidth contactHeight transparent in
      let frameWidth := Z.quot contactWidth numCols in
      let frameHeight := Z.quot contactHeight numRows in
      if negb (int_ok frameWidth && int_ok frameHeight) then SheetFault
      else
        let imgs := ContactSheet_LoadAll env imgs in
        let allOpaque := forallb (fun i => negb (IsLoaded i) || IsOpaque i) imgs in
        match ContactSheet_loop lib tGetFileBaseName outFile frameWidth frameHeight numCols numRows
                imgs 0 0 0 outPic with
        | None => SheetFault
        | Some (pic, log) => SheetDone pic log allOpaque
        end.

(** The images the loop places: loaded, and not named as the output. *)
Definition sheet_eligible (tGetFileBaseName : string -> string) (outFile : string)
    (imgs : list TacitImage) : list TacitImage :=
  filter (fun i => IsLoaded i &&
                   negb (String.eqb (tGetFileBaseName (Filename i)) (tGetFileBaseName outFile))) imgs.

(** An image whose frame can be read: its primary picture is valid and has
    the size [GetWidth] and [GetHeight] report. *)
Definition sheet_readable (i : TacitImage) : bool :=
  match Pictures i with
  | p :: _ => picture_IsValid p && (GetWidth i =? PWidth p) && (GetHeight i =? PHeight p)
  | [] => false
  end.

(** The picture a placed image's frame is read from. *)
Definition sheet_source (lib : Tacent) (frameWidth frameHeight : Z) (i : TacitImage) : tPicture :=
  let p := hd picture_invalid (Pictures i) in
  if (GetWidth i =? frameWidth) && (GetHeight i =? frameHeight) then p
  else picture_Resample lib p frameWidth frameHeight.

(** The lines [Processing frame k : name at (k mod numCols, k / numCols)]. *)
Fixpoint sheet_log (numCols : Z) (k : nat) (imgs : list TacitImage) : list (Z * string * Z * Z) :=
  match imgs with
  | [] => []
  | i :: rest => (Z.of_nat k, Filename i, Z.of_nat k mod numCols, Z.of_nat k / numCols)
                 :: sheet_log numCols (S k) rest
  end.

(** The cell of pixel [(a, b)], counted in the loop's order: rows from the
    top of the picture, since the loop fills them from the bottom up. *)
Definition sheet_cell (frameWidth frameHeight numCols numRows a b : Z) : Z :=
  (numRows - 1 - b / frameHeight) * numCols + a / frameWidth.

(** The pixel of the finished sheet: the frame of the image of its cell, or
    transparent for a cell no image fills. *)
Definition sheet_pixel (lib : Tacent) (fw fh C R : Z) (L : list TacitImage) (a b : Z) : tPixel :=
  match nth_error L (Z.to_nat (sheet_cell fw fh C R a b)) with
  | Some i => PPixels (sheet_source lib fw fh i) (a mod fw) (b mod fh)
  | None => transparent
  end.

(** ** Examples of the further models *)

(** A concrete reader and hash for the examples: an item's argument is the
    value written, and a 32-bit multiplicative string hash. *)
Definition ex_ExprInt (v : SValue) : Z := match v with SInt n => n | _ => 0 end.
Definition ex_ExprBool (v : SValue) : bool := match v with SBool b => b | _ => false end.
Definition ex_ExprFloat (v : SValue) : spec_float := match v with SFloat f => f | _ => S754_zero false end.
Definition ex_ExprDouble (v : SValue) : spec_float := match v with SDouble d => d | _ => S754_zero false end.
Definition ex_hash (str : string) : Z :=
  fold_left (fun h c => (h * 131 + Z.of_N (Ascii.N_of_ascii c)) mod 2 ^ 32) (list_ascii_of_string str) 0.

(** Two workers started on a one-core machine, both finished, both aggregates
    destroyed before any [BindThumbnail]: the counter stays at 2. *)
Definition ex_starved_world : World :=
  run (world_init 1)
    [OpNew ex_png_env "a.png"; OpNew ex_png_env "b.png"; OpRequest 0; OpRequest 1;
     OpFinish 0 ex_photo; OpFinish 1 ex_photo; OpDestroy 0; OpDestroy 0].

(** GL services for the examples: a layer's data size is its byte count, and
    a texture has its first mip level as its only layer. *)
Definition ex_GetDataSize (l : tLayer) : Z := Z.of_nat (List.length (LData l)).
Definition ex_GetLayers (t : tTexture) : list tLayer :=
  [mkLayer (TexFormat t) (TexWidth t) (TexHeight t) []].

Definition ex_loaded_png : TacitImage := fst (Load_noarg ex_png_env ex_png_img).
Definition ex_bind : TacitImage * Z * list GLCmd := Bind ex_GetDataSize ex_GetLayers 5 ex_loaded_png.

(** The placeholder a failed load leaves. *)
Definition ex_failed_img : TacitImage :=
  fst (Load_noarg ex_env_missing (TacitImage_new ex_env_missing "photo.png")).

(** A 4x2 DDS 2D texture of three mip levels, and no cubemap. *)
Definition ex_dds_tex : tTexture := mkTexture true R8G8B8A8 4 2 3 true (fun _ _ _ => black).
Definition ex_dds_env (gl : bool) : LoadEnv :=
  mkLoadEnv 7 (fun _ => Some ex_fileinfo) (fun _ => None) (fun _ => None) (fun _ => Some ex_dds_tex) gl.
Definition ex_dds_img (gl : bool) : TacitImage := TacitImage_new (ex_dds_env gl) "mips.dds".
Definition ex_dds_loaded : TacitImage := fst (Load_noarg (ex_dds_env true) (ex_dds_img true)).

(** A cube map of six 8192x8192 faces, [big.dds]: a face fits the [int]
    allocation size, the memory of the loaded aggregate does not fit an
    [int]. *)
Definition ex_face8k : tTexture := mkTexture true R8G8B8A8 8192 8192 1 true (fun _ _ _ => black).
Definition ex_cube8k : tCubemap := mkCubemap true (fun _ => ex_face8k).
Definition ex_cube8k_env : LoadEnv :=
  mkLoadEnv 7 (fun _ => Some ex_fileinfo) (fun _ => None) (fun _ => Some ex_cube8k) (fun _ => None) true.
Definition ex_cube8k_img : TacitImage := TacitImage_new ex_cube8k_env "big.dds".

(** A DDS 2D texture of 32768x16384 with its 16 mipmap levels, [huge.dds]. *)
Definition ex_huge_tex : tTexture := mkTexture true R8G8B8A8 32768 16384 16 true (fun _ _ _ => black).
Definition ex_huge_env : LoadEnv :=
  mkLoadEnv 7 (fun _ => Some ex_fileinfo) (fun _ => None) (fun _ => None) (fun _ => Some ex_huge_tex) true.
Definition ex_huge_img : TacitImage := TacitImage_new ex_huge_env "huge.dds".

(** Three pictures, the middle one named as the sheet's output file. *)
Definition ex_sheet_imgs : list TacitImage :=
  [TacitImage_new ex_png_env "a.png"; TacitImage_new ex_png_env "c.png";
   TacitImage_new ex_png_env "b.png"].

(** A file system where [b.png] cannot be decoded. *)
Definition ex_sheet_env_b : LoadEnv :=
  mkLoadEnv 5 (fun _ => Some ex_fileinfo)
    (fun f => if String.eqb f "b.png" then None else Some (ex_photo, 32))
    (fun _ => None) (fun _ => None) true.

Definition ex_sheet_imgs_b : list TacitImage :=
  [TacitImage_new ex_sheet_env_b "a.png"; TacitImage_new ex_sheet_env_b "b.png"].

(** ** Pixel-loop lemmas *)

Lemma existsb_zseq (v n : Z) :
  existsb (Z.eqb v) (zseq n) = (0 <=? v) && (v <? n).
Proof.
  unfold zseq.
  destruct (existsb (Z.eqb v) (map Z.of_nat (seq 0 (Z.to_nat n)))) eqn:E.
  - apply existsb_exists in E as [z [Hin Hz]].
    apply Z.eqb_eq in Hz; subst z.
    apply in_map_iff in Hin as [k [Hk Hin]]; apply in_seq in Hin.
    symmetry; apply andb_true_iff; split; [apply Z.leb_le | apply Z.ltb_lt]; lia.
  - symmetry; apply not_true_iff_false; intro H.
    apply andb_true_iff in H as [H1 H2]; apply Z.leb_le in H1; apply Z.ltb_lt in H2.
    assert (Hin : In v (map Z.of_nat (seq 0 (Z.to_nat n)))).
    { apply in_map_iff; exists (Z.to_nat v); split; [lia|apply in_seq; lia]. }
    assert (existsb (Z.eqb v) (map Z.of_nat (seq 0 (Z.to_nat n))) = true)
      by (apply existsb_exists; exists v; split; [exact Hin | apply Z.eqb_refl]).
    congruence.
Qed.

Lemma blit_row_dims (pic d : tPicture) (ox oy y : Z) (xs : list Z) :
  let r := fold_left (fun d x => picture_SetPixel d (ox + x) (oy + y) (picture_GetPixel pic x y)) xs d in
  PWidth r = PWidth d /\ PHeight r = PHeight d.
Proof.
  revert d; induction xs as [|x xs IH]; intro d; simpl; [auto|].
  destruct (IH (picture_SetPixel d (ox + x) (oy + y) (picture_GetPixel pic x y))) as [H1 H2].
  rewrite H1, H2; auto.
Qed.

Lemma blit_row_pixels (pic d : tPicture) (ox oy y a b : Z) (xs : list Z) :
  PPixels (fold_left (fun d x => picture_SetPixel d (ox + x) (oy + y) (picture_GetPixel pic x y)) xs d) a b
  = if (b =? oy + y) && existsb (Z.eqb (a - ox)) xs then PPixels pic (a - ox) y else PPixels d a b.
Proof.
  revert d; induction xs as [|x xs IH]; intro d; simpl.
  - rewrite andb_false_r; reflexivity.
  - rewrite IH; simpl.
    destruct (b =? oy + y) eqn:Eb; simpl; [|rewrite andb_false_r; reflexivity].
    destruct (Z.eqb_spec (a - ox) x) as [Hx|Hx]; simpl.
    + subst x. destruct (existsb (Z.eqb (a - ox)) xs); [reflexivity|].
      replace (a =? ox + (a - ox)) with true by (symmetry; apply Z.eqb_eq; lia); reflexivity.
    + destruct (existsb (Z.eqb (a - ox)) xs); [reflexivity|].
      replace (a =? ox + x) with false by (symmetry; apply Z.eqb_neq; lia); reflexivity.
Qed.

Lemma blit_dims (dst pic : tPicture) (ox oy : Z) :
  PWidth (blit dst pic ox oy) = PWidth dst /\ PHeight (blit dst pic ox oy) = PHeight dst.
Proof.
  unfold blit. generalize dst. induction (zseq (PHeight pic)) as [|y ys IH]; intro d; simpl; [auto|].
  destruct (IH (fold_left (fun d x => picture_SetPixel d (ox + x) (oy + y) (picture_GetPixel pic x y))
                          (zseq (PWidth pic)) d)) as [H1 H2].
  destruct (blit_row_dims pic d ox oy y (zseq (PWidth pic))) as [H3 H4].
  simpl in H3, H4. rewrite H1, H2, H3, H4; auto.
Qed.

Lemma blit_width (dst pic : tPicture) (ox oy : Z) : PWidth (blit dst pic ox oy) = PWidth dst.
Proof. apply blit_dims. Qed.

Lemma blit_height (dst pic : tPicture) (ox oy : Z) : PHeight (blit dst pic ox oy) = PHeight dst.
Proof. apply blit_dims. Qed.

Lemma blit_pixels (dst pic : tPicture) (ox oy a b : Z) :
  PPixels (blit dst pic ox oy) a b
  = if (0 <=? a - ox) && (a - ox <? PWidth pic) && (0 <=? b - oy) && (b - oy <? PHeight pic)
    then PPixels pic (a - ox) (b - oy) else PPixels dst a b.
Proof.
  unfold blit.
  assert (Hgen : forall ys d,
    PPixels (fold_left (fun d y =>
       fold_left (fun d x => picture_SetPixel d (ox + x) (oy + y) (picture_GetPixel pic x y))
         (zseq (PWidth pic)) d) ys d) a b
    = if existsb (Z.eqb (b - oy)) ys && existsb (Z.eqb (a - ox)) (zseq (PWidth pic))
      then PPixels pic (a - ox) (b - oy) else PPixels d a b).
  { induction ys as [|y ys IH]; intro d; simpl; [reflexivity|].
    rewrite IH, blit_row_pixels.
    destruct (Z.eqb_spec (b - oy) y) as [Hy|Hy]; simpl.
    - subst y. replace (b =? oy + (b - oy)) with true by (symmetry; apply Z.eqb_eq; lia). simpl.
      destruct (existsb (Z.eqb (b - oy)) ys), (existsb (Z.eqb (a - ox)) (zseq (PWidth pic))); simpl;
        reflexivity.
    - replace (b =? oy + y) with false by (symmetry; apply Z.eqb_neq; lia); simpl.
      reflexivity. }
  rewrite Hgen, !existsb_zseq.
  destruct (0 <=? a - ox), (a - ox <? PWidth pic), (0 <=? b - oy), (b - oy <? PHeight pic);
    reflexivity.
Qed.

Lemma cell_split (v w : Z) : 0 < w -> v = w * (v / w) + v mod w /\ 0 <= v mod w < w.
Proof. intro Hw. split; [apply Z.div_mod; lia | apply Z.mod_pos_bound; lia]. Qed.

(** Decide every [<=?] and [<?] of the goal whose value [lia] knows. *)
Ltac decide_cmps :=
  repeat match goal with
  | |- context [?a <=? ?b] =>
      first [ replace (a <=? b) with true by (symmetry; apply Z.leb_le; lia)
            | replace (a <=? b) with false by (symmetry; apply Z.leb_gt; lia) ]
  | |- context [?a <? ?b] =>
      first [ replace (a <? b) with true by (symmetry; apply Z.ltb_lt; lia)
            | replace (a <? b) with false by (symmetry; apply Z.ltb_ge; lia) ]
  | |- context [?a =? ?b] =>
      first [ replace (a =? b) with true by (symmetry; apply Z.eqb_eq; lia)
            | replace (a =? b) with false by (symmetry; apply Z.eqb_neq; lia) ]
  end.

Lemma PWidth_mk (w h : Z) (f : Z -> Z -> tPixel) : PWidth (mkPicture w h f) = w.
Proof. reflexivity. Qed.
Lemma PHeight_mk (w h : Z) (f : Z -> Z -> tPixel) : PHeight (mkPicture w h f) = h.
Proof. reflexivity. Qed.
Lemma PPixels_mk (w h : Z) (f : Z -> Z -> tPixel) (x y : Z) : PPixels (mkPicture w h f) x y = f x y.
Proof. reflexivity. Qed.

Lemma Load_cube_alt (env : LoadEnv) (i : TacitImage) (c : tCubemap) :
  IsLoaded i = false -> Filetype i = FT_DDS ->
  ReadCubemap env (Filename i) = Some c -> CubeValid c = true ->
  let w := TexWidth (GetSide c PosX) in
  let h := TexHeight (GetSide c PosX) in
  let face s := mkPicture w h (TexDecoded (GetSide c s) 0) in
  snd (Load_noarg env i) = true /\
  AltPicture (fst (Load_noarg env i)) =
    blit (blit (blit (blit (blit (blit (picture_Set (w * 4) (h * 3) transparent)
      (face PosZ) w h) (face NegZ) (3 * w) h) (face PosX) (2 * w) h) (face NegX) 0 h)
      (face PosY) w (2 * h)) (face NegY) w 0.
Proof.
  intros HL HT HR HV w h face.
  unfold IsLoaded in HL; destruct (Pictures i) eqn:HP; [|discriminate].
  unfold Load_noarg, Load_decode, Load_read, Load_convert; unfold IsLoaded; rewrite HP, HT; simpl; rewrite HR; simpl.
  unfold ConvertCubemapToPicture; simpl; rewrite HV, HP; simpl.
  rewrite HV; simpl. split; reflexivity.
Qed.

(** The same load aborts exactly when the face size overflows the [int]
    allocation size of line 659. *)
Lemma Load_aborts_cube (env : LoadEnv) (i : TacitImage) (c : tCubemap) :
  IsLoaded i = false -> Filetype i = FT_DDS ->
  ReadCubemap env (Filename i) = Some c -> CubeValid c = true ->
  Load_aborts env i = negb (new_size_ok (TexWidth (GetSide c PosX) * TexHeight (GetSide c PosX) * 4)).
Proof.
  intros HL HT HR HV.
  unfold IsLoaded in HL; destruct (Pictures i) eqn:HP; [|discriminate].
  unfold Load_aborts, Load_read, IsLoaded; rewrite HP, HT; cbn [tFileType_eqb negb]; rewrite HR.
  unfold Load_convert_aborts, ConvertCubemapToPicture_aborts, set_DDSCubemap; cbn [DDSCubemap Pictures].
  rewrite HV, HP. reflexivity.
Qed.

(** C4: for a cube source whose six faces are [faceW] by [faceH], [Load]
    returns exactly when [faceW * faceH * 4] fits the [int] allocation size
    (otherwise the process aborts in [ConvertCubemapToPicture]); when it
    returns, it succeeds and has built the alt composite of size
    [(4*faceW, 3*faceH)] with the six faces in the cross cells of the spec
    (row 0 at the bottom) and the transparent fill in every other cell. *)
Theorem cube_alt_cross_layout (env : LoadEnv) (i : TacitImage) (c : tCubemap) (faceW faceH : Z) :
  IsLoaded i = false -> Filetype i = FT_DDS ->
  ReadCubemap env (Filename i) = Some c -> CubeValid c = true ->
  0 < faceW -> 0 < faceH ->
  (forall s, TexWidth (GetSide c s) = faceW /\ TexHeight (GetSide c s) = faceH) ->
  (Load_result env i = None <-> 2 ^ 31 <= faceW * faceH * 4) /\
  forall i' ok, Load_result env i = Some (i', ok) ->
  ok = true /\
  PWidth (AltPicture i') = 4 * faceW /\ PHeight (AltPicture i') = 3 * faceH /\
  forall x y, 0 <= x < 4 * faceW -> 0 <= y < 3 * faceH ->
    PPixels (AltPicture i') x y = cross_pixel c faceW faceH x y.
Proof.
  intros HL HT HR HV Hw Hh Hdim.
  pose proof (Load_aborts_cube env i c HL HT HR HV) as Hab.
  destruct (Hdim PosX) as [HW HH]. rewrite HW, HH in Hab.
  split.
  { assert (0 <= faceW * faceH * 4) by nia.
    unfold Load_result; rewrite Hab; unfold new_size_ok.
    destruct (Z.leb_spec 0 (faceW * faceH * 4)); [|lia].
    destruct (Z.ltb_spec (faceW * faceH * 4) (2 ^ 31)); cbn [andb negb];
      split; intro; (discriminate || lia || reflexivity). }
  intros i' ok HS. unfold Load_result in HS.
  destruct (Load_aborts env i); [discriminate|]. injection HS as HS.
  destruct (Load_cube_alt env i c HL HT HR HV) as [Hok Halt].
  rewrite HS in Hok, Halt; cbn [fst snd] in Hok, Halt; subst ok.
  rewrite HW, HH in Halt.
  assert (HSet : picture_Set (faceW * 4) (faceH * 3) transparent
                 = mkPicture (faceW * 4) (faceH * 3) (fun _ _ => transparent)).
  { unfold picture_Set; decide_cmps; reflexivity. }
  rewrite HSet in Halt.
  split; [reflexivity|].
  rewrite Halt.
  split; [rewrite !blit_width, PWidth_mk; lia|].
  split; [rewrite !blit_height, PHeight_mk; lia|].
  intros x y Hx Hy.
  rewrite !blit_pixels, ?PWidth_mk, ?PHeight_mk, ?PPixels_mk.
  destruct (cell_split x faceW Hw) as [Ex Rx].
  destruct (cell_split y faceH Hh) as [Ey Ry].
  unfold cross_pixel.
  remember (x / faceW) as q; remember (x mod faceW) as r.
  remember (y / faceH) as l; remember (y mod faceH) as t.
  assert (Hq : q = 0 \/ q = 1 \/ q = 2 \/ q = 3) by nia.
  assert (Hl : l = 0 \/ l = 1 \/ l = 2) by nia.
  clear Heqq Heql Heqr Heqt. unfold cross_cell.
  destruct Hq as [Hq|[Hq|[Hq|Hq]]]; destruct Hl as [Hl|[Hl|Hl]]; subst q l;
    decide_cmps; cbn [andb]; try reflexivity; f_equal; lia.
Qed.

Lemma Resample_valid (lib : Tacent) (p : tPicture) (w h : Z) :
  picture_IsValid p = true -> picture_IsValid (picture_Resample lib p w h) = true.
Proof.
  intro Hv; unfold picture_Resample; rewrite Hv; simpl.
  destruct (0 <? w) eqn:Ew; destruct (0 <? h) eqn:Eh; simpl; auto.
  unfold picture_IsValid; simpl; rewrite Ew, Eh; reflexivity.
Qed.

Lemma Crop_valid (p : tPicture) (newW newH : Z) :
  picture_IsValid p = true -> 0 < newW -> 0 < newH ->
  picture_Crop p newW newH =
    mkPicture newW newH
      (fun x y =>
         let sx := x + (PWidth p / 2 - newW / 2) in
         let sy := y + (PHeight p / 2 - newH / 2) in
         if (0 <=? sx) && (sx <? PWidth p) && (0 <=? sy) && (sy <? PHeight p)
         then PPixels p sx sy else transparent).
Proof.
  intros Hv Hw Hh; unfold picture_Crop; rewrite Hv.
  replace (newW <=? 0) with false by (symmetry; apply Z.leb_gt; lia).
  replace (newH <=? 0) with false by (symmetry; apply Z.leb_gt; lia).
  reflexivity.
Qed.

(** C5: the worker resamples to the size given by the axis of the smaller
    scale factor (that axis exactly the target, the other the rounded scaled
    size) and center-crops to exactly the target, the area outside the
    resampled picture transparent; for a 400x200 source and a 128x128 target
    the intermediate size is 128x64 and the crop adds 32 transparent rows at
    the top and at the bottom. *)
Theorem thumbnail_resize_crop (lib : Tacent) :
  (forall (ThumbWidth ThumbHeight : Z) (src : tPicture),
    0 < ThumbWidth -> 0 < ThumbHeight -> picture_IsValid src = true ->
    let scaleX := fdiv (float_of_int ThumbWidth) (float_of_int (PWidth src)) in
    let scaleY := fdiv (float_of_int ThumbHeight) (float_of_int (PHeight src)) in
    let iw := fst (thumb_dims ThumbWidth ThumbHeight (PWidth src) (PHeight src)) in
    let ih := snd (thumb_dims ThumbWidth ThumbHeight (PWidth src) (PHeight src)) in
    let mid := picture_Resample lib src iw ih in
    let out := ThumbFromSource lib ThumbWidth ThumbHeight src in
    (fltb scaleX scaleY = true ->
       iw = ThumbWidth /\ ih = int_of_float (tRound (fmul (float_of_int (PHeight src)) scaleX))) /\
    (fltb scaleX scaleY = false ->
       ih = ThumbHeight /\ iw = int_of_float (tRound (fmul (float_of_int (PWidth src)) scaleY))) /\
    (0 < iw -> 0 < ih -> PWidth mid = iw /\ PHeight mid = ih) /\
    PWidth out = ThumbWidth /\ PHeight out = ThumbHeight /\
    (forall x y, 0 <= x < ThumbWidth -> 0 <= y < ThumbHeight ->
       let sx := x + (PWidth mid / 2 - ThumbWidth / 2) in
       let sy := y + (PHeight mid / 2 - ThumbHeight / 2) in
       PPixels out x y =
         if (0 <=? sx) && (sx <? PWidth mid) && (0 <=? sy) && (sy <? PHeight mid)
         then PPixels mid sx sy else transparent)) /\
  thumb_dims 128 128 400 200 = (128, 64) /\
  (forall src : tPicture, PWidth src = 400 -> PHeight src = 200 ->
    let mid := picture_Resample lib src 128 64 in
    let out := ThumbFromSource lib 128 128 src in
    PWidth out = 128 /\ PHeight out = 128 /\
    forall x y, 0 <= x < 128 -> 0 <= y < 128 ->
      ((y < 32 \/ 96 <= y) -> PPixels out x y = transparent) /\
      (32 <= y < 96 -> PPixels out x y = PPixels mid x (y - 32))).
Proof.
  assert (E400 : thumb_dims 128 128 400 200 = (128, 64)) by (vm_compute; reflexivity).
  split; [|split; [exact E400|]].
  - intros TW TH src HW HH Hv scaleX scaleY iw ih mid out.
    assert (Hmid : picture_IsValid mid = true) by (apply Resample_valid; exact Hv).
    assert (Hout : out = picture_Crop mid TW TH).
    { unfold out, ThumbFromSource, mid, iw, ih.
      destruct (thumb_dims TW TH (PWidth src) (PHeight src)); reflexivity. }
    split; [|split; [|split; [|split; [|split]]]].
    + intro Hlt; unfold iw, ih, thumb_dims; fold scaleX scaleY; rewrite Hlt; simpl; auto.
    + intro Hlt; unfold iw, ih, thumb_dims; fold scaleX scaleY; rewrite Hlt; simpl; auto.
    + intros Hiw Hih; unfold mid, picture_Resample; rewrite Hv.
      replace (0 <? iw) with true by (symmetry; apply Z.ltb_lt; lia).
      replace (0 <? ih) with true by (symmetry; apply Z.ltb_lt; lia).
      simpl; auto.
    + rewrite Hout, Crop_valid by assumption; reflexivity.
    + rewrite Hout, Crop_valid by assumption; reflexivity.
    + intros x y Hx Hy; rewrite Hout, Crop_valid by assumption; reflexivity.
  - intros src HW HH mid out.
    assert (Hv : picture_IsValid src = true) by (unfold picture_IsValid; rewrite HW, HH; reflexivity).
    assert (Hmid : mid = mkPicture 128 64 (ResampleKernel lib src 128 64)).
    { unfold mid, picture_Resample; rewrite Hv; reflexivity. }
    assert (Hout : out = picture_Crop mid 128 128).
    { unfold out, ThumbFromSource; rewrite HW, HH, E400; reflexivity. }
    rewrite Hout, Crop_valid by (try rewrite Hmid; try reflexivity; lia).
    rewrite Hmid; cbn [PWidth PHeight PPixels].
    split; [reflexivity|split; [reflexivity|]].
    change (64 / 2 - 128 / 2) with (-32); change (128 / 2 - 128 / 2) with 0.
    intros x y Hx Hy; split; intro Hr.
    + destruct Hr as [Hr|Hr]; decide_cmps; cbn [andb]; reflexivity.
    + decide_cmps; cbn [andb]; f_equal; lia.
Qed.

Lemma CreateAltPictureDDSCubemap_Pictures (i : TacitImage) :
  Pictures (CreateAltPictureDDSCubemap i) = Pictures i.
Proof.
  unfold CreateAltPictureDDSCubemap.
  destruct (Pictures i) as [|? [|? [|? [|? [|? [|? ?]]]]]] eqn:E; simpl; rewrite ?E; reflexivity.
Qed.

Lemma CreateAltPictureDDS2DMipmaps_Pictures (i : TacitImage) :
  Pictures (CreateAltPictureDDS2DMipmaps i) = Pictures i.
Proof.
  unfold CreateAltPictureDDS2DMipmaps.
  destruct (fold_left _ _ _) as [alt o]; reflexivity.
Qed.

Lemma Load_finish_Pictures (env : LoadEnv) (i2 : TacitImage) (s : bool) (bd : Z) :
  Pictures (fst (Load_finish env i2 s bd)) = Pictures i2.
Proof.
  unfold Load_finish; destruct s; [|reflexivity]. cbv beta iota zeta delta [fst].
  destruct (CubeValid _); [rewrite CreateAltPictureDDSCubemap_Pictures; reflexivity|].
  destruct (_ && _); [rewrite CreateAltPictureDDS2DMipmaps_Pictures|]; reflexivity.
Qed.

Lemma Load_noarg_Pictures_time (env : LoadEnv) (t : Z) (i : TacitImage) :
  Pictures (fst (Load_noarg (env_at env t) i)) = Pictures (fst (Load_noarg env i)).
Proof.
  unfold Load_noarg.
  destruct (IsLoaded i); [reflexivity|].
  destruct (tFileType_eqb (Filetype i) FT_Unknown); [reflexivity|].
  change (Load_decode (env_at env t) i) with (Load_decode env i).
  destruct (Load_decode env i) as [[i2 s] bd].
  rewrite !Load_finish_Pictures; reflexivity.
Qed.

Lemma Load_filename_Pictures_time (env : LoadEnv) (t : Z) (f : string) (i : TacitImage) :
  Pictures (fst (Load_filename (env_at env t) f i)) = Pictures (fst (Load_filename env f i)).
Proof.
  unfold Load_filename; destruct (String.eqb f ""); [reflexivity|].
  change (FileInfoOf (env_at env t)) with (FileInfoOf env).
  apply Load_noarg_Pictures_time.
Qed.

(** C6: the cache key of the worker depends on nothing but the file name,
    the size, creation and modification times the file system reports for
    it, and the thumbnail target (with the fixed version constant): two runs,
    in any state of the aggregates and of the rest of the world, that see the
    same file identity compute the same key, hence the same cache file in the
    same cache directory; and two runs over the same file system at different
    times that both miss the cache compute and write the same thumbnail under
    that name. *)
Theorem cache_key_file_identity (lib : Tacent) (te1 te2 : ThumbEnv) (ThumbWidth ThumbHeight : Z)
    (i1 i2 : TacitImage) (fi1 fi2 : tFileInfo) :
  Filename i1 = Filename i2 ->
  FileInfoOf (TLoad te1) (Filename i1) = Some fi1 ->
  FileInfoOf (TLoad te2) (Filename i2) = Some fi2 ->
  FileSize fi1 = FileSize fi2 ->
  CreationTime fi1 = CreationTime fi2 ->
  ModificationTime fi1 = ModificationTime fi2 ->
  CacheKey lib te1 ThumbWidth ThumbHeight i1 = CacheKey lib te2 ThumbWidth ThumbHeight i2 /\
  (ThumbCacheDir te1 = ThumbCacheDir te2 ->
   CacheFile lib te1 (CacheKey lib te1 ThumbWidth ThumbHeight i1)
   = CacheFile lib te2 (CacheKey lib te2 ThumbWidth ThumbHeight i2)) /\
  (forall t,
     TLoad te2 = env_at (TLoad te1) t ->
     ThumbCacheDir te1 = ThumbCacheDir te2 ->
     ContextOK te1 = ContextOK te2 ->
     Filetype i1 = Filetype i2 ->
     picture_IsValid (ThumbnailPicture i1) = false ->
     picture_IsValid (ThumbnailPicture i2) = false ->
     CacheRead te1 (CacheFile lib te1 (CacheKey lib te1 ThumbWidth ThumbHeight i1)) = None ->
     CacheRead te2 (CacheFile lib te2 (CacheKey lib te2 ThumbWidth ThumbHeight i2)) = None ->
     CacheWritten (GenerateThumbnail lib te1 ThumbWidth ThumbHeight i1)
     = CacheWritten (GenerateThumbnail lib te2 ThumbWidth ThumbHeight i2)).
Proof.
  intros HF H1 H2 Hs Hc Hm.
  assert (Hkey : CacheKey lib te1 ThumbWidth ThumbHeight i1 = CacheKey lib te2 ThumbWidth ThumbHeight i2).
  { unfold CacheKey. rewrite <- HF in H2 |- *. rewrite H1, H2, Hs, Hc, Hm; reflexivity. }
  split; [exact Hkey|split].
  - intro Hd; unfold CacheFile; rewrite Hkey, Hd; reflexivity.
  - intros t Henv Hd Hctx Hty Hv1 Hv2 Hmiss1 Hmiss2.
    assert (Hfile : CacheFile lib te1 (CacheKey lib te1 ThumbWidth ThumbHeight i1)
                    = CacheFile lib te2 (CacheKey lib te2 ThumbWidth ThumbHeight i2))
      by (unfold CacheFile; rewrite Hkey, Hd; reflexivity).
    unfold GenerateThumbnail; rewrite Hv1, Hv2, Hmiss1, Hmiss2, Hctx, Hty.
    destruct (tFileType_eqb (Filetype i2) FT_DDS && negb (ContextOK te2)); [reflexivity|].
    unfold GetPrimaryPicture; rewrite Henv, Load_filename_Pictures_time, <- HF, <- Hfile.
    reflexivity.
Qed.

Lemma cube_alt_cross_layout_witness :
  (Load_result ex_cube_env ex_cube_img = None <-> 2 ^ 31 <= 1 * 1 * 4) /\
  forall i' ok, Load_result ex_cube_env ex_cube_img = Some (i', ok) ->
  ok = true /\
  PWidth (AltPicture i') = 4 * 1 /\ PHeight (AltPicture i') = 3 * 1 /\
  forall x y, 0 <= x < 4 * 1 -> 0 <= y < 3 * 1 ->
    PPixels (AltPicture i') x y = cross_pixel ex_cube 1 1 x y.
Proof.
  apply (cube_alt_cross_layout ex_cube_env ex_cube_img ex_cube 1 1);
    [reflexivity | reflexivity | reflexivity | reflexivity | lia | lia |].
  intro s; split; reflexivity.
Defined.

Lemma thumbnail_resize_crop_witness :
  picture_IsValid ex_photo = true /\
  PWidth (ThumbFromSource ex_lib 128 128 ex_photo) = 128 /\
  PHeight (ThumbFromSource ex_lib 128 128 ex_photo) = 128.
Proof.
  destruct (thumbnail_resize_crop ex_lib) as [G _].
  destruct (G 128 128 ex_photo ltac:(lia) ltac:(lia) eq_refl) as [_ [_ [_ [HW [HH _]]]]].
  split; [reflexivity | split; assumption].
Defined.

Lemma cache_key_file_identity_witness :
  CacheKey ex_lib ex_te1 128 128 ex_cube_img
  = CacheKey ex_lib ex_te2 128 128 (set_ThumbnailRequested ex_cube_img true) /\
  CacheWritten (GenerateThumbnail ex_lib ex_te1 128 128 ex_cube_img)
  = CacheWritten (GenerateThumbnail ex_lib ex_te2 128 128 (set_ThumbnailRequested ex_cube_img true)).
Proof.
  destruct (cache_key_file_identity ex_lib ex_te1 ex_te2 128 128 ex_cube_img
              (set_ThumbnailRequested ex_cube_img true) ex_fileinfo ex_fileinfo
              eq_refl eq_refl eq_refl eq_refl eq_refl eq_refl) as [Hk [_ Hw]].
  split; [exact Hk|].
  apply (Hw 1000); reflexivity.
Defined.

(** C7: [GetWidth], [GetHeight] and [GetPixel] all read the representation
    the spec describes: the alt buffer when it is valid and enabled, else mip
    level 0 of the primary chain when it is valid, else they report 0 and
    black; the three queries follow the same order. *)
Theorem queries_fallback_order (i : TacitImage) :
  GetWidth i = match displayed i with Some p => PWidth p | None => 0 end /\
  GetHeight i = match displayed i with Some p => PHeight p | None => 0 end /\
  forall x y, GetPixel i x y = match displayed i with Some p => PPixels p x y | None => black end.
Proof.
  unfold GetWidth, GetHeight, GetPixel, displayed, picture_GetPixel.
  rewrite (andb_comm (picture_IsValid (AltPicture i))).
  destruct (AltPictureEnabled i && picture_IsValid (AltPicture i)); [auto|].
  destruct (Pictures i) as [|p rest]; simpl; [auto|].
  destruct (picture_IsValid p); auto.
Qed.

(** C8: on an aggregate that is already loaded, [Load] succeeds and only
    stamps [LoadedTime]: the info record, the mip chain and the alt buffer
    are those of before, and the aggregate stays loaded. *)
Theorem Load_loaded_refresh (env : LoadEnv) (i : TacitImage) :
  IsLoaded i = true ->
  let '(i', ok) := Load_noarg env i in
  ok = true /\ i' = set_LoadedTime i (Now env) /\
  Info i' = Info i /\ Pictures i' = Pictures i /\ AltPicture i' = AltPicture i /\
  AltPictureEnabled i' = AltPictureEnabled i /\ IsLoaded i' = true.
Proof.
  intro HL; unfold Load_noarg; rewrite HL.
  unfold IsLoaded in *; simpl; auto 7.
Qed.

Lemma Load_loaded_refresh_witness :
  let '(i', ok) := Load_noarg ex_png_env (fst (Load_noarg ex_cube_env ex_cube_img)) in
  ok = true /\ i' = set_LoadedTime (fst (Load_noarg ex_cube_env ex_cube_img)) (Now ex_png_env) /\
  Info i' = Info (fst (Load_noarg ex_cube_env ex_cube_img)) /\
  Pictures i' = Pictures (fst (Load_noarg ex_cube_env ex_cube_img)) /\
  AltPicture i' = AltPicture (fst (Load_noarg ex_cube_env ex_cube_img)) /\
  AltPictureEnabled i' = AltPictureEnabled (fst (Load_noarg ex_cube_env ex_cube_img)) /\
  IsLoaded i' = true.
Proof.
  apply (Load_loaded_refresh ex_png_env (fst (Load_noarg ex_cube_env ex_cube_img))).
  vm_compute; reflexivity.
Defined.

(** C10, the counterexample: unloading a loaded cube map also clears the
    DDS cubemap container and resets [LoadedTime] to -1, fields outside the
    list the claim gives. *)
Lemma Unload_clears_dds_container :
  let i := fst (Load_noarg ex_cube_env ex_cube_img) in
  IsLoaded i = true /\ CubeValid (DDSCubemap i) = true /\ LoadedTime i = 7 /\
  snd (Unload i) = true /\
  CubeValid (DDSCubemap (fst (Unload i))) = false /\ LoadedTime (fst (Unload i)) = -1.
Proof.
  vm_compute; repeat split.
Qed.

(** C10, amended: [Unload] always succeeds; on an aggregate that is not
    loaded it changes nothing; on a loaded one it zeroes the primary and alt
    texture names, clears both DDS containers, the alt buffer, its
    visibility flag and the mip chain, zeroes the memory size of the info
    record and sets [LoadedTime] to -1, and keeps every other field, among
    them the identity, the thumbnail texture name, the thumbnail request,
    worker state and the thumbnail picture. *)
Theorem Unload_frame (i : TacitImage) :
  snd (Unload i) = true /\
  (IsLoaded i = false -> fst (Unload i) = i) /\
  (IsLoaded i = true ->
   fst (Unload i) =
   mkTacitImage (Filename i) (Filetype i) (FileModTime i) (FileSizeB i)
     texture_empty cubemap_empty [] picture_invalid false 0 0 (TexIDThumbnail i)
     (Info_set_MemSizeBytes (Info i) 0) (-1)
     (ThumbnailRequested i) (ThumbnailThreadRunning i) (ThumbnailThreadFlag i)
     (ThumbnailThreadAlive i) (ThumbnailPicture i)).
Proof.
  destruct i as [fn ft fm fs t2 cm pics alt altOn tp ta tt info lt rq run fl al th].
  unfold Unload, Unbind, IsLoaded; cbn [Pictures TexIDPrimary TexIDAlt].
  destruct pics as [|p pics]; cbn [negb fst snd].
  - split; [reflexivity|]; split; [reflexivity | intro H; discriminate].
  - split; [reflexivity|]; split; [intro H; discriminate | intros _].
    destruct (Z.eqb_spec tp 0) as [Hp|Hp]; simpl; destruct (Z.eqb_spec ta 0) as [Ha|Ha];
      simpl; subst; reflexivity.
Qed.

Lemma Unload_frame_witness :
  fst (Unload (fst (Load_noarg ex_cube_env ex_cube_img))) =
  let i := fst (Load_noarg ex_cube_env ex_cube_img) in
  mkTacitImage (Filename i) (Filetype i) (FileModTime i) (FileSizeB i)
    texture_empty cubemap_empty [] picture_invalid false 0 0 (TexIDThumbnail i)
    (Info_set_MemSizeBytes (Info i) 0) (-1)
    (ThumbnailRequested i) (ThumbnailThreadRunning i) (ThumbnailThreadFlag i)
    (ThumbnailThreadAlive i) (ThumbnailPicture i).
Proof.
  apply (proj2 (proj2 (Unload_frame (fst (Load_noarg ex_cube_env ex_cube_img))))).
  vm_compute; reflexivity.
Defined.

Lemma in_zseq (v n : Z) : In v (zseq n) <-> 0 <= v < n.
Proof.
  unfold zseq; rewrite in_map_iff; split.
  - intros [k [Hk Hin]]; apply in_seq in Hin; lia.
  - intro H; exists (Z.to_nat v); split; [lia | apply in_seq; lia].
Qed.

Lemma picture_IsOpaque_spec (p : tPicture) :
  picture_IsOpaque p = true <->
  forall x y, 0 <= x < PWidth p -> 0 <= y < PHeight p -> PA (PPixels p x y) = 255.
Proof.
  unfold picture_IsOpaque; rewrite forallb_forall; split.
  - intros H x y Hx Hy.
    specialize (H y (proj2 (in_zseq y _) Hy)).
    rewrite forallb_forall in H; specialize (H x (proj2 (in_zseq x _) Hx)).
    now apply Z.eqb_eq.
  - intros H y Hy; apply in_zseq in Hy; rewrite forallb_forall; intros x Hx.
    apply in_zseq in Hx; apply Z.eqb_eq; auto.
Qed.

(** C3, the counterexample: a loaded cube map of opaque faces with its alt
    view enabled.  [IsOpaque] answers true, yet [GetPixel] reads the alt
    cross, whose cell (0,0) is the transparent fill. *)
Lemma IsOpaque_cube_alt_view_transparent :
  let i := set_AltPictureEnabled (fst (Load_noarg ex_cube_env ex_cube_img)) true in
  IsLoaded i = true /\ IsOpaque i = true /\
  GetWidth i = 4 /\ GetHeight i = 3 /\ PA (GetPixel i 0 0) = 0.
Proof.
  vm_compute; repeat split.
Qed.

(** C3, amended: [IsOpaque] never reads the alt buffer nor its visibility
    flag.  A valid cube container answers with the conjunction of the six
    faces' opacity markers, else a valid 2D container with its own marker,
    else a valid mip level 0 answers true exactly when all its pixels have
    alpha 255. *)
Theorem IsOpaque_dispatch (i : TacitImage) (alt : tPicture) (enabled : bool) :
  IsOpaque (set_AltPictureEnabled (set_AltPicture i alt) enabled) = IsOpaque i /\
  (CubeValid (DDSCubemap i) = true -> IsOpaque i = AllSidesOpaque (DDSCubemap i)) /\
  (CubeValid (DDSCubemap i) = false -> TexValid (DDSTexture2D i) = true ->
   IsOpaque i = TexOpaque (DDSTexture2D i)) /\
  (CubeValid (DDSCubemap i) = false -> TexValid (DDSTexture2D i) = false ->
   forall p rest, Pictures i = p :: rest -> picture_IsValid p = true ->
   (IsOpaque i = true <->
    forall x y, 0 <= x < PWidth p -> 0 <= y < PHeight p -> PA (PPixels p x y) = 255)).
Proof.
  split; [reflexivity|].
  unfold IsOpaque.
  split; [intro Hc; rewrite Hc; reflexivity|].
  split; [intros Hc Ht; rewrite Hc, Ht; reflexivity|].
  intros Hc Ht p rest Hp Hv; rewrite Hc, Ht, Hp, Hv.
  apply picture_IsOpaque_spec.
Qed.

Lemma IsOpaque_dispatch_witness :
  IsOpaque (fst (Load_noarg ex_png_env ex_png_img)) = true.
Proof.
  destruct (IsOpaque_dispatch (fst (Load_noarg ex_png_env ex_png_img)) picture_invalid false)
    as [_ [_ [_ H]]].
  apply (H eq_refl eq_refl ex_photo []); [vm_compute; reflexivity | reflexivity |].
  intros x y _ _; reflexivity.
Defined.

(** C2: a failed load of a file that is not a DDS container (the picture
    reader finds the file missing, unreadable or corrupt) returns failure
    but leaves the placeholder picture it appended in the mip chain, so the
    aggregate is not in its pre-call state: it now counts as loaded, and the
    next [Load] answers success without reading anything. *)
Theorem Load_failure_keeps_placeholder (env env' : LoadEnv) (i : TacitImage) :
  IsLoaded i = false ->
  tFileType_eqb (Filetype i) FT_DDS = false ->
  tFileType_eqb (Filetype i) FT_Unknown = false ->
  ReadPicture env (Filename i) = None ->
  let '(i', ok) := Load_noarg env i in
  ok = false /\ Pictures i' = [picture_invalid] /\ IsLoaded i' = true /\
  Load_noarg env' i' = (set_LoadedTime i' (Now env'), true).
Proof.
  intros HL HD HU HR.
  unfold IsLoaded in HL; destruct (Pictures i) eqn:HP; [|discriminate].
  unfold Load_noarg at 1; unfold IsLoaded at 1; rewrite HP, HU.
  unfold Load_decode, Load_read, Load_convert; rewrite HD, HR; simpl.
  rewrite HP; simpl.
  split; [reflexivity|]; split; [reflexivity|]; split; reflexivity.
Qed.

Lemma Load_failure_keeps_placeholder_witness :
  let '(i', ok) := Load_noarg ex_env_missing (TacitImage_new ex_env_missing "a.png") in
  ok = false /\ Pictures i' = [picture_invalid] /\ IsLoaded i' = true /\
  Load_noarg ex_env_missing i' = (set_LoadedTime i' (Now ex_env_missing), true).
Proof.
  apply (Load_failure_keeps_placeholder ex_env_missing ex_env_missing
           (TacitImage_new ex_env_missing "a.png")); reflexivity.
Defined.

(** What the worker's [thumbLoader.Load(Filename)] leaves in the mip chain
    when the file cannot be read. *)
Lemma thumbLoader_missing_Pictures (env : LoadEnv) (f : string) :
  String.eqb f "" = false ->
  (tGetFileType f = FT_DDS -> ReadCubemap env f = None -> ReadTexture2D env f = None ->
   Pictures (fst (Load_filename env f TacitImage_default)) = []) /\
  (tFileType_eqb (tGetFileType f) FT_DDS = false ->
   tFileType_eqb (tGetFileType f) FT_Unknown = false -> ReadPicture env f = None ->
   Pictures (fst (Load_filename env f TacitImage_default)) = [picture_invalid]).
Proof.
  intro Hf; unfold Load_filename; rewrite Hf.
  remember (tGetFileType f) as ft eqn:Hft; clear Hft.
  split.
  - intros HT HC HX; subst ft.
    destruct (FileInfoOf env f); unfold Load_noarg, Load_decode, Load_read, Load_convert; simpl; rewrite HC, HX; reflexivity.
  - intros HD HU HR.
    destruct (FileInfoOf env f); unfold Load_noarg, Load_decode, Load_read, Load_convert; simpl; rewrite HU, HD; simpl;
      rewrite HR; reflexivity.
Qed.

Lemma ThumbFromSource_invalid (lib : Tacent) (ThumbWidth ThumbHeight : Z) :
  ThumbFromSource lib ThumbWidth ThumbHeight picture_invalid = picture_invalid.
Proof.
  unfold ThumbFromSource.
  destruct (thumb_dims ThumbWidth ThumbHeight (PWidth picture_invalid) (PHeight picture_invalid)).
  reflexivity.
Qed.

(** C9: a thumbnail request for a path that does not exist.  For a DDS
    path, when the hidden GL context can be created, the worker's loader
    leaves no picture and the worker dereferences the null source picture
    ([tAssert(srcPic)]) instead of failing silently.  For any other known
    type the worker ends with an invalid thumbnail (and writes it under the
    cache key); the owner's [BindThumbnail] after the worker has finished
    then returns 0 and leaves the aggregate requested and not running, with
    the counter back where it was, and [UnrequestThumbnail] clears the
    request. *)
Theorem thumbnail_missing_file (lib : Tacent) (te : ThumbEnv) (ThumbWidth ThumbHeight : Z)
    (i : TacitImage) :
  picture_IsValid (ThumbnailPicture i) = false ->
  CacheRead te (CacheFile lib te (CacheKey lib te ThumbWidth ThumbHeight i)) = None ->
  String.eqb (Filename i) "" = false ->
  (Filetype i = FT_DDS -> tGetFileType (Filename i) = FT_DDS -> ContextOK te = true ->
   ReadCubemap (TLoad te) (Filename i) = None -> ReadTexture2D (TLoad te) (Filename i) = None ->
   GenerateThumbnail lib te ThumbWidth ThumbHeight i = ThumbCrash) /\
  (tFileType_eqb (Filetype i) FT_DDS = false ->
   tFileType_eqb (tGetFileType (Filename i)) FT_DDS = false ->
   tFileType_eqb (tGetFileType (Filename i)) FT_Unknown = false ->
   ReadPicture (TLoad te) (Filename i) = None ->
   GenerateThumbnail lib te ThumbWidth ThumbHeight i
   = ThumbDone picture_invalid
       (Some (CacheFile lib te (CacheKey lib te ThumbWidth ThumbHeight i), picture_invalid))) /\
  (forall numCores numRunning gen,
   ThumbnailRequested i = false -> numRunning < numThreadsMax numCores ->
   let '(i1, n1) := RequestThumbnail numCores i numRunning in
   let '(i3, n3, r) := BindThumbnail gen (WorkerFinish picture_invalid i1) n1 in
   r = 0 /\ n3 = numRunning /\ ThumbnailRequested i3 = true /\
   ThumbnailThreadRunning i3 = false /\ picture_IsValid (ThumbnailPicture i3) = false /\
   ThumbnailRequested (UnrequestThumbnail i3) = false).
Proof.
  intros Hv Hc Hf.
  destruct (thumbLoader_missing_Pictures (TLoad te) (Filename i) Hf) as [PD PN].
  split; [|split].
  - intros HT HT' Hctx HC HX.
    unfold GenerateThumbnail; rewrite Hv, Hc, HT, Hctx; simpl.
    unfold GetPrimaryPicture; rewrite (PD HT' HC HX); reflexivity.
  - intros HD HD' HU HR.
    unfold GenerateThumbnail; rewrite Hv, Hc, HD; simpl.
    unfold GetPrimaryPicture; rewrite (PN HD' HU HR); simpl.
    rewrite ThumbFromSource_invalid; reflexivity.
  - intros numCores numRunning gen Hrq Hn.
    unfold RequestThumbnail; rewrite Hrq.
    replace (numThreadsMax numCores <=? numRunning) with false by (symmetry; apply Z.leb_gt; lia).
    simpl. repeat split; lia.
Qed.

Lemma thumbnail_missing_file_witness :
  GenerateThumbnail ex_lib ex_te_missing 128 128 (TacitImage_new ex_env_missing "x.dds") = ThumbCrash /\
  GenerateThumbnail ex_lib ex_te_missing 128 128 (TacitImage_new ex_env_missing "x.png")
  = ThumbDone picture_invalid
      (Some (CacheFile ex_lib ex_te_missing
               (CacheKey ex_lib ex_te_missing 128 128 (TacitImage_new ex_env_missing "x.png")),
             picture_invalid)).
Proof.
  split.
  - apply (proj1 (thumbnail_missing_file ex_lib ex_te_missing 128 128
                    (TacitImage_new ex_env_missing "x.dds") eq_refl eq_refl eq_refl));
      reflexivity.
  - apply (proj1 (proj2 (thumbnail_missing_file ex_lib ex_te_missing 128 128
                           (TacitImage_new ex_env_missing "x.png") eq_refl eq_refl eq_refl)));
      reflexivity.
Defined.

(** ** Admission of thumbnail workers: lemmas *)

Definition b2z (b : bool) : Z := if b then 1 else 0.

Lemma count_cons (f : TacitImage -> bool) (i : TacitImage) (l : list TacitImage) :
  count f (i :: l) = b2z (f i) + count f l.
Proof. reflexivity. Qed.

Lemma count_nonneg (f : TacitImage -> bool) (l : list TacitImage) : 0 <= count f l.
Proof. induction l as [|i l IH]; simpl; [lia|destruct (f i); lia]. Qed.

Lemma count_app (f : TacitImage -> bool) (l l' : list TacitImage) :
  count f (l ++ l') = count f l + count f l'.
Proof. induction l as [|i l IH]; simpl; [reflexivity|rewrite IH; lia]. Qed.

Lemma count_set_nth (f : TacitImage -> bool) (n : nat) (l : list TacitImage) (x y : TacitImage) :
  nth_error l n = Some x ->
  count f (set_nth n l y) = count f l - b2z (f x) + b2z (f y).
Proof.
  revert n; induction l as [|i l IH]; intros [|n] H; simpl in *; try discriminate.
  - injection H as ->; unfold b2z; destruct (f x), (f y); lia.
  - rewrite (IH n H); lia.
Qed.

Lemma count_remove_nth (f : TacitImage -> bool) (n : nat) (l : list TacitImage) (x : TacitImage) :
  nth_error l n = Some x -> count f (remove_nth n l) = count f l - b2z (f x).
Proof.
  revert n; induction l as [|i l IH]; intros [|n] H; simpl in *; try discriminate.
  - injection H as ->; unfold b2z; destruct (f x); lia.
  - rewrite (IH n H); lia.
Qed.

Lemma count_le (f g : TacitImage -> bool) (l : list TacitImage) :
  (forall i, In i l -> f i = true -> g i = true) -> count f l <= count g l.
Proof.
  induction l as [|i l IH]; intro H; simpl; [lia|].
  assert (count f l <= count g l) by (apply IH; intros j Hj; apply H; right; exact Hj).
  destruct (f i) eqn:Ef; [rewrite (H i (or_introl eq_refl) Ef); lia|destruct (g i); lia].
Qed.

Lemma forallb_nth {A : Type} (P : A -> bool) (n : nat) (l : list A) (x : A) :
  nth_error l n = Some x -> forallb P l = true -> P x = true.
Proof.
  intros H Hl; apply nth_error_In in H; rewrite forallb_forall in Hl; auto.
Qed.

Lemma forallb_set_nth {A : Type} (P : A -> bool) (n : nat) (l : list A) (y : A) :
  forallb P l = true -> P y = true -> forallb P (set_nth n l y) = true.
Proof.
  revert n; induction l as [|i l IH]; intros [|n] Hl Hy; simpl in *; auto;
    apply andb_true_iff in Hl as [H1 H2]; rewrite ?H1, ?Hy; simpl; auto.
Qed.

Lemma forallb_remove_nth {A : Type} (P : A -> bool) (n : nat) (l : list A) :
  forallb P l = true -> forallb P (remove_nth n l) = true.
Proof.
  revert n; induction l as [|i l IH]; intros [|n] Hl; simpl in *; auto;
    apply andb_true_iff in Hl as [H1 H2]; rewrite ?H1; simpl; auto.
Qed.

Lemma set_nth_same {A : Type} (n : nat) (l : list A) (x : A) :
  nth_error l n = Some x -> set_nth n l x = l.
Proof.
  revert n; induction l as [|i l IH]; intros [|n] H; simpl in *; try discriminate.
  - injection H as ->; reflexivity.
  - rewrite (IH n H); reflexivity.
Qed.

Lemma int32_wrap_id (z : Z) : - 2 ^ 31 <= z < 2 ^ 31 -> int32_wrap z = z.
Proof. intro H; unfold int32_wrap; rewrite Z.mod_small; lia. Qed.

Lemma int32_wrap_below (z : Z) : - 2 ^ 31 - 2 ^ 32 <= z < - 2 ^ 31 -> int32_wrap z = z + 2 ^ 32.
Proof.
  intro H; unfold int32_wrap.
  rewrite <- (Z.mod_add (z + 2 ^ 31) 1 (2 ^ 32)) by lia.
  rewrite Z.mod_small; lia.
Qed.

Lemma int32_wrap_add_l (a b : Z) : int32_wrap (int32_wrap a + b) = int32_wrap (a + b).
Proof.
  unfold int32_wrap.
  replace ((a + 2 ^ 31) mod 2 ^ 32 - 2 ^ 31 + b + 2 ^ 31) with ((a + 2 ^ 31) mod 2 ^ 32 + b) by ring.
  rewrite Z.add_mod_idemp_l by lia. f_equal; f_equal; ring.
Qed.

Lemma numThreadsMax_ge2 (numCores : Z) : 2 <= numThreadsMax numCores.
Proof. unfold numThreadsMax, tClampMin; destruct (Z.ltb_spec (int32_wrap (numCores - 2)) 2); lia. Qed.

(** Where [numCores - 2] does not wrap, the bound is [max(numCores - 2, 2)]. *)
Lemma numThreadsMax_max (numCores : Z) :
  - 2 ^ 31 + 2 <= numCores < 2 ^ 31 + 2 -> numThreadsMax numCores = Z.max (numCores - 2) 2.
Proof.
  intro H; unfold numThreadsMax, tClampMin; rewrite int32_wrap_id by lia.
  destruct (Z.ltb_spec (numCores - 2) 2); lia.
Qed.

(** A first call of [tGetNumCores] is answered again by every later call
    on the same machine. *)
Lemma tGetNumCores_again (dw : Z) :
  let '(r, c) := tGetNumCores 0 dw in tGetNumCores c dw = (r, c).
Proof.
  unfold tGetNumCores at 1; cbn [Z.ltb Z.compare].
  set (r := if (dw =? 0) || (dw =? 2 ^ 32 - 1) then 1 else int32_of_uint32 dw).
  unfold tGetNumCores. destruct (0 <? r); reflexivity.
Qed.

(** On any machine the bound of the process is at most
    [max(logicalCores - 2, 2)]: [tGetNumCores()] is the count when it is
    below 2^31, 1 for 0 and [0xFFFFFFFF], and the count minus 2^32 (negative)
    otherwise; [- 2] then wraps back to the count minus 2 for 2^31 and
    2^31 + 1, and the bound is 2 for the other negative values. *)
Lemma numThreadsMax_world_init (logicalCores : Z) :
  numThreadsMax (NumCores (world_init logicalCores)) <= Z.max (logicalCores - 2) 2.
Proof.
  unfold world_init; cbn [NumCores].
  pose proof (Z.mod_pos_bound (Z.max logicalCores 0) (2 ^ 32) ltac:(lia)) as Hb.
  pose proof (Z.mod_le (Z.max logicalCores 0) (2 ^ 32) ltac:(lia) ltac:(lia)) as Hle.
  unfold dwNumberOfProcessors_of.
  set (d := Z.max logicalCores 0 mod 2 ^ 32) in *.
  unfold tGetNumCores; cbn [Z.ltb Z.compare fst].
  destruct ((d =? 0) || (d =? 2 ^ 32 - 1)).
  { rewrite numThreadsMax_max by lia. lia. }
  unfold int32_of_uint32. destruct (Z.ltb_spec d (2 ^ 31)).
  { rewrite numThreadsMax_max by lia. lia. }
  unfold numThreadsMax, tClampMin.
  destruct (Z.ltb_spec (d - 2 ^ 32 - 2) (- 2 ^ 31)).
  - rewrite int32_wrap_below by lia.
    destruct (Z.ltb_spec (d - 2 ^ 32 - 2 + 2 ^ 32) 2); lia.
  - rewrite int32_wrap_id by lia.
    destruct (Z.ltb_spec (d - 2 ^ 32 - 2) 2); lia.
Qed.

Ltac thumb_cases i :=
  destruct i as [? ? ? ? ? ? ? ? ? ? ? ? ? ? [|] [|] [|] [|] ?]; simpl in *.

Lemma RequestThumbnail_ok (numCores c : Z) (i : TacitImage) :
  thumb_state_ok i = true ->
  let '(i', c') := RequestThumbnail numCores i c in
  thumb_state_ok i' = true /\
  ((i' = i /\ c' = c) \/
   (c < numThreadsMax numCores /\ c' = c + 1 /\
    ThumbnailThreadRunning i = false /\ ThumbnailThreadRunning i' = true)).
Proof.
  unfold RequestThumbnail.
  destruct (Z.leb_spec (numThreadsMax numCores) c) as [Hle|Hle];
    thumb_cases i; intro H; try discriminate; auto;
    try (split; [reflexivity | right; repeat split; lia]).
Qed.

Lemma BindThumbnail_ok (gen c : Z) (i : TacitImage) :
  thumb_state_ok i = true ->
  let '(i', c', _) := BindThumbnail gen i c in
  thumb_state_ok i' = true /\
  ((ThumbnailThreadRunning i' = ThumbnailThreadRunning i /\ c' = c) \/
   (ThumbnailThreadRunning i = true /\ ThumbnailThreadRunning i' = false /\ c' = c - 1)).
Proof.
  unfold BindThumbnail; thumb_cases i; intro H; try discriminate;
    repeat match goal with
           | |- context [if ?b then _ else _] => destruct b
           end; simpl; auto.
Qed.

Lemma WorkerFinish_ok (pic : tPicture) (i : TacitImage) :
  thumb_state_ok i = true ->
  thumb_state_ok (WorkerFinish pic i) = true /\
  ThumbnailThreadRunning (WorkerFinish pic i) = ThumbnailThreadRunning i.
Proof. unfold WorkerFinish; thumb_cases i; intro H; try discriminate; auto. Qed.

Lemma UnrequestThumbnail_ok (i : TacitImage) :
  thumb_state_ok i = true ->
  thumb_state_ok (UnrequestThumbnail i) = true /\
  ThumbnailThreadRunning (UnrequestThumbnail i) = ThumbnailThreadRunning i.
Proof.
  unfold UnrequestThumbnail; thumb_cases i; intro H; try discriminate;
    repeat match goal with |- context [picture_IsValid ?p] => destruct (picture_IsValid p) end;
    simpl; auto.
Qed.

Lemma TacitImage_new_ok (env : LoadEnv) (f : string) :
  thumb_state_ok (TacitImage_new env f) = true /\
  ThumbnailThreadRunning (TacitImage_new env f) = false.
Proof. split; reflexivity. Qed.

Lemma step_ok (w : World) (op : ThumbOp) :
  world_ok w -> world_ok (step w op) /\ NumCores (step w op) = NumCores w.
Proof.
  destruct w as [cores cnt imgs]; intros [Hall Hcnt]; cbn [NumCores Images ThumbnailNumThreadsRunning] in *.
  destruct op as [env f | n | n gen | n pic | n | n]; cbn [step Images NumCores ThumbnailNumThreadsRunning].
  - destruct (TacitImage_new_ok env f) as [Hok Hr].
    split; [|reflexivity]; unfold world_ok; cbn [Images NumCores ThumbnailNumThreadsRunning].
    rewrite forallb_app, count_app, Hall; cbn [forallb count andb].
    rewrite Hok, Hr; cbn [andb]; lia.
  - destruct (nth_error imgs n) as [i|] eqn:E; [|split; [split|]; auto].
    pose proof (RequestThumbnail_ok cores cnt i (forallb_nth _ _ _ _ E Hall)) as Hreq.
    destruct (RequestThumbnail cores i cnt) as [i' c'].
    destruct Hreq as [Hok Hcase]; split; [|reflexivity].
    unfold world_ok; cbn [Images NumCores ThumbnailNumThreadsRunning].
    rewrite (count_set_nth _ _ _ i i' E).
    split; [apply forallb_set_nth; assumption|].
    destruct Hcase as [[-> ->] | [Hlt [-> [Hr Hr']]]]; [lia|].
    unfold b2z; rewrite Hr, Hr'; lia.
  - destruct (nth_error imgs n) as [i|] eqn:E; [|split; [split|]; auto].
    pose proof (BindThumbnail_ok gen cnt i (forallb_nth _ _ _ _ E Hall)) as Hb.
    destruct (BindThumbnail gen i cnt) as [[i' c'] r].
    destruct Hb as [Hok Hcase]; split; [|reflexivity].
    unfold world_ok; cbn [Images NumCores ThumbnailNumThreadsRunning].
    rewrite (count_set_nth _ _ _ i i' E).
    split; [apply forallb_set_nth; assumption|].
    pose proof (count_nonneg ThumbnailThreadRunning imgs).
    destruct Hcase as [[Hr ->] | [Hr [Hr' ->]]]; unfold b2z; rewrite ?Hr, ?Hr'; [|lia].
    destruct (ThumbnailThreadRunning i); lia.
  - destruct (nth_error imgs n) as [i|] eqn:E; [|split; [split|]; auto].
    destruct (WorkerFinish_ok pic i (forallb_nth _ _ _ _ E Hall)) as [Hok Hr].
    split; [|reflexivity]; unfold world_ok; cbn [Images NumCores ThumbnailNumThreadsRunning].
    rewrite (count_set_nth _ _ _ i _ E), Hr.
    split; [apply forallb_set_nth; assumption | lia].
  - destruct (nth_error imgs n) as [i|] eqn:E; [|split; [split|]; auto].
    destruct (UnrequestThumbnail_ok i (forallb_nth _ _ _ _ E Hall)) as [Hok Hr].
    split; [|reflexivity]; unfold world_ok; cbn [Images NumCores ThumbnailNumThreadsRunning].
    rewrite (count_set_nth _ _ _ i _ E), Hr.
    split; [apply forallb_set_nth; assumption | lia].
  - destruct (nth_error imgs n) as [i|] eqn:E; [|split; [split|]; auto].
    destruct (ThumbnailThreadAlive i); [split; [split|]; auto|].
    split; [|reflexivity]; unfold world_ok; cbn [Images NumCores ThumbnailNumThreadsRunning].
    rewrite (count_remove_nth _ _ _ i E).
    split; [apply forallb_remove_nth; assumption|].
    unfold b2z; destruct (ThumbnailThreadRunning i); lia.
Qed.

Lemma run_ok (w : World) (ops : list ThumbOp) :
  world_ok w -> world_ok (run w ops) /\ NumCores (run w ops) = NumCores w.
Proof.
  unfold run; revert w; induction ops as [|op ops IH]; intros w H; simpl; [auto|].
  destruct (step_ok w op H) as [H1 H2].
  destruct (IH (step w op) H1) as [H3 H4]; split; [exact H3 | congruence].
Qed.

Lemma world_init_ok (numCores : Z) : world_ok (world_init numCores).
Proof.
  pose proof (numThreadsMax_ge2 (NumCores (world_init numCores))) as H.
  unfold world_ok; cbn [world_init Images ThumbnailNumThreadsRunning NumCores count forallb] in *.
  split; [reflexivity|lia].
Qed.

Lemma alive_le_running (l : list TacitImage) :
  forallb thumb_state_ok l = true ->
  count ThumbnailThreadAlive l <= count ThumbnailThreadRunning l.
Proof.
  intro H; apply count_le; intros i Hi Ha.
  rewrite forallb_forall in H; specialize (H i Hi).
  unfold thumb_state_ok in H; rewrite Ha in H; simpl in H.
  destruct (ThumbnailThreadRunning i); [reflexivity|discriminate].
Qed.

(** C1: from the start of the process, through any sequence of aggregate
    constructions, [RequestThumbnail], [BindThumbnail] and
    [UnrequestThumbnail] calls, worker completions and destructions, the
    number of live workers never exceeds the number of running requests,
    nor that the process-wide counter, nor that [max(cores - 2, 2)] on a
    machine of [cores] logical processors (the [int] wrap of the bound
    reaches no higher); a
    request made while the counter is at or above the bound leaves the
    whole state unchanged; and the bound is 2 for 1 to 4 cores. *)
Theorem thumbnail_admission_bound (numCores : Z) (ops : list ThumbOp) :
  let w := run (world_init numCores) ops in
  count ThumbnailThreadAlive (Images w) <= count ThumbnailThreadRunning (Images w) /\
  count ThumbnailThreadRunning (Images w) <= ThumbnailNumThreadsRunning w /\
  ThumbnailNumThreadsRunning w <= Z.max (numCores - 2) 2 /\
  (forall n, Z.max (numCores - 2) 2 <= ThumbnailNumThreadsRunning w -> step w (OpRequest n) = w) /\
  (forall c, 1 <= c <= 4 -> numThreadsMax c = 2).
Proof.
  intro w.
  destruct (run_ok (world_init numCores) ops (world_init_ok numCores)) as [[Hall Hcnt] Hc].
  fold w in Hall, Hcnt, Hc.
  pose proof (numThreadsMax_world_init numCores) as Hb.
  rewrite Hc in Hcnt.
  split; [apply alive_le_running; exact Hall|].
  split; [lia|]; split; [lia|].
  split.
  - intros n Hge.
    destruct w as [cores cnt imgs]; cbn [NumCores Images ThumbnailNumThreadsRunning step] in *.
    destruct (nth_error imgs n) as [i|] eqn:E; [|reflexivity].
    unfold RequestThumbnail; rewrite Hc.
    replace (numThreadsMax (NumCores (world_init numCores)) <=? cnt) with true
      by (symmetry; apply Z.leb_le; lia).
    destruct (ThumbnailRequested i); rewrite (set_nth_same n imgs i E); reflexivity.
  - intros c Hc'; rewrite numThreadsMax_max; lia.
Qed.

Lemma thumbnail_admission_bound_witness :
  let w := run (world_init 1)
             [OpNew ex_png_env "a.png"; OpNew ex_png_env "b.png"; OpNew ex_png_env "c.png";
              OpRequest 0; OpRequest 1; OpRequest 2] in
  ThumbnailNumThreadsRunning w = 2 /\
  count ThumbnailThreadAlive (Images w) <= count ThumbnailThreadRunning (Images w) /\
  ThumbnailNumThreadsRunning w <= Z.max (1 - 2) 2 /\
  step w (OpRequest 2) = w.
Proof.
  destruct (thumbnail_admission_bound 1
              [OpNew ex_png_env "a.png"; OpNew ex_png_env "b.png"; OpNew ex_png_env "c.png";
               OpRequest 0; OpRequest 1; OpRequest 2]) as [H1 [_ [H3 [H4 _]]]].
  split; [vm_compute; reflexivity|].
  split; [exact H1|]; split; [exact H3|].
  apply H4; vm_compute; discriminate.
Defined.

(** * Further properties of the code *)

(** [GetGLFormatInfo] (TacitImage.cpp 514-591) sorts the pixel formats into
    two classes: a format is uploaded compressed exactly when it is neither a
    normal (uncompressed) format nor [PF_Invalid]; a compressed format has
    the same source and destination format; and a normal format is read as
    unsigned bytes unless it has two bytes per pixel. *)
Theorem GetGLFormatInfo_classes (pf : tPixelFormat) :
  let fi := GetGLFormatInfo pf in
  (compressed fi = true <-> tIsNormalFormat pf = false /\ pf <> PF_Invalid) /\
  (compressed fi = true -> srcFormat fi = dstFormat fi) /\
  (tIsNormalFormat pf = true -> (srcType fi = GL_UNSIGNED_BYTE <-> tGetBytesPerPixel pf <> 2)).
Proof. destruct pf; simpl; intuition (try discriminate; try congruence; try lia). Qed.

Lemma nth_error_combine {A B : Type} (l1 : list A) (l2 : list B) (k : nat) :
  nth_error (combine l1 l2) k =
  match nth_error l1 k, nth_error l2 k with Some a, Some b => Some (a, b) | _, _ => None end.
Proof.
  revert l2 k; induction l1 as [|a l1 IH]; intros [|b l2] [|k]; simpl; auto.
  - destruct (nth_error l1 k); reflexivity.
Qed.

Lemma nth_error_zseq_len {A : Type} (l : list A) (k : nat) (x : A) :
  nth_error l k = Some x -> nth_error (zseq (Z.of_nat (List.length l))) k = Some (Z.of_nat k).
Proof.
  intro H. assert (Hk : (k < List.length l)%nat) by (apply nth_error_Some; congruence).
  unfold zseq. rewrite Nat2Z.id, nth_error_map, nth_error_seq.
  destruct (Nat.ltb_spec k (List.length l)); [reflexivity | lia].
Qed.

(** [BindLayers] (TacitImage.cpp 468-511) issues nothing for an empty layer
    list; otherwise it binds the texture, sets four parameters (the
    minification filter is mipmapped exactly when there is more than one
    layer) and uploads layer [k] as mip level [k], compressed or not as the
    first layer's format says. *)
Theorem BindLayers_levels (GetDataSize : tLayer -> Z) (first : tLayer) (rest : list tLayer) (texID : Z) :
  BindLayers GetDataSize [] texID = [] /\
  let cmds := BindLayers GetDataSize (first :: rest) texID in
  let fi := GetGLFormatInfo (LPixelFormat first) in
  List.length cmds = (5 + S (List.length rest))%nat /\
  nth_error cmds 0 = Some (glBindTexture texID) /\
  nth_error cmds 4 = Some (glTexParameteri GL_TEXTURE_MIN_FILTER
                             (match rest with [] => GL_LINEAR | _ => GL_LINEAR_MIPMAP_LINEAR end)) /\
  forall k layer, nth_error (first :: rest) k = Some layer ->
    nth_error cmds (5 + k) =
      Some (if compressed fi
            then glCompressedTexImage2D (Z.of_nat k) (dstFormat fi) (LWidth layer) (LHeight layer)
                   (GetDataSize layer) (LData layer)
            else glTexImage2D (Z.of_nat k) (dstFormat fi) (LWidth layer) (LHeight layer)
                   (srcFormat fi) (srcType fi) (LData layer)).
Proof.
  split; [reflexivity|]. cbv zeta. unfold BindLayers.
  split; [|split; [reflexivity|split]].
  - rewrite length_app, length_map, length_combine. unfold zseq.
    rewrite length_map, length_seq, Nat2Z.id, Nat.min_id. reflexivity.
  - destruct rest as [|t rest]; [reflexivity|].
    cbn [nth_error app].
    replace (1 <? Z.of_nat (List.length (first :: t :: rest))) with true
      by (symmetry; apply Z.ltb_lt; cbn [List.length]; lia).
    reflexivity.
  - intros k layer Hk.
    rewrite nth_error_app2 by (simpl; lia).
    match goal with |- context [(5 + k - ?n)%nat] => replace (5 + k - n)%nat with k by (simpl; lia) end.
    rewrite nth_error_map, nth_error_combine, (nth_error_zseq_len _ _ _ Hk), Hk. reflexivity.
Qed.

Ltac split_ifs :=
  repeat match goal with
         | |- context [if ?b then _ else _] => destruct b eqn:?
         | H : context [if ?b then _ else _] |- _ => destruct b eqn:?
         | H : context [match ?l with [] => _ | _ :: _ => _ end] |- _ => destruct l eqn:?
         end.

(** [Bind] (TacitImage.cpp 389-465): once a call has returned a non-zero
    texture name, a later call on the resulting aggregate re-binds that name
    and uploads nothing, whatever name GL would generate. *)
Theorem Bind_cached (GetDataSize : tLayer -> Z) (GetLayers : tTexture -> list tLayer) (gen gen' : Z)
    (i i1 : TacitImage) (t : Z) (cmds : list GLCmd) :
  Bind GetDataSize GetLayers gen i = (i1, t, cmds) -> t <> 0 ->
  Bind GetDataSize GetLayers gen' i1 = (i1, t, [glBindTexture t]).
Proof.
  destruct i as [fn ft fm fs t2 cm pics alt altOn tp ta tt info lt rq run fl al th].
  intros H Ht. unfold Bind, IsLoaded in H; simpl in H.
  repeat match goal with
         | H : context [if ?b then _ else _] |- _ => destruct b eqn:?
         | H : context [match ?l with [] => _ | _ :: _ => _ end] |- _ => destruct l eqn:?
         end;
    inversion H; subst; clear H; simpl in *; try congruence;
    unfold Bind; simpl;
    repeat match goal with E : ?b = _ |- context [?b] => rewrite E end;
    simpl; try reflexivity.
Qed.

(** [Bind] (TacitImage.cpp 389-465) on an aggregate whose primary picture is
    invalid (a failed load's placeholder): the first call generates and
    stores a texture name but returns 0 and issues no GL command; the next
    call returns that stored name and only binds it. *)
Theorem Bind_placeholder_name (GetDataSize : tLayer -> Z) (GetLayers : tTexture -> list tLayer)
    (gen gen' : Z) (i : TacitImage) (p : tPicture) (rest : list tPicture) :
  AltPictureEnabled i = false -> TexIDPrimary i = 0 -> Pictures i = p :: rest ->
  picture_IsValid p = false -> gen <> 0 ->
  Bind GetDataSize GetLayers gen i = (set_TexIDPrimary i gen, 0, []) /\
  Bind GetDataSize GetLayers gen' (set_TexIDPrimary i gen) = (set_TexIDPrimary i gen, gen, [glBindTexture gen]).
Proof.
  destruct i as [fn ft fm fs t2 cm pics alt altOn tp ta tt info lt rq run fl al th].
  simpl. intros Ha Hp Hpics Hv Hg. subst altOn tp pics.
  apply Z.eqb_neq in Hg.
  unfold Bind, IsLoaded; simpl. rewrite Hg, Hv. split; reflexivity.
Qed.

Lemma Bind_names (GetDataSize : tLayer -> Z) (GetLayers : tTexture -> list tLayer) (gen : Z)
    (i : TacitImage) :
  exists p a, fst (fst (Bind GetDataSize GetLayers gen i)) = set_TexIDAlt (set_TexIDPrimary i p) a.
Proof.
  destruct i as [fn ft fm fs t2 cm pics alt altOn tp ta tt info lt rq run fl al th].
  unfold Bind.
  repeat match goal with
         | |- context [if ?b then _ else _] => destruct b
         | |- context [match ?l with [] => _ | _ :: _ => _ end] => destruct l
         end;
    first [exists tp, ta; reflexivity | exists gen, ta; reflexivity | exists tp, gen; reflexivity].
Qed.

Lemma Unbind_names (i : TacitImage) (p a : Z) :
  Unbind (set_TexIDAlt (set_TexIDPrimary i p) a) = Unbind i.
Proof.
  destruct i as [fn ft fm fs t2 cm pics alt altOn tp ta tt info lt rq run fl al th].
  unfold Unbind, set_TexIDAlt, set_TexIDPrimary; simpl.
  destruct (Z.eqb_spec p 0), (Z.eqb_spec a 0), (Z.eqb_spec tp 0), (Z.eqb_spec ta 0);
    subst; simpl;
    repeat match goal with H : ?x <> 0 |- _ => rewrite (proj2 (Z.eqb_neq x 0) H); clear H end;
    reflexivity.
Qed.

(** [Unbind] (TacitImage.cpp 276-289) after [Bind] gives the same aggregate
    as [Unbind] alone: [Bind] changes nothing but the texture names. *)
Theorem Bind_then_Unbind (GetDataSize : tLayer -> Z) (GetLayers : tTexture -> list tLayer)
    (gen : Z) (i : TacitImage) :
  Unbind (fst (fst (Bind GetDataSize GetLayers gen i))) = Unbind i.
Proof.
  destruct (Bind_names GetDataSize GetLayers gen i) as [p [a ->]]. apply Unbind_names.
Qed.

Lemma Info_CreateAltPictureDDSCubemap (i : TacitImage) :
  Info (CreateAltPictureDDSCubemap i) = Info i.
Proof.
  unfold CreateAltPictureDDSCubemap.
  destruct (Pictures i) as [|? [|? [|? [|? [|? [|? ?]]]]]]; reflexivity.
Qed.

Lemma Info_CreateAltPictureDDS2DMipmaps (i : TacitImage) :
  Info (CreateAltPictureDDS2DMipmaps i) = Info i.
Proof.
  unfold CreateAltPictureDDS2DMipmaps.
  destruct (fold_left _ _ _) as [alt o]; reflexivity.
Qed.

Lemma LoadedTime_CreateAltPictureDDSCubemap (i : TacitImage) :
  LoadedTime (CreateAltPictureDDSCubemap i) = LoadedTime i.
Proof.
  unfold CreateAltPictureDDSCubemap.
  destruct (Pictures i) as [|? [|? [|? [|? [|? [|? ?]]]]]]; reflexivity.
Qed.

Lemma LoadedTime_CreateAltPictureDDS2DMipmaps (i : TacitImage) :
  LoadedTime (CreateAltPictureDDS2DMipmaps i) = LoadedTime i.
Proof.
  unfold CreateAltPictureDDS2DMipmaps.
  destruct (fold_left _ _ _) as [alt o]; reflexivity.
Qed.

(** A successful decode always makes [Load] succeed, and fills the info
    record from the aggregate as it stands before the alt composite. *)
Lemma Load_finish_success (env : LoadEnv) (i2 : TacitImage) (bd : Z) :
  let i3 := set_LoadedTime i2 (Now env) in
  snd (Load_finish env i2 true bd) = true /\
  LoadedTime (fst (Load_finish env i2 true bd)) = Now env /\
  Info (fst (Load_finish env i2 true bd)) =
    mkImgInfo (GetWidth i3) (GetHeight i3)
      (if tFileType_eqb (Filetype i3) FT_DDS then
         if CubeValid (DDSCubemap i3) then TexFormat (GetSide (DDSCubemap i3) PosX)
         else TexFormat (DDSTexture2D i3)
       else match Pictures i3 with
            | _ :: _ => if bd =? 24 then R8G8B8 else R8G8B8A8
            | [] => PF_Invalid
            end)
      bd (IsOpaque i3) (tGetFileSize env (Filename i3)) (GetMemSizeBytes i3)
      (Z.of_nat (List.length (Pictures i3))).
Proof.
  cbv zeta. unfold Load_finish. split; [reflexivity|]. cbv beta iota zeta delta [fst].
  destruct (CubeValid _);
    [rewrite Info_CreateAltPictureDDSCubemap, LoadedTime_CreateAltPictureDDSCubemap; split; reflexivity|].
  destruct (_ && _);
    [rewrite Info_CreateAltPictureDDS2DMipmaps, LoadedTime_CreateAltPictureDDS2DMipmaps|]; split; reflexivity.
Qed.

(** The load of a valid DDS 2D texture aborts exactly when the size of
    one of its levels overflows the [int] allocation size of line 619. *)
Lemma Load_aborts_dds2d (env : LoadEnv) (i : TacitImage) (t : tTexture) :
  IsLoaded i = false -> Filetype i = FT_DDS ->
  ReadCubemap env (Filename i) = None -> ReadTexture2D env (Filename i) = Some t ->
  TexValid t = true -> GenTexOK env = true ->
  Load_aborts env i =
    existsb (fun level =>
               negb (new_size_ok (Z.max (Z.shiftr (TexWidth t) level) 1 *
                                  Z.max (Z.shiftr (TexHeight t) level) 1 * 4)))
            (zseq (TexNumLayers t)).
Proof.
  intros HL HT HC HR HV HG.
  unfold IsLoaded in HL; destruct (Pictures i) eqn:HP; [|discriminate].
  unfold Load_aborts, Load_read, IsLoaded; rewrite HP, HT; cbn [tFileType_eqb negb]; rewrite HC, HR.
  unfold Load_convert_aborts, ConvertTexture2DToPicture_aborts, set_DDSCubemap, set_DDSTexture2D;
    cbn [DDSCubemap DDSTexture2D Pictures CubeValid cubemap_empty].
  rewrite HV, HP, HG. reflexivity.
Qed.

(** A level is at least 1 by 1 and no larger than level 0. *)
Lemma mip_dim_le (w level : Z) : 0 <= level -> 1 <= Z.max (Z.shiftr w level) 1 <= Z.max w 1.
Proof.
  intro Hl. rewrite Z.shiftr_div_pow2 by exact Hl.
  assert (0 < 2 ^ level) by (apply Z.pow_pos_nonneg; lia).
  assert (w / 2 ^ level <= Z.max w 0).
  { apply Z.div_le_upper_bound; [lia|].
    destruct (Z.leb_spec 0 w); [rewrite Z.max_l by lia; nia | rewrite Z.max_r by lia; lia]. }
  lia.
Qed.

Lemma mip_sizes_ok (w h n : Z) :
  Z.max w 1 * Z.max h 1 * 4 < 2 ^ 31 ->
  existsb (fun level =>
             negb (new_size_ok (Z.max (Z.shiftr w level) 1 * Z.max (Z.shiftr h level) 1 * 4)))
          (zseq n) = false.
Proof.
  intro Hb. destruct (existsb _ _) eqn:E; [|reflexivity].
  apply existsb_exists in E as [level [Hin Hf]]. apply in_zseq in Hin.
  destruct (mip_dim_le w level) as [Hw1 Hw2]; [lia|].
  destruct (mip_dim_le h level) as [Hh1 Hh2]; [lia|].
  unfold new_size_ok in Hf.
  destruct (Z.leb_spec 0 (Z.max (Z.shiftr w level) 1 * Z.max (Z.shiftr h level) 1 * 4)); [|nia].
  destruct (Z.ltb_spec (Z.max (Z.shiftr w level) 1 * Z.max (Z.shiftr h level) 1 * 4) (2 ^ 31));
    [discriminate | nia].
Qed.

(** [Load] of a DDS file that holds a valid 2D texture (TacitImage.cpp
    76-167, with [ConvertTexture2DToPicture] 594-625): when GL yields a
    texture name, the load succeeds, the mip chain has one picture per
    layer, picture [k] is the level-[k] size (halved [k] times, at least 1)
    with the decoded level-[k] pixels, and the info record counts the
    layers as mipmaps.  This holds when the level-0 size fits the [int]
    allocation size of line 619, so that [Load] returns. *)
Theorem Load_dds2d_mip_chain (env : LoadEnv) (i : TacitImage) (t : tTexture) :
  IsLoaded i = false -> Filetype i = FT_DDS ->
  ReadCubemap env (Filename i) = None -> ReadTexture2D env (Filename i) = Some t ->
  TexValid t = true -> GenTexOK env = true -> 0 <= TexNumLayers t ->
  Z.max (TexWidth t) 1 * Z.max (TexHeight t) 1 * 4 < 2 ^ 31 ->
  let '(i', ok) := Load_noarg env i in
  Load_result env i = Some (i', ok) /\
  ok = true /\
  Z.of_nat (List.length (Pictures i')) = TexNumLayers t /\
  IMipmaps (Info i') = TexNumLayers t /\
  forall k p, nth_error (Pictures i') k = Some p ->
    PWidth p = Z.max (Z.shiftr (TexWidth t) (Z.of_nat k)) 1 /\
    PHeight p = Z.max (Z.shiftr (TexHeight t) (Z.of_nat k)) 1 /\
    PPixels p = TexDecoded t (Z.of_nat k).
Proof.
  intros HL HT HC HR HV HG Hn Hb.
  assert (Hr : Load_result env i = Some (Load_noarg env i)).
  { unfold Load_result. rewrite (Load_aborts_dds2d env i t HL HT HC HR HV HG), mip_sizes_ok by exact Hb.
    reflexivity. }
  rewrite Hr.
  unfold IsLoaded in HL; destruct (Pictures i) eqn:HP; [|discriminate].
  assert (Hd : Load_decode env i =
    (set_Pictures (set_DDSTexture2D (set_DDSCubemap i cubemap_empty) t)
       (map (fun level => mkPicture (Z.max (Z.shiftr (TexWidth t) level) 1)
                            (Z.max (Z.shiftr (TexHeight t) level) 1) (TexDecoded t level))
            (zseq (TexNumLayers t))),
     true, bitdepth_of (TexFormat t))).
  { unfold Load_decode, Load_read, Load_convert. rewrite HT; simpl. rewrite HC, HR. simpl. rewrite HV.
    unfold ConvertTexture2DToPicture; simpl. rewrite HV, HP, HG. simpl. reflexivity. }
  unfold Load_noarg, IsLoaded. rewrite HP, HT, Hd. cbv beta iota zeta delta [tFileType_eqb negb].
  destruct (Load_finish_success env
    (set_Pictures (set_DDSTexture2D (set_DDSCubemap i cubemap_empty) t)
       (map (fun level => mkPicture (Z.max (Z.shiftr (TexWidth t) level) 1)
                            (Z.max (Z.shiftr (TexHeight t) level) 1) (TexDecoded t level))
            (zseq (TexNumLayers t))))
    (bitdepth_of (TexFormat t))) as [Hok [Htime Hinfo]].
  pose proof (Load_finish_Pictures env
    (set_Pictures (set_DDSTexture2D (set_DDSCubemap i cubemap_empty) t)
       (map (fun level => mkPicture (Z.max (Z.shiftr (TexWidth t) level) 1)
                            (Z.max (Z.shiftr (TexHeight t) level) 1) (TexDecoded t level))
            (zseq (TexNumLayers t))))
    true (bitdepth_of (TexFormat t))) as HPics.
  destruct (Load_finish _ _ _ _) as [i' ok]. simpl in Hok, Hinfo, HPics. subst ok.
  assert (Hlen : Z.of_nat (List.length (zseq (TexNumLayers t))) = TexNumLayers t).
  { unfold zseq. rewrite length_map, length_seq. lia. }
  cbv beta iota. rewrite HPics, Hinfo. simpl. rewrite length_map, Hlen.
  split; [reflexivity|split; [reflexivity|split; [reflexivity|split; [reflexivity|]]]].
  intros k p Hk. rewrite nth_error_map in Hk.
  unfold zseq in Hk. rewrite nth_error_map, nth_error_seq in Hk.
  destruct (Nat.ltb_spec k (Z.to_nat (TexNumLayers t))); [|discriminate].
  simpl in Hk. inversion Hk; subst p. simpl. auto.
Qed.

(** [Load] of a DDS file that holds a valid 2D texture (TacitImage.cpp
    76-167, with [ConvertTexture2DToPicture] 594-625), when GL yields a
    texture name: the allocation of line 619 takes its size
    [mipW * mipH * 4] as an [int], so the process aborts in [Load] exactly
    when the texture has a level and its level-0 size does not fit an
    [int] (the later levels are smaller). *)
Theorem Load_dds2d_alloc_overflow (env : LoadEnv) (i : TacitImage) (t : tTexture) :
  IsLoaded i = false -> Filetype i = FT_DDS ->
  ReadCubemap env (Filename i) = None -> ReadTexture2D env (Filename i) = Some t ->
  TexValid t = true -> GenTexOK env = true ->
  Load_result env i = None <->
  0 < TexNumLayers t /\ 2 ^ 31 <= Z.max (TexWidth t) 1 * Z.max (TexHeight t) 1 * 4.
Proof.
  intros HL HT HC HR HV HG.
  unfold Load_result. rewrite (Load_aborts_dds2d env i t HL HT HC HR HV HG).
  split.
  - intro H. destruct (existsb _ _) eqn:E; [|discriminate].
    apply existsb_exists in E as [level [Hin Hf]]. apply in_zseq in Hin.
    destruct (mip_dim_le (TexWidth t) level) as [Hw1 Hw2]; [lia|].
    destruct (mip_dim_le (TexHeight t) level) as [Hh1 Hh2]; [lia|].
    unfold new_size_ok in Hf. split; [lia|].
    destruct (Z.leb_spec 0 (Z.max (Z.shiftr (TexWidth t) level) 1 *
                            Z.max (Z.shiftr (TexHeight t) level) 1 * 4)); [|nia].
    destruct (Z.ltb_spec (Z.max (Z.shiftr (TexWidth t) level) 1 *
                          Z.max (Z.shiftr (TexHeight t) level) 1 * 4) (2 ^ 31));
      [discriminate | nia].
  - intros [Hn Hb]. destruct (existsb _ _) eqn:E; [reflexivity|exfalso].
    assert (Hin : In 0 (zseq (TexNumLayers t))) by (apply in_zseq; lia).
    rewrite (proj2 (existsb_exists _ _)) in E; [discriminate|].
    exists 0. split; [exact Hin|]. rewrite !Z.shiftr_0_r. unfold new_size_ok.
    replace (Z.max (TexWidth t) 1 * Z.max (TexHeight t) 1 * 4 <? 2 ^ 31) with false
      by (symmetry; apply Z.ltb_ge; lia).
    rewrite andb_false_r. reflexivity.
Qed.

(** [Load] of a valid DDS 2D texture when GL yields no texture name
    (TacitImage.cpp 76-167 and 594-625): [Load] still reports success and
    stamps the load time, but no picture is produced, so the aggregate is
    not loaded and its info record counts no mipmaps. *)
Theorem Load_dds2d_without_gl_name (env : LoadEnv) (i : TacitImage) (t : tTexture) :
  IsLoaded i = false -> Filetype i = FT_DDS ->
  ReadCubemap env (Filename i) = None -> ReadTexture2D env (Filename i) = Some t ->
  TexValid t = true -> GenTexOK env = false ->
  let '(i', ok) := Load_noarg env i in
  ok = true /\ IsLoaded i' = false /\ IMipmaps (Info i') = 0 /\ LoadedTime i' = Now env.
Proof.
  intros HL HT HC HR HV HG.
  unfold IsLoaded in HL; destruct (Pictures i) eqn:HP; [|discriminate].
  assert (Hd : Load_decode env i =
    (set_DDSTexture2D (set_DDSCubemap i cubemap_empty) t, true, bitdepth_of (TexFormat t))).
  { unfold Load_decode, Load_read, Load_convert. rewrite HT; simpl. rewrite HC, HR. simpl. rewrite HV.
    unfold ConvertTexture2DToPicture; simpl. rewrite HV, HP, HG. reflexivity. }
  unfold Load_noarg, IsLoaded. rewrite HP, HT, Hd. cbv beta iota zeta delta [tFileType_eqb negb].
  destruct (Load_finish_success env (set_DDSTexture2D (set_DDSCubemap i cubemap_empty) t)
              (bitdepth_of (TexFormat t))) as [Hok [Htime Hinfo]].
  pose proof (Load_finish_Pictures env (set_DDSTexture2D (set_DDSCubemap i cubemap_empty) t)
                true (bitdepth_of (TexFormat t))) as HPics.
  destruct (Load_finish _ _ _ _) as [i' ok]. simpl in Hok, Htime, Hinfo, HPics. subst ok.
  cbv beta iota. unfold IsLoaded. rewrite HPics, Hinfo, Htime. simpl. rewrite HP.
  repeat split; reflexivity.
Qed.

(** [Load] of a valid DDS cubemap (TacitImage.cpp 76-167) whose face size
    fits the [int] allocation size of [ConvertCubemapToPicture] (line 659),
    so that [Load] returns, records in the info record the memory of the
    six faces only, [24 * w * h] bytes; the alt cross picture built after
    it is counted by [GetMemSizeBytes] (170-178), which then reports
    [72 * w * h].  Both are sums in an [int], so they wrap: 8192x8192 faces
    give 536870912 for [72 * w * h]. *)
Theorem Load_cube_mem_excludes_alt (env : LoadEnv) (i : TacitImage) (c : tCubemap) :
  IsLoaded i = false -> Filetype i = FT_DDS ->
  ReadCubemap env (Filename i) = Some c -> CubeValid c = true ->
  picture_IsValid (AltPicture i) = false ->
  let w := TexWidth (GetSide c PosX) in
  let h := TexHeight (GetSide c PosX) in
  0 < w -> 0 < h -> w * h * 4 < 2 ^ 31 ->
  let '(i', ok) := Load_noarg env i in
  Load_result env i = Some (i', ok) /\ ok = true /\
  IMemSizeBytes (Info i') = int32_wrap (24 * w * h) /\ GetMemSizeBytes i' = int32_wrap (72 * w * h).
Proof.
  intros HL HT HR HV HA w h Hw Hh Hb.
  assert (Hr : Load_result env i = Some (Load_noarg env i)).
  { unfold Load_result. rewrite (Load_aborts_cube env i c HL HT HR HV). fold w h.
    unfold new_size_ok. replace (0 <=? w * h * 4) with true by (symmetry; apply Z.leb_le; nia).
    replace (w * h * 4 <? 2 ^ 31) with true by (symmetry; apply Z.ltb_lt; lia). reflexivity. }
  rewrite Hr.
  destruct (Load_cube_alt env i c HL HT HR HV) as [_ Halt]. fold w h in Halt.
  unfold IsLoaded in HL; destruct (Pictures i) eqn:HP; [|discriminate].
  set (faces := map (fun s => mkPicture w h (TexDecoded (GetSide c s) 0)) sideOrder).
  assert (Hd : Load_decode env i = (set_Pictures (set_DDSCubemap i c) faces, true,
                                    bitdepth_of (TexFormat (GetSide c PosX)))).
  { unfold Load_decode, Load_read, Load_convert. rewrite HT; simpl. rewrite HR. simpl. rewrite HV.
    unfold ConvertCubemapToPicture; simpl. rewrite HV, HP. reflexivity. }
  assert (Hfold : fold_left (fun n p => int32_wrap (n + picture_NumPixels p * 4)) faces 0
                  = int32_wrap (24 * w * h)).
  { unfold faces, sideOrder, picture_NumPixels, picture_IsValid; cbn [fold_left map PWidth PHeight].
    replace (0 <? w) with true by (symmetry; apply Z.ltb_lt; lia).
    replace (0 <? h) with true by (symmetry; apply Z.ltb_lt; lia). cbn [andb].
    repeat (rewrite int32_wrap_add_l || rewrite <- Z.add_assoc). f_equal; ring. }
  revert Halt. unfold Load_noarg, IsLoaded. rewrite HP, HT, Hd.
  cbv beta iota zeta delta [tFileType_eqb negb]. intro Halt.
  destruct (Load_finish_success env (set_Pictures (set_DDSCubemap i c) faces)
              (bitdepth_of (TexFormat (GetSide c PosX)))) as [Hok [_ Hinfo]].
  pose proof (Load_finish_Pictures env (set_Pictures (set_DDSCubemap i c) faces)
                true (bitdepth_of (TexFormat (GetSide c PosX)))) as HPics.
  destruct (Load_finish _ _ _ _) as [i' ok]. simpl in Hok, Hinfo, HPics, Halt. subst ok.
  cbv beta iota. rewrite Hinfo. cbn [IMemSizeBytes].
  split; [reflexivity|split; [reflexivity|split]].
  { unfold GetMemSizeBytes, set_LoadedTime, set_Pictures, set_DDSCubemap; cbn [Pictures AltPicture].
    rewrite Hfold, HA, int32_wrap_add_l. f_equal; ring. }
  unfold GetMemSizeBytes. rewrite HPics, Halt, Hfold.
  unfold picture_NumPixels, picture_IsValid. rewrite !blit_width, !blit_height.
  unfold picture_Set.
  replace ((w * 4 <=? 0) || (h * 3 <=? 0)) with false
    by (symmetry; apply orb_false_iff; split; apply Z.leb_gt; lia). cbn [PWidth PHeight].
  replace (0 <? w * 4) with true by (symmetry; apply Z.ltb_lt; lia).
  replace (0 <? h * 3) with true by (symmetry; apply Z.ltb_lt; lia). cbn [andb].
  rewrite int32_wrap_add_l. f_equal; ring.
Qed.

Lemma sum_widths_acc (l : list tPicture) (acc : Z) :
  fold_left (fun w layer => w + PWidth layer) l acc = acc + fold_left (fun w layer => w + PWidth layer) l 0.
Proof.
  revert acc; induction l as [|q l IH]; intro acc; simpl; [lia|].
  rewrite IH. symmetry. rewrite IH. lia.
Qed.

Lemma strip_fold_frame (ps : list tPicture) (d : tPicture) (o a b : Z) :
  Forall (fun q => 0 <= PWidth q) ps -> a < o ->
  PPixels (fst (fold_left (fun '(alt, originX) layer => (blit alt layer originX 0, originX + PWidth layer))
                  ps (d, o))) a b = PPixels d a b.
Proof.
  revert d o; induction ps as [|q ps IH]; intros d o Hw Ha; simpl; [reflexivity|].
  inversion Hw; subst. rewrite IH by (auto; lia).
  rewrite blit_pixels. replace (0 <=? a - o) with false by (symmetry; apply Z.leb_gt; lia).
  reflexivity.
Qed.

Lemma strip_fold_at (ps : list tPicture) (d : tPicture) (o : Z) (k : nat) (p : tPicture) (x y : Z) :
  Forall (fun q => 0 <= PWidth q) ps -> nth_error ps k = Some p ->
  0 <= x < PWidth p -> 0 <= y < PHeight p ->
  PPixels (fst (fold_left (fun '(alt, originX) layer => (blit alt layer originX 0, originX + PWidth layer))
                  ps (d, o)))
    (o + fold_left (fun w layer => w + PWidth layer) (firstn k ps) 0 + x) y = PPixels p x y.
Proof.
  revert d o k; induction ps as [|q ps IH]; intros d o [|k] Hw Hk Hx Hy; simpl in Hk; try discriminate;
    inversion Hw; subst.
  - inversion Hk; subst q. simpl. rewrite strip_fold_frame by (auto; lia).
    rewrite blit_pixels.
    replace (o + 0 + x - o) with x by lia. replace (y - 0) with y by lia.
    replace (0 <=? x) with true by (symmetry; apply Z.leb_le; lia).
    replace (x <? PWidth p) with true by (symmetry; apply Z.ltb_lt; lia).
    replace (0 <=? y) with true by (symmetry; apply Z.leb_le; lia).
    replace (y <? PHeight p) with true by (symmetry; apply Z.ltb_lt; lia). reflexivity.
  - simpl. rewrite sum_widths_acc.
    match goal with |- PPixels _ ?pos y = _ =>
      replace pos with (o + PWidth q + fold_left (fun w layer => w + PWidth layer) (firstn k ps) 0 + x)
        by lia end.
    apply IH; auto.
Qed.

(** [CreateAltPictureDDS2DMipmaps] (TacitImage.cpp 181-203) lays the mip
    chain side by side: the alt picture is as wide as the summed widths and
    as high as the image, and pixel [(x, y)] of level [k] sits at column
    [x] plus the widths of the levels before [k]. *)
Theorem CreateAltPictureDDS2DMipmaps_strip (i : TacitImage) (k : nat) (p : tPicture) (x y : Z) :
  Forall (fun q => 0 <= PWidth q) (Pictures i) ->
  nth_error (Pictures i) k = Some p -> 0 <= x < PWidth p -> 0 <= y < PHeight p ->
  let alt := AltPicture (CreateAltPictureDDS2DMipmaps i) in
  let width := fold_left (fun w layer => w + PWidth layer) (Pictures i) 0 in
  (0 < width -> 0 < GetHeight i -> PWidth alt = width /\ PHeight alt = GetHeight i) /\
  PPixels alt (fold_left (fun w layer => w + PWidth layer) (firstn k (Pictures i)) 0 + x) y
  = PPixels p x y.
Proof.
  intros Hw Hk Hx Hy. cbv zeta. unfold CreateAltPictureDDS2DMipmaps.
  pose proof (strip_fold_at (Pictures i) (picture_Set (fold_left (fun w layer => w + PWidth layer) (Pictures i) 0) (GetHeight i) transparent) 0 k p x y Hw Hk Hx Hy) as H.
  assert (Hdims : forall ps d o,
    PWidth (fst (fold_left (fun '(alt, originX) layer => (blit alt layer originX 0, originX + PWidth layer))
                  ps (d, o))) = PWidth d /\
    PHeight (fst (fold_left (fun '(alt, originX) layer => (blit alt layer originX 0, originX + PWidth layer))
                  ps (d, o))) = PHeight d).
  { induction ps as [|q ps IH]; intros d o; simpl; [auto|].
    rewrite (proj1 (IH _ _)), (proj2 (IH _ _)), blit_width, blit_height. auto. }
  destruct (fold_left _ (Pictures i) _) as [alt o] eqn:E. simpl in H |- *.
  split; [|exact H].
  intros H1 H2. pose proof (Hdims (Pictures i) (picture_Set (fold_left (fun w layer => w + PWidth layer) (Pictures i) 0) (GetHeight i) transparent) 0) as [Hw' Hh'].
  rewrite E in Hw', Hh'. simpl in Hw', Hh'. rewrite Hw', Hh'.
  unfold picture_Set. replace ((_ <=? 0) || (GetHeight i <=? 0)) with false
    by (symmetry; apply orb_false_iff; split; apply Z.leb_gt; lia). simpl. auto.
Qed.

(** ** Settings lemmas *)

Ltac settings_red :=
  lazy beta iota zeta delta [WindowW WindowH WindowX WindowY ShowLog InfoOverlayShow ContentViewShow ThumbnailWidth SortKey SortAscending OverlayCorner Tile BackgroundStyle BackgroundExtend ResampleFilter ConfirmDeletes ConfirmFileOverwrites SlidehowFrameDuration FileSaveType FileSaveTargaRLE SaveAllSizeMode MaxImageMemMB MaxCacheFiles set_WindowW set_WindowH set_WindowX set_WindowY set_ShowLog set_InfoOverlayShow set_ContentViewShow set_ThumbnailWidth set_SortKey set_SortAscending set_OverlayCorner set_Tile set_BackgroundStyle set_BackgroundExtend set_ResampleFilter set_ConfirmDeletes set_ConfirmFileOverwrites set_SlidehowFrameDuration set_FileSaveType set_FileSaveTargaRLE set_SaveAllSizeMode set_MaxImageMemMB set_MaxCacheFiles].
Ltac settings_red_in H :=
  lazy beta iota zeta delta [WindowW WindowH WindowX WindowY ShowLog InfoOverlayShow ContentViewShow ThumbnailWidth SortKey SortAscending OverlayCorner Tile BackgroundStyle BackgroundExtend ResampleFilter ConfirmDeletes ConfirmFileOverwrites SlidehowFrameDuration FileSaveType FileSaveTargaRLE SaveAllSizeMode MaxImageMemMB MaxCacheFiles set_WindowW set_WindowH set_WindowX set_WindowY set_ShowLog set_InfoOverlayShow set_ContentViewShow set_ThumbnailWidth set_SortKey set_SortAscending set_OverlayCorner set_Tile set_BackgroundStyle set_BackgroundExtend set_ResampleFilter set_ConfirmDeletes set_ConfirmFileOverwrites set_SlidehowFrameDuration set_FileSaveType set_FileSaveTargaRLE set_SaveAllSizeMode set_MaxImageMemMB set_MaxCacheFiles] in H.


Lemma nodupb_inj (A : Type) (f : A -> Z) (l : list A) :
  nodupb (map f l) = true -> forall a b, In a l -> In b l -> f a = f b -> a = b.
Proof.
  induction l as [|x l IH]; simpl; [tauto|].
  intros H a b Ha Hb E. apply andb_prop in H as [H1 H2].
  assert (Hn : forall c, In c l -> f x <> f c).
  { intros c Hc E'. apply negb_true_iff in H1.
    assert (existsb (Z.eqb (f x)) (map f l) = true) as H3.
    { apply existsb_exists. exists (f c). split; [apply in_map; auto | apply Z.eqb_eq; auto]. }
    congruence. }
  destruct Ha as [<-|Ha], Hb as [<-|Hb]; auto.
  - exfalso. exact (Hn b Hb E).
  - exfalso. exact (Hn a Ha (eq_sym E)).
Qed.

Section ReadItems.
Variable tExpr : Type.
Variable ExprInt : tExpr -> Z.
Variable ExprBool : tExpr -> bool.
Variable ExprFloat : tExpr -> spec_float.
Variable ExprDouble : tExpr -> spec_float.
Variable tHash : string -> Z.
Hypothesis Hdistinct : nodupb (map tHash settings_names) = true.

(** The case an item name selects, once the hashes are known distinct. *)
Definition read_action (n : string) (s : Settings) (e : tExpr) : Settings :=
  if String.eqb n "WindowX" then set_WindowX s (ExprInt e)
  else if String.eqb n "WindowY" then set_WindowY s (ExprInt e)
  else if String.eqb n "WindowW" then set_WindowW s (ExprInt e)
  else if String.eqb n "WindowH" then set_WindowH s (ExprInt e)
  else if String.eqb n "ShowLog" then set_ShowLog s (ExprBool e)
  else if String.eqb n "InfoOverlayShow" then set_InfoOverlayShow s (ExprBool e)
  else if String.eqb n "ContentViewShow" then set_ContentViewShow s (ExprBool e)
  else if String.eqb n "ThumbnailWidth" then set_ThumbnailWidth s (ExprFloat e)
  else if String.eqb n "SortKey" then set_SortKey s (ExprInt e)
  else if String.eqb n "SortAscending" then set_SortAscending s (ExprBool e)
  else if String.eqb n "OverlayCorner" then set_OverlayCorner s (ExprInt e)
  else if String.eqb n "Tile" then set_Tile s (ExprBool e)
  else if String.eqb n "BackgroundStyle" then set_BackgroundStyle s (ExprInt e)
  else if String.eqb n "BackgroundExtend" then set_BackgroundExtend s (ExprBool e)
  else if String.eqb n "ResampleFilter" then set_ResampleFilter s (ExprInt e)
  else if String.eqb n "ConfirmDeletes" then set_ConfirmDeletes s (ExprBool e)
  else if String.eqb n "ConfirmFileOverwrites" then set_ConfirmFileOverwrites s (ExprBool e)
  else if String.eqb n "SlidehowFrameDuration" then set_SlidehowFrameDuration s (ExprDouble e)
  else if String.eqb n "FileSaveType" then set_FileSaveType s (ExprInt e)
  else if String.eqb n "FileSaveTargaRLE" then set_FileSaveTargaRLE s (ExprBool e)
  else if String.eqb n "SaveAllSizeMode" then set_SaveAllSizeMode s (ExprInt e)
  else if String.eqb n "MaxImageMemMB" then set_MaxImageMemMB s (ExprInt e)
  else if String.eqb n "MaxCacheFiles" then set_MaxCacheFiles s (ExprInt e)
  else s.

Lemma read_item_name (n : string) (s : Settings) (e : tExpr) :
  existsb (String.eqb n) settings_names = true ->
  read_item tExpr ExprInt ExprBool ExprFloat ExprDouble tHash s (tHash n) e = read_action n s e.
Proof.
  assert (Hinj : forall a b, existsb (String.eqb a) settings_names = true ->
            existsb (String.eqb b) settings_names = true -> tHash a = tHash b -> a = b).
  { intros a b Ha Hb. apply (nodupb_inj _ tHash _ Hdistinct).
    - apply existsb_exists in Ha as [c [Hc Ec]]. apply String.eqb_eq in Ec. subst; auto.
    - apply existsb_exists in Hb as [c [Hc Ec]]. apply String.eqb_eq in Ec. subst; auto. }
  intros Hn. pose proof Hn as Hn'.
  apply existsb_exists in Hn' as [c [Hc Ec]]. apply String.eqb_eq in Ec. subst c.
  unfold settings_names in Hc.
  repeat (destruct Hc as [<- | Hc]; [
    unfold read_item;
    repeat match goal with
    | |- context [tHash ?a =? tHash ?a] => rewrite Z.eqb_refl
    | |- context [tHash ?a =? tHash ?b] =>
        let E := fresh in
        destruct (Z.eqb_spec (tHash a) (tHash b)) as [E|E];
        [apply Hinj in E; [discriminate E | reflexivity | reflexivity] | ]
    end; reflexivity | ]).
  destruct Hc.
Qed.

Lemma fold_read_cons (n : string) (e : tExpr) (l : list (string * tExpr)) (st : Settings) :
  existsb (String.eqb n) settings_names = true ->
  fold_left (fun s '(cmd, e) => read_item tExpr ExprInt ExprBool ExprFloat ExprDouble tHash s (tHash cmd) e)
    ((n, e) :: l) st =
  fold_left (fun s '(cmd, e) => read_item tExpr ExprInt ExprBool ExprFloat ExprDouble tHash s (tHash cmd) e)
    l (read_action n st e).
Proof. intros Hn. simpl. rewrite read_item_name by exact Hn. reflexivity. Qed.
End ReadItems.

Lemma tiClamp_range (v lo hi : Z) : lo <= hi -> lo <= tiClamp v lo hi <= hi.
Proof. unfold tiClamp. destruct (Z.ltb_spec v lo), (Z.ltb_spec hi v); lia. Qed.

Lemma tiClamp_id (v lo hi : Z) : lo <= v <= hi -> tiClamp v lo hi = v.
Proof. unfold tiClamp. destruct (Z.ltb_spec v lo), (Z.ltb_spec hi v); lia. Qed.

Lemma tClampMin_ge (v m : Z) : m <= tClampMin v m.
Proof. unfold tClampMin. destruct (Z.ltb_spec v m); lia. Qed.

Lemma tClampMin_id (v m : Z) : m <= v -> tClampMin v m = v.
Proof. unfold tClampMin. destruct (Z.ltb_spec v m); lia. Qed.

Lemma Settings_Load_clamps (tExpr : Type) (ExprInt : tExpr -> Z) (ExprBool : tExpr -> bool)
    (ExprFloat ExprDouble : tExpr -> spec_float) (tHash : string -> Z)
    (file : option (list (string * tExpr))) (screenW screenH tmin tmax : Z) (s : Settings) :
  let s1 := match file with
            | None => Settings_Reset_screen screenW screenH
            | Some exprs => fold_left (fun s '(cmd, e) =>
                read_item tExpr ExprInt ExprBool ExprFloat ExprDouble tHash s (tHash cmd) e) exprs s
            end in
  Settings_Load tExpr ExprInt ExprBool ExprFloat ExprDouble tHash file screenW screenH tmin tmax s =
  mkSettings (tiClamp (WindowW s1) 640 screenW) (tiClamp (WindowH s1) 360 screenH) (tiClamp (WindowX s1) 0 (screenW - tiClamp (WindowW s1) 640 screenW)) (tiClamp (WindowY s1) 0 (screenH - tiClamp (WindowH s1) 360 screenH)) (ShowLog s1) (InfoOverlayShow s1) (ContentViewShow s1) (tiClamp_f (ThumbnailWidth s1) (float_of_int tmin) (float_of_int tmax)) (tiClamp (SortKey s1) 0 3) (SortAscending s1) (tiClamp (OverlayCorner s1) 0 3) (Tile s1) (tiClamp (BackgroundStyle s1) 0 4) (BackgroundExtend s1) (tiClamp (ResampleFilter s1) 0 5) (ConfirmDeletes s1) (ConfirmFileOverwrites s1) (SlidehowFrameDuration s1) (tiClamp (FileSaveType s1) 0 4) (FileSaveTargaRLE s1) (tiClamp (SaveAllSizeMode s1) 0 3) (tClampMin (MaxImageMemMB s1) 256) (tClampMin (MaxCacheFiles s1) 200).
Proof.
  intros s1. unfold Settings_Load. fold s1. clearbody s1.
  destruct s1. settings_red. reflexivity.
Qed.

(** [Settings::Load] (Settings.cpp 63-116): whatever the file holds, or when
    it is missing, on a screen of at least 640x360 every integer setting it
    clamps ends in its range (window size and position on the screen, sort key,
    overlay corner, background style, resample filter, save modes, memory
    and cache limits). *)
Theorem Settings_Load_in_range (tExpr : Type) (ExprInt : tExpr -> Z) (ExprBool : tExpr -> bool)
    (ExprFloat ExprDouble : tExpr -> spec_float) (tHash : string -> Z)
    (file : option (list (string * tExpr))) (screenW screenH tmin tmax : Z) (s : Settings) :
  640 <= screenW -> 360 <= screenH ->
  settings_in_range screenW screenH
    (Settings_Load tExpr ExprInt ExprBool ExprFloat ExprDouble tHash file screenW screenH tmin tmax s) = true.
Proof.
  intros Hw Hh. rewrite Settings_Load_clamps. cbv zeta.
  match goal with |- context [WindowW ?t] => generalize t as s1 end. intros s1.
  destruct s1. unfold settings_in_range. cbn.
  pose proof (tiClamp_range ResampleFilter0 0 5 ltac:(lia)).
  pose proof (tiClamp_range BackgroundStyle0 0 4 ltac:(lia)).
  pose proof (tiClamp_range WindowW0 640 screenW ltac:(lia)).
  pose proof (tiClamp_range WindowH0 360 screenH ltac:(lia)).
  pose proof (tiClamp_range WindowX0 0 (screenW - tiClamp WindowW0 640 screenW) ltac:(lia)).
  pose proof (tiClamp_range WindowY0 0 (screenH - tiClamp WindowH0 360 screenH) ltac:(lia)).
  pose proof (tiClamp_range OverlayCorner0 0 3 ltac:(lia)).
  pose proof (tiClamp_range FileSaveType0 0 4 ltac:(lia)).
  pose proof (tiClamp_range SortKey0 0 3 ltac:(lia)).
  pose proof (tiClamp_range SaveAllSizeMode0 0 3 ltac:(lia)).
  pose proof (tClampMin_ge MaxImageMemMB0 256).
  pose proof (tClampMin_ge MaxCacheFiles0 200).
  (repeat rewrite andb_true_iff; repeat split; apply Z.leb_le; lia).
Qed.

(** [Settings::Load] of a missing file (Settings.cpp 63-116) gives the
    defaults of [Reset] (25-52, 55-60), clamped: a 1280x720 window, shrunk to
    the screen, centred on a screen larger than it and at 0 otherwise. *)
Theorem Settings_Load_missing (tExpr : Type) (ExprInt : tExpr -> Z) (ExprBool : tExpr -> bool)
    (ExprFloat ExprDouble : tExpr -> spec_float) (tHash : string -> Z)
    (screenW screenH tmin tmax : Z) (s : Settings) :
  640 <= screenW -> 360 <= screenH ->
  Settings_Load tExpr ExprInt ExprBool ExprFloat ExprDouble tHash None screenW screenH tmin tmax s =
  mkSettings (Z.min 1280 screenW) (Z.min 720 screenH)
    (if screenW <? 1280 then 0 else (screenW - 1280) / 2)
    (if screenH <? 720 then 0 else (screenH - 720) / 2)
    false false false (tiClamp_f (float_of_int 128) (float_of_int tmin) (float_of_int tmax))
    0 true 3 false 1 false 2 true true
    (SFdiv prec64 emax64 (double_of_int 1) (double_of_int 30)) 0 false 0 1024 7000.
Proof.
  intros Hw Hh. unfold Settings_Load, Settings_Reset_screen, Settings_Reset. settings_red.
  rewrite !Z.shiftr_div_pow2 by lia. change (2 ^ 1) with 2.
  pose proof (Z.div_mod (screenW - 1280) 2 ltac:(lia)).
  pose proof (Z.mod_pos_bound (screenW - 1280) 2 ltac:(lia)).
  pose proof (Z.div_mod (screenH - 720) 2 ltac:(lia)).
  pose proof (Z.mod_pos_bound (screenH - 720) 2 ltac:(lia)).
  assert (EW : tiClamp 1280 640 screenW = Z.min 1280 screenW)
    by (unfold tiClamp; destruct (Z.ltb_spec 1280 640), (Z.ltb_spec screenW 1280); lia).
  assert (EH : tiClamp 720 360 screenH = Z.min 720 screenH)
    by (unfold tiClamp; destruct (Z.ltb_spec 720 360), (Z.ltb_spec screenH 720); lia).
  rewrite EW, EH.
  assert (EX : tiClamp ((screenW - 1280) / 2) 0 (screenW - Z.min 1280 screenW) =
               (if screenW <? 1280 then 0 else (screenW - 1280) / 2)).
  { unfold tiClamp. destruct (Z.ltb_spec screenW 1280);
    destruct (Z.ltb_spec ((screenW - 1280) / 2) 0);
    destruct (Z.ltb_spec (screenW - Z.min 1280 screenW) ((screenW - 1280) / 2)); lia. }
  assert (EY : tiClamp ((screenH - 720) / 2) 0 (screenH - Z.min 720 screenH) =
               (if screenH <? 720 then 0 else (screenH - 720) / 2)).
  { unfold tiClamp. destruct (Z.ltb_spec screenH 720);
    destruct (Z.ltb_spec ((screenH - 720) / 2) 0);
    destruct (Z.ltb_spec (screenH - Z.min 720 screenH) ((screenH - 720) / 2)); lia. }
  rewrite EX, EY, !tiClamp_id, !tClampMin_id by lia.
  reflexivity.
Qed.

Lemma read_saved (tExpr : Type) (ExprInt : tExpr -> Z) (ExprBool : tExpr -> bool)
    (ExprFloat ExprDouble : tExpr -> spec_float) (tHash : string -> Z)
    (WrittenExpr : SValue -> tExpr) (s s0 : Settings) :
  nodupb (map tHash settings_names) = true ->
  (forall n, ExprInt (WrittenExpr (SInt n)) = n) ->
  (forall b, ExprBool (WrittenExpr (SBool b)) = b) ->
  fold_left (fun s '(cmd, e) => read_item tExpr ExprInt ExprBool ExprFloat ExprDouble tHash s (tHash cmd) e)
    (map (fun '(name, v) => (name, WrittenExpr v)) (Settings_Save s)) s0 =
  mkSettings (WindowW s) (WindowH s) (WindowX s) (WindowY s) (ShowLog s) (InfoOverlayShow s) (ContentViewShow s) (ExprFloat (WrittenExpr (SFloat (ThumbnailWidth s)))) (SortKey s) (SortAscending s) (OverlayCorner s) (Tile s) (BackgroundStyle s) (BackgroundExtend s) (ResampleFilter s) (ConfirmDeletes s) (ConfirmFileOverwrites s) (ExprDouble (WrittenExpr (SDouble (SlidehowFrameDuration s)))) (FileSaveType s) (FileSaveTargaRLE s) (SaveAllSizeMode s) (MaxImageMemMB s) (MaxCacheFiles s).
Proof.
  intros Hd HI HB.
  cbn [Settings_Save map].
  repeat (rewrite fold_read_cons by (exact Hd || reflexivity)).
  cbn [fold_left].
  lazy beta iota delta [read_action String.eqb Ascii.eqb Bool.eqb andb].
  destruct s0. settings_red. rewrite !HI, !HB. reflexivity.
Qed.

(** [Settings::Save] then [Settings::Load] (Settings.cpp 119-150 and 63-116):
    when the item names hash to distinct values and the written values read
    back as written, the integer and boolean settings of an in-range
    configuration come back unchanged, whatever configuration [Load] starts
    from. *)
Theorem Settings_Save_Load (tExpr : Type) (ExprInt : tExpr -> Z) (ExprBool : tExpr -> bool)
    (ExprFloat ExprDouble : tExpr -> spec_float) (tHash : string -> Z)
    (WrittenExpr : SValue -> tExpr) (screenW screenH tmin tmax : Z) (s s0 : Settings) :
  nodupb (map tHash settings_names) = true ->
  (forall n, ExprInt (WrittenExpr (SInt n)) = n) ->
  (forall b, ExprBool (WrittenExpr (SBool b)) = b) ->
  settings_in_range screenW screenH s = true ->
  let file := map (fun '(name, v) => (name, WrittenExpr v)) (Settings_Save s) in
  let s' := Settings_Load tExpr ExprInt ExprBool ExprFloat ExprDouble tHash (Some file)
              screenW screenH tmin tmax s0 in
  int_fields s' = int_fields s /\ bool_fields s' = bool_fields s.
Proof.
  intros Hd HI HB Hr file s'. subst file s'.
  rewrite Settings_Load_clamps. cbv zeta. rewrite read_saved by assumption.
  destruct s. unfold settings_in_range in Hr. cbn [WindowW WindowH WindowX WindowY ResampleFilter
    BackgroundStyle OverlayCorner FileSaveType SortKey MaxImageMemMB MaxCacheFiles SaveAllSizeMode] in Hr.
  repeat rewrite andb_true_iff in Hr. rewrite !Z.leb_le in Hr.
  repeat match goal with H : _ /\ _ |- _ => destruct H end.
  unfold int_fields, bool_fields. cbn.
  rewrite (tiClamp_id WindowW0 640 screenW), (tiClamp_id WindowH0 360 screenH) by lia.
  rewrite !tiClamp_id, !tClampMin_id by lia.
  split; reflexivity.
Qed.

(** ** Log lemmas *)

Lemma rec_lines_cons2 (buf : list ascii) (o o' : Z) (r : list Z) :
  rec_lines buf (o :: o' :: r) = buf_range buf o (o' - 1) :: rec_lines buf (o' :: r).
Proof. reflexivity. Qed.

Lemma rec_lines_one (buf : list ascii) (o : Z) :
  rec_lines buf [o] = [buf_range buf o (Z.of_nat (List.length buf))].
Proof. reflexivity. Qed.

Lemma scan_newlines_app (pre t : list ascii) (offs : list Z) :
  scan_newlines (pre ++ t) (Z.of_nat (List.length pre)) (List.length t) offs =
  offs ++ nl_from t (Z.of_nat (List.length pre)).
Proof.
  revert pre offs. induction t as [|c r IH]; intros pre offs; simpl.
  - now rewrite app_nil_r.
  - rewrite Nat2Z.id, app_nth2, Nat.sub_diag by lia. simpl.
    replace (pre ++ c :: r) with ((pre ++ [c]) ++ r) by now rewrite <- app_assoc.
    replace (Z.of_nat (List.length pre) + 1) with (Z.of_nat (List.length (pre ++ [c])))
      by (rewrite length_app; simpl; lia).
    rewrite IH. destruct (Ascii.eqb c newline); simpl; [now rewrite <- app_assoc|reflexivity].
Qed.

Lemma Log_lines_rec (l : TextureViewerLog) :
  Log_lines l = rec_lines (Buf l) (LineOffsets l).
Proof.
  unfold Log_lines, Log_line. destruct l as [buf offs sb]; simpl.
  assert (H : forall pre L, map (fun n => buf_range buf (nth n (pre ++ L) 0)
      (if (n + 1 <? List.length (pre ++ L))%nat then nth (n + 1) (pre ++ L) 0 - 1
       else Z.of_nat (List.length buf))) (seq (List.length pre) (List.length L)) = rec_lines buf L).
  { intros pre L. revert pre. induction L as [|o L IH]; intros pre; [reflexivity|].
    simpl. rewrite app_nth2, Nat.sub_diag by lia. simpl.
    replace (pre ++ o :: L) with ((pre ++ [o]) ++ L) by now rewrite <- app_assoc.
    replace (S (List.length pre)) with (List.length (pre ++ [o])) by (rewrite length_app; simpl; lia).
    rewrite IH. rewrite length_app. destruct L as [|o' L].
    - simpl. match goal with |- context [(?a <? ?b)%nat] => destruct (Nat.ltb_spec a b) end;
        [rewrite length_app in *; simpl in *; lia | reflexivity].
    - replace (List.length pre + 1 <? List.length (pre ++ [o]) + List.length (o' :: L))%nat with true
        by (symmetry; apply Nat.ltb_lt; rewrite length_app; simpl; lia).
      rewrite app_nth2 by (rewrite length_app; simpl; lia).
      rewrite length_app. simpl. replace (List.length pre + 1 - (List.length pre + 1))%nat with 0%nat by lia.
      reflexivity. }
  exact (H [] offs).
Qed.

Lemma nl_from_gt (b : list ascii) (p : Z) : Forall (fun x => p + 1 <= x) (nl_from b p).
Proof.
  revert p. induction b as [|c r IH]; intros p; simpl; [constructor|].
  specialize (IH (p + 1)).
  destruct (Ascii.eqb c newline); [constructor; [lia|]|];
  eapply Forall_impl; try exact IH; simpl; intros; lia.
Qed.

Lemma rec_lines_split (pre b : list ascii) :
  rec_lines (pre ++ b) (Z.of_nat (List.length pre) :: nl_from b (Z.of_nat (List.length pre))) = split_lines b.
Proof.
  revert pre. induction b as [|c r IH]; intros pre.
  - simpl. rewrite app_nil_r. unfold buf_range. rewrite Z.sub_diag. reflexivity.
  - set (p := Z.of_nat (List.length pre)).
    assert (Hpre : pre ++ c :: r = (pre ++ [c]) ++ r) by now rewrite <- app_assoc.
    assert (Hp : Z.of_nat (List.length (pre ++ [c])) = p + 1) by (subst p; rewrite length_app; simpl; lia).
    specialize (IH (pre ++ [c])). rewrite Hp, <- Hpre in IH.
    assert (Hsk : skipn (Z.to_nat p) (pre ++ c :: r) = c :: r)
      by (subst p; rewrite Nat2Z.id, skipn_app, skipn_all, Nat.sub_diag; reflexivity).
    assert (Hsk1 : skipn (Z.to_nat (p + 1)) (pre ++ c :: r) = r).
    { subst p. rewrite Hpre, Z2Nat.inj_add, Nat2Z.id by lia. change (Z.to_nat 1) with 1%nat.
      rewrite skipn_app, skipn_all2 by (rewrite length_app; simpl; lia).
      rewrite length_app. simpl.
      match goal with |- skipn ?n r = r => replace n with 0%nat by lia end. reflexivity. }
    (* the first line starting at [p] is [c] followed by the line at [p + 1] *)
    assert (Hcons : forall e, p < e -> buf_range (pre ++ c :: r) p e = c :: buf_range (pre ++ c :: r) (p + 1) e).
    { intros e He. unfold buf_range. rewrite Hsk, Hsk1.
      replace (Z.to_nat (e - p)) with (S (Z.to_nat (e - (p + 1)))) by lia. reflexivity. }
    simpl nl_from. simpl split_lines.
    destruct (Ascii.eqb c newline) eqn:Ec.
    + rewrite rec_lines_cons2, IH. unfold buf_range at 1.
      replace (p + 1 - 1 - p) with 0 by lia. reflexivity.
    + rewrite <- IH.
      pose proof (nl_from_gt r (p + 1)) as Hg.
      destruct (nl_from r (p + 1)) as [|x xs] eqn:Enl.
      * rewrite !rec_lines_one. rewrite Hcons; [reflexivity|].
        subst p. rewrite length_app. simpl. lia.
      * rewrite !rec_lines_cons2. inversion Hg; subst. rewrite Hcons by lia. reflexivity.
Qed.

Lemma split_lines_ne (b : list ascii) : split_lines b <> [].
Proof.
  destruct b as [|c r]; simpl; [discriminate|].
  destruct (Ascii.eqb c newline); [discriminate|]. destruct (split_lines r); discriminate.
Qed.

Lemma join_split (b : list ascii) : join_lines (split_lines b) = b.
Proof.
  induction b as [|c r IH]; [reflexivity|]. simpl.
  pose proof (split_lines_ne r) as Hne.
  destruct (Ascii.eqb c newline) eqn:Ec.
  - apply Ascii.eqb_eq in Ec. subst c.
    destruct (split_lines r) as [|x [|y ls]]; simpl in *; [congruence | now rewrite IH | now rewrite IH].
  - destruct (split_lines r) as [|x [|y ls]]; simpl in *; [congruence | now rewrite IH | now rewrite IH].
Qed.

Lemma split_no_newline (b : list ascii) : Forall (fun x => ~ In newline x) (split_lines b).
Proof.
  induction b as [|c r IH]; simpl; [constructor; [simpl; tauto | constructor]|].
  destruct (Ascii.eqb c newline) eqn:Ec.
  - constructor; [simpl; tauto | exact IH].
  - destruct (split_lines r) as [|x ls]; [constructor; [|constructor]|].
    + simpl. intros [H|H]; [subst; rewrite Ascii.eqb_refl in Ec; discriminate | exact H].
    + inversion IH; subst. constructor; [|assumption].
      simpl. intros [H|H]; [subst; rewrite Ascii.eqb_refl in Ec; discriminate | auto].
Qed.

Lemma split_length (b : list ascii) : List.length (split_lines b) = S (count_newlines b).
Proof.
  unfold count_newlines. induction b as [|c r IH]; [reflexivity|]. simpl.
  destruct (Ascii.eqb c newline); simpl; [now rewrite IH|].
  destruct (split_lines r); simpl in *; congruence.
Qed.

Lemma log_invariant (ops : list LogOp) :
  let l := fold_left log_step ops Log_new in
  LineOffsets l = 0 :: nl_from (Buf l) 0.
Proof.
  cbv zeta. assert (H : LineOffsets Log_new = 0 :: nl_from (Buf Log_new) 0) by reflexivity.
  revert H. generalize Log_new. induction ops as [|op ops IH]; intros l H; [exact H|].
  simpl. apply IH. destruct op as [|text]; [reflexivity|].
  unfold Log_AddLog. simpl.
  rewrite length_app, Nat2Z.inj_add, Z.add_simpl_l, Nat2Z.id.
  rewrite scan_newlines_app, H.
  assert (Hn : forall b t p, nl_from (b ++ t) p = nl_from b p ++ nl_from t (p + Z.of_nat (List.length b))).
  { induction b as [|c r IHb]; intros t p; simpl; [now rewrite Z.add_0_r|].
    rewrite IHb. replace (p + 1 + Z.of_nat (List.length r)) with (p + Z.pos (Pos.of_succ_nat (List.length r))) by lia.
    destruct (Ascii.eqb c newline); reflexivity. }
  rewrite Hn. simpl. reflexivity.
Qed.

(** The log window ([TextureViewerLog], TacitTexView.cpp 188-281): after any
    sequence of [Clear] and [AddLog] calls, the lines [Draw] shows, joined
    with newlines, give back the buffer; no line holds a newline; and there
    is one line more than the buffer has newlines. *)
Theorem Log_lines_reassemble (ops : list LogOp) :
  let l := fold_left log_step ops Log_new in
  join_lines (Log_lines l) = Buf l /\
  Forall (fun line => ~ In newline line) (Log_lines l) /\
  List.length (Log_lines l) = S (count_newlines (Buf l)).
Proof.
  cbv zeta. pose proof (log_invariant ops) as Hinv. cbv zeta in Hinv.
  rewrite Log_lines_rec, Hinv.
  pose proof (rec_lines_split [] (Buf (fold_left log_step ops Log_new))) as Hs.
  cbn [app List.length Z.of_nat] in Hs.
  rewrite Hs. split; [apply join_split | split; [apply split_no_newline | apply split_length]].
Qed.

Lemma numcores_cached (c dw : Z) : 0 < c -> tGetNumCores c dw = (c, c).
Proof. intros H. unfold tGetNumCores. now rewrite (proj2 (Z.ltb_lt 0 c) H). Qed.

Lemma numcores_calls_cached (c : Z) (reports : list Z) :
  0 < c -> tGetNumCores_calls c reports = repeat c (List.length reports).
Proof.
  intros H. induction reports as [|dw rest IH]; [reflexivity|].
  simpl. rewrite numcores_cached by exact H. now rewrite IH.
Qed.

Ltac z_cases :=
  repeat match goal with
  | |- context [?a =? ?b] => destruct (Z.eqb_spec a b)
  | |- context [?a <? ?b] => destruct (Z.ltb_spec a b)
  end.

(** [tSystem::tGetNumCores] (tMachine.cpp 79-97): when the first call reads
    a processor count below 2^31, that call and every later one return the
    same positive count (1 for a count of 0), whatever the system reports
    later. *)
Theorem tGetNumCores_stable (dw0 : Z) (rest : list Z) :
  0 <= dw0 < 2 ^ 31 ->
  let n := if dw0 =? 0 then 1 else dw0 in
  1 <= n /\ tGetNumCores_calls 0 (dw0 :: rest) = repeat n (S (List.length rest)).
Proof.
  intros H n. subst n. cbn [tGetNumCores_calls]. unfold tGetNumCores at 1, int32_of_uint32.
  z_cases; simpl; try lia; (split; [lia|]); now rewrite numcores_calls_cached by lia.
Qed.

(** [tSystem::tGetNumCores] (tMachine.cpp 79-97) on a processor count of at
    least 2^31 (other than 2^32-1): the conversion to [int] makes it
    negative and the value is not cached: the next call queries the system
    again.  The thread bound of [RequestThumbnail] (line 815) computes
    [numCores - 2] in [int]: for the counts 2^31 and 2^31 + 1 it wraps, to
    [INT_MAX - 1] and [INT_MAX], which are the count minus 2; for larger
    counts the bound is 2. *)
Theorem tGetNumCores_wrap (dw dw' : Z) :
  2 ^ 31 <= dw < 2 ^ 32 - 1 ->
  let '(r, c) := tGetNumCores 0 dw in
  r = dw - 2 ^ 32 /\ r < 0 /\
  numThreadsMax r = (if dw <? 2 ^ 31 + 2 then dw - 2 else 2) /\
  tGetNumCores c dw' = tGetNumCores 0 dw'.
Proof.
  intros H. unfold tGetNumCores at 1, int32_of_uint32.
  replace ((dw =? 0) || (dw =? 2 ^ 32 - 1)) with false
    by (symmetry; apply orb_false_iff; split; apply Z.eqb_neq; lia).
  replace (dw <? 2 ^ 31) with false by (symmetry; apply Z.ltb_ge; lia).
  cbn [Z.ltb Z.compare]. replace (0 <? dw - 2 ^ 32) with false by (symmetry; apply Z.ltb_ge; lia).
  split; [reflexivity|]. split; [lia|]. split.
  - unfold numThreadsMax, tClampMin. destruct (Z.ltb_spec dw (2 ^ 31 + 2)).
    + rewrite int32_wrap_below by lia.
      destruct (Z.ltb_spec (dw - 2 ^ 32 - 2 + 2 ^ 32) 2); lia.
    + rewrite int32_wrap_id by lia.
      destruct (Z.ltb_spec (dw - 2 ^ 32 - 2) 2); lia.
  - unfold tGetNumCores. replace (0 <? dw - 2 ^ 32) with false by (symmetry; apply Z.ltb_ge; lia).
    cbn [Z.ltb Z.compare]. reflexivity.
Qed.

Lemma TacitImage_new_idle (env : LoadEnv) (f : string) : thumb_idle (TacitImage_new env f) = true.
Proof. reflexivity. Qed.

Lemma step_starved (w : World) (op : ThumbOp) :
  numThreadsMax (NumCores w) <= ThumbnailNumThreadsRunning w ->
  forallb thumb_idle (Images w) = true ->
  NumCores (step w op) = NumCores w /\
  ThumbnailNumThreadsRunning (step w op) = ThumbnailNumThreadsRunning w /\
  forallb thumb_idle (Images (step w op)) = true.
Proof.
  intros Hc Hi. destruct w as [nc cnt imgs]; simpl in *.
  destruct op as [env f|n|n gen|n pic|n|n]; simpl.
  - split; [reflexivity|split; [reflexivity|]].
    rewrite forallb_app, Hi. reflexivity.
  - destruct (nth_error imgs n) as [i|] eqn:E; [|auto].
    pose proof (forallb_nth _ _ _ _ E Hi) as Hx.
    unfold RequestThumbnail.
    destruct (ThumbnailRequested i); simpl.
    + rewrite set_nth_same by exact E. auto.
    + rewrite (proj2 (Z.leb_le _ _) Hc). simpl. rewrite set_nth_same by exact E. auto.
  - destruct (nth_error imgs n) as [i|] eqn:E; [|auto].
    pose proof (forallb_nth _ _ _ _ E Hi) as Hx.
    destruct i as [? ? ? ? ? ? ? ? ? ? ? ? ? ? rq ru fl al ?]; unfold thumb_idle in Hx; simpl in Hx.
    destruct ru, al; simpl in Hx; try discriminate.
    unfold BindThumbnail; simpl.
    destruct rq; simpl in *; [destruct fl; simpl in *; [|discriminate]|].
    + repeat match goal with |- context [if ?b then _ else _] => destruct b end; simpl;
        (split; [reflexivity|split; [reflexivity|]]);
        apply forallb_set_nth; auto.
    + split; [reflexivity|split; [reflexivity|]]. apply forallb_set_nth; auto.
  - destruct (nth_error imgs n) as [i|] eqn:E; [|auto].
    pose proof (forallb_nth _ _ _ _ E Hi) as Hx.
    unfold WorkerFinish. unfold thumb_idle in Hx.
    destruct (ThumbnailThreadAlive i); simpl in Hx; [rewrite andb_false_r in Hx; discriminate|].
    rewrite set_nth_same by exact E. auto.
  - destruct (nth_error imgs n) as [i|] eqn:E; [|auto].
    pose proof (forallb_nth _ _ _ _ E Hi) as Hx.
    split; [reflexivity|split; [reflexivity|]]. apply forallb_set_nth; auto.
    destruct i as [? ? ? ? ? ? ? ? ? ? ? ? ? ? rq ru fl al ?]; unfold UnrequestThumbnail, thumb_idle in *;
      simpl in *.
    destruct ru, al; simpl in *; try discriminate;
    repeat match goal with |- context [if ?b then _ else _] => destruct b end; simpl; auto.
  - destruct (nth_error imgs n) as [i|] eqn:E; [|auto].
    destruct (ThumbnailThreadAlive i); simpl; auto.
    split; [reflexivity|split; [reflexivity|]]. apply forallb_remove_nth; auto.
Qed.

(** The thumbnail admission counter (TacitImage.cpp: [RequestThumbnail]
    809-831, [BindThumbnail] 670-714, the destructor 841-847): once the
    counter is at the thread bound while every aggregate is idle, no
    sequence of operations ever changes it or starts a worker. *)
Theorem thumbnail_starvation (w : World) (ops : list ThumbOp) :
  numThreadsMax (NumCores w) <= ThumbnailNumThreadsRunning w ->
  forallb thumb_idle (Images w) = true ->
  let w' := run w ops in
  ThumbnailNumThreadsRunning w' = ThumbnailNumThreadsRunning w /\
  forallb thumb_idle (Images w') = true.
Proof.
  unfold run. revert w. induction ops as [|op ops IH]; intros w Hc Hi; simpl; [auto|].
  destruct (step_starved w op Hc Hi) as [E1 [E2 E3]].
  rewrite <- E2. apply IH; [rewrite E1, E2; exact Hc | exact E3].
Qed.

(** ** Contact sheet lemmas *)


Lemma in_picture_true (p : tPicture) (x y : Z) :
  0 <= x < PWidth p -> 0 <= y < PHeight p -> in_picture p x y = true.
Proof. intros. unfold in_picture. decide_cmps. reflexivity. Qed.

Lemma in_picture_invalid (p : tPicture) (x y : Z) :
  picture_IsValid p = false -> in_picture p x y = false.
Proof.
  unfold picture_IsValid, in_picture; intro H.
  apply andb_false_iff in H as [H|H]; apply Z.ltb_ge in H;
  destruct (0 <=? x) eqn:E1, (x <? PWidth p) eqn:E2, (0 <=? y) eqn:E3, (y <? PHeight p) eqn:E4;
  try reflexivity; rewrite ?Z.leb_le, ?Z.ltb_lt in *; lia.
Qed.

(** One row of a frame copy: each step writes [val x] at [(x + ox, y + oy)]. *)
Lemma copy_row (f : option tPicture -> Z -> option tPicture) (src : Z -> Z -> tPixel)
    (W H ox oy y : Z) (xs : list Z) :
  (forall o x, In x xs -> PWidth o = W -> PHeight o = H ->
     f (Some o) x = Some (picture_SetPixel o (x + ox) (y + oy) (src x y))) ->
  forall o, PWidth o = W -> PHeight o = H ->
  exists p', fold_left f xs (Some o) = Some p' /\ PWidth p' = W /\ PHeight p' = H /\
    forall a b, PPixels p' a b =
      if (b - oy =? y) && existsb (Z.eqb (a - ox)) xs then src (a - ox) y else PPixels o a b.
Proof.
  revert f. induction xs as [|x xs IH]; intros f Hf o HW HH.
  - exists o. repeat split; auto. intros a b. rewrite andb_false_r. reflexivity.
  - cbn [fold_left]. rewrite (Hf o x (or_introl eq_refl) HW HH).
    destruct (IH f (fun o' x' Hx' => Hf o' x' (or_intror Hx'))
                 (picture_SetPixel o (x + ox) (y + oy) (src x y)) HW HH)
      as [p' [E [HW' [HH' HP]]]].
    exists p'. repeat split; auto. intros a b. rewrite HP. cbn [existsb PPixels picture_SetPixel].
    destruct (Z.eqb_spec (b - oy) y), (Z.eqb_spec (a - ox) x), (existsb (Z.eqb (a - ox)) xs);
      cbn [andb orb]; try reflexivity;
      destruct (Z.eqb_spec a (x + ox)), (Z.eqb_spec b (y + oy)); cbn [andb];
      try reflexivity; try lia.
    subst. f_equal; lia.
Qed.

(** The rows of a frame copy. *)
Lemma copy_rows (F : Z -> option tPicture -> Z -> option tPicture) (src : Z -> Z -> tPixel)
    (W H ox oy : Z) (xs ys : list Z) :
  (forall o x y, In y ys -> In x xs -> PWidth o = W -> PHeight o = H ->
     F y (Some o) x = Some (picture_SetPixel o (x + ox) (y + oy) (src x y))) ->
  forall o, PWidth o = W -> PHeight o = H ->
  exists p', fold_left (fun acc y => fold_left (F y) xs acc) ys (Some o) = Some p' /\
    PWidth p' = W /\ PHeight p' = H /\
    forall a b, PPixels p' a b =
      if existsb (Z.eqb (b - oy)) ys && existsb (Z.eqb (a - ox)) xs
      then src (a - ox) (b - oy) else PPixels o a b.
Proof.
  revert F. induction ys as [|y ys IH]; intros F HF o HW HH.
  - exists o. repeat split; auto.
  - cbn [fold_left].
    destruct (copy_row (F y) src W H ox oy y xs) with (o := o)
      as [p1 [E1 [HW1 [HH1 HP1]]]]; auto.
    { intros o' x Hx HW' HH'. apply HF; auto. left; reflexivity. }
    rewrite E1.
    destruct (IH F (fun o' x y' Hy Hx => HF o' x y' (or_intror Hy) Hx) p1 HW1 HH1)
      as [p' [E [HW' [HH' HP]]]].
    exists p'. repeat split; auto. intros a b. rewrite HP, HP1. cbn [existsb].
    destruct (Z.eqb_spec (b - oy) y), (existsb (Z.eqb (b - oy)) ys),
      (existsb (Z.eqb (a - ox)) xs); cbn [andb orb]; try reflexivity.
    subst. reflexivity.
Qed.

(** [CopyFrame] writes the frame [src] into the cell whose lower-left...
    corner is [(ix * frameWidth, (numRows - 1 - iy) * frameHeight)]. *)
Lemma CopyFrame_spec (fw fh R : Z) (outPic currPic resampled : tPicture) (ix iy : Z)
    (src : tPicture) :
  (if picture_IsValid resampled then resampled else currPic) = src ->
  fw <= PWidth src -> fh <= PHeight src ->
  0 <= ix * fw -> ix * fw + fw <= PWidth outPic ->
  0 <= (R - 1 - iy) * fh -> (R - 1 - iy) * fh + fh <= PHeight outPic ->
  exists p', CopyFrame fw fh R outPic currPic resampled ix iy = Some p' /\
    PWidth p' = PWidth outPic /\ PHeight p' = PHeight outPic /\
    forall a b, PPixels p' a b =
      if (0 <=? b - (R - 1 - iy) * fh) && (b - (R - 1 - iy) * fh <? fh) &&
         ((0 <=? a - ix * fw) && (a - ix * fw <? fw))
      then PPixels src (a - ix * fw) (b - (R - 1 - iy) * fh) else PPixels outPic a b.
Proof.
  intros Hsrc Hsw Hsh Hx0 Hx1 Hy0 Hy1. unfold CopyFrame.
  match goal with
  | |- context [fold_left (fun acc y => fold_left (@?F y) _ acc) _ _] =>
      destruct (copy_rows F (PPixels src) (PWidth outPic) (PHeight outPic) (ix * fw)
                  ((R - 1 - iy) * fh) (zseq fw) (zseq fh)) with (o := outPic)
        as [p' [E [HW [HH HP]]]]
  end; auto.
  - intros o x y Hy Hx HW HH. apply in_zseq in Hx, Hy. cbv beta iota.
    assert (Hr : (if picture_IsValid resampled then picture_GetPixel_checked resampled x y
                  else picture_GetPixel_checked currPic x y) = Some (PPixels src x y)).
    { unfold picture_GetPixel_checked.
      destruct (picture_IsValid resampled); subst src;
        rewrite in_picture_true by lia; reflexivity. }
    rewrite Hr. unfold picture_SetPixel_checked. rewrite in_picture_true by lia. reflexivity.
  - exists p'. repeat split; auto. intros a b. rewrite HP, !existsb_zseq. reflexivity.
Qed.

Lemma cell_eq_inv (C p q u v : Z) :
  0 <= u < C -> 0 <= v < C -> p * C + u = q * C + v -> p = q /\ u = v.
Proof. intros. destruct (Z.lt_total p q) as [Hl|[He|Hl]]; [nia| subst; lia | nia]. Qed.

Lemma divmod_cell (C ix iy : Z) : 0 <= ix < C -> (iy * C + ix) mod C = ix /\ (iy * C + ix) / C = iy.
Proof.
  intros H. split.
  - symmetry. apply Z.mod_unique_pos with (q := iy); lia.
  - symmetry. apply Z.div_unique_pos with (r := ix); lia.
Qed.

Section Cells.
Variables fw fh C R : Z.
Hypotheses (Hfw : 0 < fw) (Hfh : 0 < fh) (HC : 0 < C) (HR : 0 < R).

Lemma cell_range (a b : Z) :
  0 <= a < fw * C -> 0 <= b < fh * R ->
  0 <= a / fw < C /\ 0 <= b / fh < R /\ 0 <= sheet_cell fw fh C R a b < C * R.
Proof.
  intros Ha Hb.
  assert (0 <= a / fw < C) by (split; [apply Z.div_pos | apply Z.div_lt_upper_bound]; lia).
  assert (0 <= b / fh < R) by (split; [apply Z.div_pos | apply Z.div_lt_upper_bound]; lia).
  unfold sheet_cell. repeat split; try lia; nia.
Qed.

Lemma cell_in (a b ix iy : Z) :
  0 <= a < fw * C -> 0 <= b < fh * R -> 0 <= ix < C -> 0 <= iy < R ->
  ((0 <=? b - (R - 1 - iy) * fh) && (b - (R - 1 - iy) * fh <? fh) &&
   ((0 <=? a - ix * fw) && (a - ix * fw <? fw)) = true ->
   sheet_cell fw fh C R a b = iy * C + ix /\
   a - ix * fw = a mod fw /\ b - (R - 1 - iy) * fh = b mod fh) /\
  ((0 <=? b - (R - 1 - iy) * fh) && (b - (R - 1 - iy) * fh <? fh) &&
   ((0 <=? a - ix * fw) && (a - ix * fw <? fw)) = false ->
   sheet_cell fw fh C R a b <> iy * C + ix).
Proof.
  intros Ha Hb Hix Hiy. destruct (cell_range a b Ha Hb) as [Ha' [Hb' _]].
  split.
  - intro H. rewrite !andb_true_iff, !Z.leb_le, !Z.ltb_lt in H.
    assert (Ea : a / fw = ix) by (symmetry; apply Z.div_unique_pos with (r := a - ix * fw); lia).
    assert (Eb : b / fh = R - 1 - iy)
      by (symmetry; apply Z.div_unique_pos with (r := b - (R - 1 - iy) * fh); lia).
    unfold sheet_cell. rewrite Ea, Eb. repeat split; [lia| |].
    + apply Z.mod_unique_pos with (q := ix); lia.
    + apply Z.mod_unique_pos with (q := R - 1 - iy); lia.
  - intros H E. unfold sheet_cell in E.
    apply cell_eq_inv in E as [E1 E2]; try lia.
    destruct (cell_split a fw Hfw) as [Sa Ra]. destruct (cell_split b fh Hfh) as [Sb Rb].
    revert H. decide_cmps. discriminate.
Qed.

End Cells.

Lemma skipn_cons_nth {A} (L : list A) (c : nat) (x : A) (t : list A) :
  skipn c L = x :: t -> nth_error L c = Some x /\ skipn (S c) L = t.
Proof.
  revert L. induction c as [|c IH]; intros [|y L] H; try discriminate.
  - cbn in H |- *. injection H as -> ->. auto.
  - cbn in H |- *. apply IH. exact H.
Qed.

Lemma sheet_eligible_cons (g : string -> string) (o : string) (i : TacitImage) (r : list TacitImage) :
  sheet_eligible g o (i :: r) =
  if IsLoaded i && negb (String.eqb (g (Filename i)) (g o)) then i :: sheet_eligible g o r
  else sheet_eligible g o r.
Proof. reflexivity. Qed.

(** The source of a placed frame, as the loop picks it. *)
Lemma source_choice (lib : Tacent) (fw fh : Z) (img : TacitImage) (p : tPicture) (ps : list tPicture) :
  0 < fw -> 0 < fh -> Pictures img = p :: ps -> picture_IsValid p = true ->
  GetWidth img = PWidth p -> GetHeight img = PHeight p ->
  (if picture_IsValid
        (if negb (GetWidth img =? fw) || negb (GetHeight img =? fh)
         then picture_Resample lib p fw fh else picture_invalid)
   then (if negb (GetWidth img =? fw) || negb (GetHeight img =? fh)
         then picture_Resample lib p fw fh else picture_invalid)
   else p) = sheet_source lib fw fh img /\
  PWidth (sheet_source lib fw fh img) = fw /\ PHeight (sheet_source lib fw fh img) = fh.
Proof.
  intros Hfw Hfh Hp Hv HW HH. unfold sheet_source. rewrite Hp. cbn [hd].
  destruct (Z.eqb_spec (GetWidth img) fw), (Z.eqb_spec (GetHeight img) fh); cbn [negb orb andb];
    try (split; [reflexivity | split; lia]);
    unfold picture_Resample; rewrite Hv; decide_cmps; cbn [andb];
    unfold picture_IsValid; cbn [PWidth PHeight]; decide_cmps; cbn [andb];
    repeat split; reflexivity.
Qed.

Lemma source_invalid (lib : Tacent) (fw fh : Z) (img : TacitImage) (p : tPicture) :
  picture_IsValid p = false ->
  picture_IsValid
    (if negb (GetWidth img =? fw) || negb (GetHeight img =? fh)
     then picture_Resample lib p fw fh else picture_invalid) = false.
Proof.
  intros Hv. destruct (negb (GetWidth img =? fw) || negb (GetHeight img =? fh)); [|reflexivity].
  unfold picture_Resample. rewrite Hv. exact Hv.
Qed.

Section Loop.
Variables (lib : Tacent) (gbn : string -> string) (outFile : string).
Variables (fw fh C R : Z) (L : list TacitImage).
Hypotheses (Hfw : 0 < fw) (Hfh : 0 < fh) (HC : 0 < C) (HR : 0 < R).

(** One placed frame: the cell [c] of the sheet gets the frame of [img]. *)
Lemma place_frame (img : TacitImage) (c : nat) (ix iy : Z) (outPic : tPicture) :
  Z.of_nat c = iy * C + ix -> 0 <= ix < C -> 0 <= iy < R ->
  nth_error L c = Some img -> sheet_readable img = true ->
  PWidth outPic = fw * C -> PHeight outPic = fh * R ->
  (forall a b, 0 <= a < fw * C -> 0 <= b < fh * R ->
     PPixels outPic a b = if sheet_cell fw fh C R a b <? Z.of_nat c
                          then sheet_pixel lib fw fh C R L a b else transparent) ->
  exists p ps, GetPrimaryPicture img = Some p /\ Pictures img = p :: ps /\
  exists p', CopyFrame fw fh R outPic p
               (if negb (GetWidth img =? fw) || negb (GetHeight img =? fh)
                then picture_Resample lib p fw fh else picture_invalid) ix iy = Some p' /\
    PWidth p' = fw * C /\ PHeight p' = fh * R /\
    (forall a b, 0 <= a < fw * C -> 0 <= b < fh * R ->
       PPixels p' a b = if sheet_cell fw fh C R a b <? Z.of_nat (S c)
                        then sheet_pixel lib fw fh C R L a b else transparent).
Proof.
  intros Hc Hix Hiy Hn Hr HW HH HP.
  unfold sheet_readable in Hr. destruct (Pictures img) as [|p ps] eqn:Hp; [discriminate|].
  rewrite !andb_true_iff, !Z.eqb_eq in Hr. destruct Hr as [[Hv HGW] HGH].
  exists p, ps. split; [unfold GetPrimaryPicture; rewrite Hp; reflexivity|]. split; [reflexivity|].
  destruct (source_choice lib fw fh img p ps Hfw Hfh Hp Hv HGW HGH) as [Hs [HsW HsH]].
  destruct (CopyFrame_spec fw fh R outPic p
              (if negb (GetWidth img =? fw) || negb (GetHeight img =? fh)
               then picture_Resample lib p fw fh else picture_invalid) ix iy
              (sheet_source lib fw fh img) Hs) as [p' [E [HW' [HH' HP']]]]; try lia; try nia.
  exists p'. split; [exact E|]. split; [lia|]. split; [lia|].
  intros a b Ha Hb. rewrite HP'.
  destruct (cell_in fw fh C R Hfw Hfh HC a b ix iy Ha Hb Hix Hiy) as [Hin Hout].
  match goal with |- context [if ?t then _ else _] =>
    match t with context [0 <=? b - _] => destruct t eqn:Ec end end.
  - destruct (Hin eq_refl) as [Ecell [Ea Eb]].
    rewrite Ecell, Nat2Z.inj_succ, <- Hc. decide_cmps.
    unfold sheet_pixel. rewrite Ecell, <- Hc, Nat2Z.id, Hn, Ea, Eb. reflexivity.
  - specialize (Hout eq_refl). rewrite HP by auto. rewrite Nat2Z.inj_succ.
    destruct (Z.ltb_spec (sheet_cell fw fh C R a b) (Z.of_nat c)),
      (Z.ltb_spec (sheet_cell fw fh C R a b) (Z.succ (Z.of_nat c))); try reflexivity; lia.
Qed.

Lemma loop_layout (HL : forallb sheet_readable L = true) :
  forall imgs (c : nat) ix iy frame outPic,
  frame = Z.of_nat c -> Z.of_nat c = iy * C + ix -> 0 <= ix < C -> 0 <= iy < R ->
  skipn c L = sheet_eligible gbn outFile imgs ->
  PWidth outPic = fw * C -> PHeight outPic = fh * R ->
  (forall a b, 0 <= a < fw * C -> 0 <= b < fh * R ->
     PPixels outPic a b = if sheet_cell fw fh C R a b <? Z.of_nat c
                          then sheet_pixel lib fw fh C R L a b else transparent) ->
  exists pic,
    ContactSheet_loop lib gbn outFile fw fh C R imgs ix iy frame outPic =
      Some (pic, sheet_log C c (firstn (Z.to_nat (C * R) - c) (skipn c L))) /\
    PWidth pic = fw * C /\ PHeight pic = fh * R /\
    (forall a b, 0 <= a < fw * C -> 0 <= b < fh * R ->
       PPixels pic a b = sheet_pixel lib fw fh C R L a b).
Proof.
  induction imgs as [|img rest IH]; intros c ix iy frame outPic Hfr Hc Hix Hiy Hsk HW HH HP.
  - exists outPic. cbn [ContactSheet_loop]. rewrite Hsk. cbn [sheet_eligible filter].
    rewrite firstn_nil. cbn [sheet_log]. repeat split; auto.
    intros a b Ha Hb. rewrite HP by auto.
    destruct (Z.ltb_spec (sheet_cell fw fh C R a b) (Z.of_nat c)); [reflexivity|].
    unfold sheet_pixel. rewrite (proj2 (nth_error_None L _)); [reflexivity|].
    assert (Hl := length_skipn c L). rewrite Hsk in Hl. cbn in Hl. lia.
  - rewrite sheet_eligible_cons in Hsk. cbn [ContactSheet_loop].
    destruct (IsLoaded img) eqn:HLd; cbn [negb andb] in Hsk |- *;
      [|eapply IH; eauto].
    destruct (String.eqb (gbn (Filename img)) (gbn outFile)) eqn:HN; cbn [negb] in Hsk |- *;
      [eapply IH; eauto|].
    destruct (skipn_cons_nth L c img _ Hsk) as [Hn Hsk'].
    assert (Hr : sheet_readable img = true).
    { rewrite forallb_forall in HL. apply HL. eapply nth_error_In; eauto. }
    destruct (place_frame img c ix iy outPic Hc Hix Hiy Hn Hr HW HH HP)
      as [p [ps [Hg [Hp [p' [E [HW' [HH' HP']]]]]]]].
    rewrite Hg. rewrite E.
    assert (Hlt : Z.of_nat c < C * R) by nia.
    assert (Hm : (Z.to_nat (C * R) - c = S (Z.to_nat (C * R) - S c))%nat) by lia.
    rewrite Hsk, Hm. cbn [firstn sheet_log].
    destruct (divmod_cell C ix iy Hix) as [Em Ed]. rewrite <- Hc in Em, Ed.
    destruct (Z.leb_spec C (ix + 1)).
    + destruct (Z.leb_spec R (iy + 1)).
      * exists p'. cbn [option_map].
        assert (Hm' : (Z.to_nat (C * R) - S c = 0)%nat) by nia.
        rewrite Hm'. cbn [firstn sheet_log]. rewrite Em, Ed, Hfr.
        repeat split; auto.
        intros a b Ha Hb. rewrite HP' by auto.
        destruct (cell_range fw fh C R Hfw Hfh HC a b Ha Hb) as [_ [_ Hcr]].
        decide_cmps. reflexivity.
      * destruct (IH (S c) 0 (iy + 1) (frame + 1) p') as [pic [E' [HW2 [HH2 HP2]]]];
          try lia; auto.
        rewrite E', Hsk'. cbn [option_map]. exists pic. rewrite Em, Ed, Hfr. auto.
    + destruct (IH (S c) (ix + 1) iy (frame + 1) p') as [pic [E' [HW2 [HH2 HP2]]]];
        try lia; auto.
      rewrite E', Hsk'. cbn [option_map]. exists pic. rewrite Em, Ed, Hfr. auto.
Qed.

End Loop.

Lemma fold_left_none {A : Type} (f : option tPicture -> A -> option tPicture) (xs : list A) :
  (forall x, f None x = None) -> fold_left f xs None = None.
Proof. intros Hf. induction xs as [|x xs IH]; cbn [fold_left]; [reflexivity|]. rewrite Hf. exact IH. Qed.

Lemma zseq_pos (n : Z) : 0 < n -> exists t, zseq n = 0 :: t.
Proof.
  intros H. unfold zseq. destruct (Z.to_nat n) eqn:E; [lia|]. cbn. eexists. reflexivity.
Qed.

(** A frame read from an invalid picture: the first [GetPixel] fails. *)
Lemma CopyFrame_unreadable (fw fh R : Z) (outPic currPic resampled : tPicture) (ix iy : Z) :
  0 < fw -> 0 < fh -> picture_IsValid resampled = false -> picture_IsValid currPic = false ->
  CopyFrame fw fh R outPic currPic resampled ix iy = None.
Proof.
  intros Hfw Hfh Hr Hc. unfold CopyFrame.
  destruct (zseq_pos fh Hfh) as [ty Hy]. destruct (zseq_pos fw Hfw) as [tx Hx].
  rewrite Hy, Hx. cbn [fold_left]. rewrite Hr. lazy beta iota.
  unfold picture_GetPixel_checked. rewrite (in_picture_invalid currPic) by exact Hc.
  rewrite fold_left_none by (intros; reflexivity).
  apply fold_left_none. intros y. apply fold_left_none. intros; reflexivity.
Qed.

Lemma firstn_nth_In {A} (L : list A) (c k : nat) (x : A) :
  (c < k)%nat -> nth_error L c = Some x -> In x (firstn k L).
Proof.
  revert L k. induction c as [|c IH]; intros [|y L] [|k] Hk H; try lia; try discriminate.
  - cbn in H |- *. injection H as ->. left; reflexivity.
  - cbn in H |- *. right. apply IH; auto. lia.
Qed.

Section LoopFault.
Variables (lib : Tacent) (gbn : string -> string) (outFile : string).
Variables (fw fh C R : Z) (L : list TacitImage).
Hypotheses (Hfw : 0 < fw) (Hfh : 0 < fh) (HC : 0 < C) (HR : 0 < R).
Variables (bad : TacitImage) (k : nat).
Hypotheses (Hk : Z.of_nat k < C * R) (Hbad : nth_error L k = Some bad)
  (Hinv : picture_IsValid (hd picture_invalid (Pictures bad)) = false)
  (Hpre : forallb sheet_readable (firstn k L) = true).

Lemma loop_fault :
  forall imgs (c : nat) ix iy frame outPic,
  (c <= k)%nat -> Z.of_nat c = iy * C + ix -> 0 <= ix < C -> 0 <= iy < R ->
  skipn c L = sheet_eligible gbn outFile imgs ->
  PWidth outPic = fw * C -> PHeight outPic = fh * R ->
  (forall a b, 0 <= a < fw * C -> 0 <= b < fh * R ->
     PPixels outPic a b = if sheet_cell fw fh C R a b <? Z.of_nat c
                          then sheet_pixel lib fw fh C R L a b else transparent) ->
  ContactSheet_loop lib gbn outFile fw fh C R imgs ix iy frame outPic = None.
Proof.
  induction imgs as [|img rest IH]; intros c ix iy frame outPic Hck Hc Hix Hiy Hsk HW HH HP.
  - exfalso. assert (Hl := length_skipn c L). rewrite Hsk in Hl. cbn in Hl.
    assert (Hlt : (k < List.length L)%nat) by (apply nth_error_Some; congruence). lia.
  - rewrite sheet_eligible_cons in Hsk. cbn [ContactSheet_loop].
    destruct (IsLoaded img) eqn:HLd; cbn [negb andb] in Hsk |- *;
      [|eapply IH; eauto].
    destruct (String.eqb (gbn (Filename img)) (gbn outFile)) eqn:HN; cbn [negb] in Hsk |- *;
      [eapply IH; eauto|].
    destruct (skipn_cons_nth L c img _ Hsk) as [Hn Hsk'].
    destruct (Nat.eq_dec c k) as [->|Hne].
    + rewrite Hbad in Hn. injection Hn as <-.
      unfold IsLoaded in HLd. unfold GetPrimaryPicture.
      destruct (Pictures bad) as [|p ps]; [discriminate|]. cbn [hd hd_error] in Hinv |- *.
      rewrite CopyFrame_unreadable; auto. apply source_invalid. exact Hinv.
    + assert (Hr : sheet_readable img = true).
      { rewrite forallb_forall in Hpre. apply Hpre. apply (firstn_nth_In L c k); auto. lia. }
      destruct (place_frame lib fw fh C R L Hfw Hfh HC HR img c ix iy outPic Hc Hix Hiy Hn Hr HW HH HP)
        as [p [ps [Hg [Hp [p' [E [HW' [HH' HP']]]]]]]].
      rewrite Hg, E.
      destruct (Z.leb_spec C (ix + 1)).
      * destruct (Z.leb_spec R (iy + 1)); [exfalso; nia|].
        rewrite (IH (S c) 0 (iy + 1) (frame + 1) p'); auto; lia.
      * rewrite (IH (S c) (ix + 1) iy (frame + 1) p'); auto; lia.
Qed.

End LoopFault.

(** With a positive grid and frame size that fit an [int], the generation
    runs the loop on a transparent sheet of [frameWidth * numCols] by
    [frameHeight * numRows]. *)
Lemma GenerateContactSheet_run (env : LoadEnv) (lib : Tacent) (gbn : string -> string)
    (outFile : string) (fw fh R C : Z) (imgs : list TacitImage) :
  0 < fw -> 0 < fh -> 0 < C -> 0 < R -> fw * C < 2^31 -> fh * R < 2^31 ->
  (2 <= List.length imgs)%nat ->
  GenerateContactSheet env lib gbn outFile fw fh R C imgs =
  match ContactSheet_loop lib gbn outFile fw fh C R (ContactSheet_LoadAll env imgs) 0 0 0
          (mkPicture (fw * C) (fh * R) (fun _ _ => transparent)) with
  | None => SheetFault
  | Some (pic, log) =>
      SheetDone pic log (forallb (fun i => negb (IsLoaded i) || IsOpaque i)
                           (ContactSheet_LoadAll env imgs))
  end.
Proof.
  intros Hfw Hfh HC HR HW HH Hn. unfold GenerateContactSheet, int_ok.
  change (2^31) with 2147483648 in *.
  rewrite !Z.quot_mul by lia.
  assert (fw <= fw * C) by nia. assert (fh <= fh * R) by nia.
  decide_cmps. cbn [negb andb orb].
  replace (Z.of_nat (List.length imgs) <? 2) with false by (symmetry; apply Z.ltb_ge; lia).
  unfold picture_Set. decide_cmps. reflexivity.
Qed.

(** The contact sheet ([TexView::ShowContactSheetDialog], TacitImage.cpp
    985-1062): with a positive grid and frame size that fit an [int], at
    least two images, and readable frames, the sheet is
    [frameWidth * numCols] by [frameHeight * numRows]; the loaded images not
    named as the output fill the cells in order, left to right from the top
    row; each cell holds its image's frame (resampled when its size
    differs), the cells left over are transparent, and the lines printed
    give frame [k] at [(k mod numCols, k / numCols)]. *)
Theorem GenerateContactSheet_layout (env : LoadEnv) (lib : Tacent) (gbn : string -> string)
    (outFile : string) (fw fh R C : Z) (imgs : list TacitImage) :
  0 < fw -> 0 < fh -> 0 < C -> 0 < R -> fw * C < 2^31 -> fh * R < 2^31 ->
  (2 <= List.length imgs)%nat ->
  forallb sheet_readable (sheet_eligible gbn outFile (ContactSheet_LoadAll env imgs)) = true ->
  let e := sheet_eligible gbn outFile (ContactSheet_LoadAll env imgs) in
  exists pic,
    GenerateContactSheet env lib gbn outFile fw fh R C imgs =
      SheetDone pic (sheet_log C 0 (firstn (Z.to_nat (C * R)) e))
        (forallb (fun i => negb (IsLoaded i) || IsOpaque i) (ContactSheet_LoadAll env imgs)) /\
    PWidth pic = fw * C /\ PHeight pic = fh * R /\
    (forall a b, 0 <= a < fw * C -> 0 <= b < fh * R ->
       PPixels pic a b = sheet_pixel lib fw fh C R e a b).
Proof.
  intros Hfw Hfh HC HR HW HH Hn Hr e.
  rewrite GenerateContactSheet_run by assumption.
  destruct (loop_layout lib gbn outFile fw fh C R e Hfw Hfh HC HR Hr
              (ContactSheet_LoadAll env imgs) 0 0 0 0
              (mkPicture (fw * C) (fh * R) (fun _ _ => transparent)))
    as [pic [E [HW' [HH' HP]]]]; try reflexivity; try lia.
  - intros a b Ha Hb. cbn [PPixels].
    destruct (cell_range fw fh C R Hfw Hfh HC a b Ha Hb) as [_ [_ Hcr]].
    decide_cmps. reflexivity.
  - rewrite E. exists pic. rewrite Nat.sub_0_r. auto.
Qed.

(** The contact sheet ([TexView::ShowContactSheetDialog], TacitImage.cpp
    985-1062): an image whose load failed keeps an invalid placeholder, so
    it counts as loaded; when it comes to be placed, its pixels are read
    from the invalid picture and the generation faults. *)
Theorem GenerateContactSheet_unreadable_fault (env : LoadEnv) (lib : Tacent)
    (gbn : string -> string) (outFile : string) (fw fh R C : Z) (imgs : list TacitImage)
    (k : nat) (bad : TacitImage) :
  0 < fw -> 0 < fh -> 0 < C -> 0 < R -> fw * C < 2^31 -> fh * R < 2^31 ->
  (2 <= List.length imgs)%nat ->
  let e := sheet_eligible gbn outFile (ContactSheet_LoadAll env imgs) in
  Z.of_nat k < C * R -> nth_error e k = Some bad ->
  picture_IsValid (hd picture_invalid (Pictures bad)) = false ->
  forallb sheet_readable (firstn k e) = true ->
  GenerateContactSheet env lib gbn outFile fw fh R C imgs = SheetFault.
Proof.
  intros Hfw Hfh HC HR HW HH Hn e Hk Hbad Hinv Hpre.
  rewrite GenerateContactSheet_run by assumption.
  rewrite (loop_fault lib gbn outFile fw fh C R e Hfw Hfh HC HR bad k Hk Hbad Hinv Hpre
             (ContactSheet_LoadAll env imgs) 0 0 0 0
             (mkPicture (fw * C) (fh * R) (fun _ _ => transparent))); try reflexivity; try lia.
  intros a b Ha Hb. cbn [PPixels].
  destruct (cell_range fw fh C R Hfw Hfh HC a b Ha Hb) as [_ [_ Hcr]].
  decide_cmps. reflexivity.
Qed.

(** ** Witnesses of the further properties *)

Lemma Settings_Load_in_range_witness :
  640 <= 1024 /\ 360 <= 768 /\
  settings_in_range 1024 768
    (Settings_Load SValue ex_ExprInt ex_ExprBool ex_ExprFloat ex_ExprDouble ex_hash
       (Some [("WindowW"%string, SInt 5000); ("WindowX"%string, SInt (-3)); ("SortKey"%string, SInt 9)]) 1024 768 64 256
       Settings_Reset) = true.
Proof.
  split; [lia | split; [lia |]].
  apply (Settings_Load_in_range SValue ex_ExprInt ex_ExprBool ex_ExprFloat ex_ExprDouble ex_hash); lia.
Defined.

Lemma Settings_Load_missing_witness :
  640 <= 1000 /\ 360 <= 2000 /\
  Settings_Load SValue ex_ExprInt ex_ExprBool ex_ExprFloat ex_ExprDouble ex_hash None 1000 2000 64 256
    Settings_Reset =
  mkSettings (Z.min 1280 1000) (Z.min 720 2000)
    (if 1000 <? 1280 then 0 else (1000 - 1280) / 2)
    (if 2000 <? 720 then 0 else (2000 - 720) / 2)
    false false false (tiClamp_f (float_of_int 128) (float_of_int 64) (float_of_int 256))
    0 true 3 false 1 false 2 true true
    (SFdiv prec64 emax64 (double_of_int 1) (double_of_int 30)) 0 false 0 1024 7000.
Proof.
  split; [lia | split; [lia |]].
  apply Settings_Load_missing; lia.
Defined.

Lemma Settings_Save_Load_witness :
  nodupb (map ex_hash settings_names) = true /\
  (forall n, ex_ExprInt (id (SInt n)) = n) /\
  (forall b, ex_ExprBool (id (SBool b)) = b) /\
  settings_in_range 1920 1080 (Settings_Reset_screen 1920 1080) = true /\
  (let file := map (fun '(name, v) => (name, id v)) (Settings_Save (Settings_Reset_screen 1920 1080)) in
   let s' := Settings_Load SValue ex_ExprInt ex_ExprBool ex_ExprFloat ex_ExprDouble ex_hash (Some file)
               1920 1080 64 256 Settings_Reset in
   int_fields s' = int_fields (Settings_Reset_screen 1920 1080) /\
   bool_fields s' = bool_fields (Settings_Reset_screen 1920 1080)).
Proof.
  split; [vm_compute; reflexivity |].
  split; [intro; reflexivity |].
  split; [intro; reflexivity |].
  split; [vm_compute; reflexivity |].
  apply Settings_Save_Load; [vm_compute; reflexivity | intro; reflexivity | intro; reflexivity |
    vm_compute; reflexivity].
Defined.

Lemma tGetNumCores_stable_witness :
  0 <= 8 < 2 ^ 31 /\
  (let n := if 8 =? 0 then 1 else 8 in
   1 <= n /\ tGetNumCores_calls 0 [8; 0; 16] = repeat n (S (List.length [0; 16]))).
Proof. split; [lia|]. apply (tGetNumCores_stable 8 [0; 16]). lia. Defined.

Lemma tGetNumCores_wrap_witness :
  2 ^ 31 <= 2147483648 < 2 ^ 32 - 1 /\
  (let '(r, c) := tGetNumCores 0 2147483648 in
   r = 2147483648 - 2 ^ 32 /\ r < 0 /\
   numThreadsMax r = (if 2147483648 <? 2 ^ 31 + 2 then 2147483648 - 2 else 2) /\
   tGetNumCores c 8 = tGetNumCores 0 8).
Proof. split; [lia|]. apply (tGetNumCores_wrap 2147483648 8). lia. Defined.

Lemma thumbnail_starvation_witness :
  numThreadsMax (NumCores ex_starved_world) <= ThumbnailNumThreadsRunning ex_starved_world /\
  forallb thumb_idle (Images ex_starved_world) = true /\
  (let w' := run ex_starved_world
               [OpNew ex_png_env "c.png"; OpRequest 0; OpBind 0 7; OpFinish 0 ex_photo] in
   ThumbnailNumThreadsRunning w' = ThumbnailNumThreadsRunning ex_starved_world /\
   forallb thumb_idle (Images w') = true).
Proof.
  split; [vm_compute; discriminate|]. split; [vm_compute; reflexivity|].
  apply thumbnail_starvation; [vm_compute; discriminate | vm_compute; reflexivity].
Defined.

Lemma Bind_cached_witness :
  ex_bind = (fst (fst ex_bind), snd (fst ex_bind), snd ex_bind) /\ snd (fst ex_bind) <> 0 /\
  Bind ex_GetDataSize ex_GetLayers 9 (fst (fst ex_bind)) =
    (fst (fst ex_bind), snd (fst ex_bind), [glBindTexture (snd (fst ex_bind))]).
Proof.
  split; [vm_compute; reflexivity|]. split; [vm_compute; discriminate|].
  apply (Bind_cached ex_GetDataSize ex_GetLayers 5 9 ex_loaded_png (fst (fst ex_bind))
           (snd (fst ex_bind)) (snd ex_bind)); [vm_compute; reflexivity | vm_compute; discriminate].
Defined.

Lemma Bind_placeholder_name_witness :
  AltPictureEnabled ex_failed_img = false /\ TexIDPrimary ex_failed_img = 0 /\
  Pictures ex_failed_img = [picture_invalid] /\ picture_IsValid picture_invalid = false /\ 5 <> 0 /\
  Bind ex_GetDataSize ex_GetLayers 5 ex_failed_img = (set_TexIDPrimary ex_failed_img 5, 0, []) /\
  Bind ex_GetDataSize ex_GetLayers 9 (set_TexIDPrimary ex_failed_img 5) =
    (set_TexIDPrimary ex_failed_img 5, 5, [glBindTexture 5]).
Proof.
  split; [vm_compute; reflexivity|]. split; [vm_compute; reflexivity|].
  split; [vm_compute; reflexivity|]. split; [vm_compute; reflexivity|]. split; [lia|].
  apply (Bind_placeholder_name ex_GetDataSize ex_GetLayers 5 9 ex_failed_img picture_invalid []);
    [vm_compute; reflexivity | vm_compute; reflexivity | vm_compute; reflexivity |
     vm_compute; reflexivity | lia].
Defined.

Lemma Load_dds2d_mip_chain_witness :
  IsLoaded (ex_dds_img true) = false /\ Filetype (ex_dds_img true) = FT_DDS /\
  ReadCubemap (ex_dds_env true) (Filename (ex_dds_img true)) = None /\
  ReadTexture2D (ex_dds_env true) (Filename (ex_dds_img true)) = Some ex_dds_tex /\
  TexValid ex_dds_tex = true /\ GenTexOK (ex_dds_env true) = true /\ 0 <= TexNumLayers ex_dds_tex /\
  Z.max (TexWidth ex_dds_tex) 1 * Z.max (TexHeight ex_dds_tex) 1 * 4 < 2 ^ 31 /\
  (let '(i', ok) := Load_noarg (ex_dds_env true) (ex_dds_img true) in
   Load_result (ex_dds_env true) (ex_dds_img true) = Some (i', ok) /\
   ok = true /\
   Z.of_nat (List.length (Pictures i')) = TexNumLayers ex_dds_tex /\
   IMipmaps (Info i') = TexNumLayers ex_dds_tex /\
   forall k p, nth_error (Pictures i') k = Some p ->
     PWidth p = Z.max (Z.shiftr (TexWidth ex_dds_tex) (Z.of_nat k)) 1 /\
     PHeight p = Z.max (Z.shiftr (TexHeight ex_dds_tex) (Z.of_nat k)) 1 /\
     PPixels p = TexDecoded ex_dds_tex (Z.of_nat k)).
Proof.
  do 6 (split; [vm_compute; reflexivity|]). split; [vm_compute; discriminate|].
  split; [vm_compute; reflexivity|].
  apply Load_dds2d_mip_chain; [vm_compute; reflexivity | vm_compute; reflexivity |
    vm_compute; reflexivity | vm_compute; reflexivity | vm_compute; reflexivity |
    vm_compute; reflexivity | vm_compute; discriminate | vm_compute; reflexivity].
Defined.

Lemma Load_dds2d_alloc_overflow_witness :
  IsLoaded ex_huge_img = false /\ Filetype ex_huge_img = FT_DDS /\
  ReadCubemap ex_huge_env (Filename ex_huge_img) = None /\
  ReadTexture2D ex_huge_env (Filename ex_huge_img) = Some ex_huge_tex /\
  TexValid ex_huge_tex = true /\ GenTexOK ex_huge_env = true /\
  (Load_result ex_huge_env ex_huge_img = None <->
   0 < TexNumLayers ex_huge_tex /\
   2 ^ 31 <= Z.max (TexWidth ex_huge_tex) 1 * Z.max (TexHeight ex_huge_tex) 1 * 4).
Proof.
  do 6 (split; [vm_compute; reflexivity|]).
  apply (Load_dds2d_alloc_overflow ex_huge_env ex_huge_img ex_huge_tex); vm_compute; reflexivity.
Defined.

Lemma Load_dds2d_without_gl_name_witness :
  IsLoaded (ex_dds_img false) = false /\ Filetype (ex_dds_img false) = FT_DDS /\
  ReadCubemap (ex_dds_env false) (Filename (ex_dds_img false)) = None /\
  ReadTexture2D (ex_dds_env false) (Filename (ex_dds_img false)) = Some ex_dds_tex /\
  TexValid ex_dds_tex = true /\ GenTexOK (ex_dds_env false) = false /\
  (let '(i', ok) := Load_noarg (ex_dds_env false) (ex_dds_img false) in
   ok = true /\ IsLoaded i' = false /\ IMipmaps (Info i') = 0 /\ LoadedTime i' = Now (ex_dds_env false)).
Proof.
  do 6 (split; [vm_compute; reflexivity|]).
  apply (Load_dds2d_without_gl_name (ex_dds_env false) (ex_dds_img false) ex_dds_tex); vm_compute; reflexivity.
Defined.

Lemma Load_cube_mem_excludes_alt_witness :
  IsLoaded ex_cube8k_img = false /\ Filetype ex_cube8k_img = FT_DDS /\
  ReadCubemap ex_cube8k_env (Filename ex_cube8k_img) = Some ex_cube8k /\ CubeValid ex_cube8k = true /\
  picture_IsValid (AltPicture ex_cube8k_img) = false /\
  0 < TexWidth (GetSide ex_cube8k PosX) /\ 0 < TexHeight (GetSide ex_cube8k PosX) /\
  TexWidth (GetSide ex_cube8k PosX) * TexHeight (GetSide ex_cube8k PosX) * 4 < 2 ^ 31 /\
  (let '(i', ok) := Load_noarg ex_cube8k_env ex_cube8k_img in
   Load_result ex_cube8k_env ex_cube8k_img = Some (i', ok) /\ ok = true /\
   IMemSizeBytes (Info i') =
     int32_wrap (24 * TexWidth (GetSide ex_cube8k PosX) * TexHeight (GetSide ex_cube8k PosX)) /\
   GetMemSizeBytes i' =
     int32_wrap (72 * TexWidth (GetSide ex_cube8k PosX) * TexHeight (GetSide ex_cube8k PosX))).
Proof.
  do 8 (split; [vm_compute; reflexivity|]).
  apply (Load_cube_mem_excludes_alt ex_cube8k_env ex_cube8k_img ex_cube8k);
    vm_compute; reflexivity.
Defined.

Lemma CreateAltPictureDDS2DMipmaps_strip_witness :
  Forall (fun q => 0 <= PWidth q) (Pictures ex_dds_loaded) /\
  nth_error (Pictures ex_dds_loaded) 1 = Some (nth 1 (Pictures ex_dds_loaded) picture_invalid) /\
  0 <= 1 < PWidth (nth 1 (Pictures ex_dds_loaded) picture_invalid) /\
  0 <= 0 < PHeight (nth 1 (Pictures ex_dds_loaded) picture_invalid) /\
  (let alt := AltPicture (CreateAltPictureDDS2DMipmaps ex_dds_loaded) in
   let width := fold_left (fun w layer => w + PWidth layer) (Pictures ex_dds_loaded) 0 in
   (0 < width -> 0 < GetHeight ex_dds_loaded -> PWidth alt = width /\ PHeight alt = GetHeight ex_dds_loaded) /\
   PPixels alt (fold_left (fun w layer => w + PWidth layer) (firstn 1 (Pictures ex_dds_loaded)) 0 + 1) 0
   = PPixels (nth 1 (Pictures ex_dds_loaded) picture_invalid) 1 0).
Proof.
  split; [vm_compute; repeat constructor; discriminate|].
  split; [vm_compute; reflexivity|].
  split; [vm_compute; split; [discriminate | reflexivity]|].
  split; [vm_compute; split; [discriminate | reflexivity]|].
  apply CreateAltPictureDDS2DMipmaps_strip;
    [vm_compute; repeat constructor; discriminate | vm_compute; reflexivity |
     vm_compute; split; [discriminate | reflexivity] | vm_compute; split; [discriminate | reflexivity]].
Defined.

Lemma GenerateContactSheet_layout_witness :
  let e := sheet_eligible (fun s => s) "c.png" (ContactSheet_LoadAll ex_png_env ex_sheet_imgs) in
  exists pic,
    GenerateContactSheet ex_png_env ex_lib (fun s => s) "c.png" 3 3 1 2 ex_sheet_imgs =
      SheetDone pic (sheet_log 2 0 (firstn (Z.to_nat (2 * 1)) e))
        (forallb (fun i => negb (IsLoaded i) || IsOpaque i)
           (ContactSheet_LoadAll ex_png_env ex_sheet_imgs)) /\
    PWidth pic = 3 * 2 /\ PHeight pic = 3 * 1 /\
    (forall a b, 0 <= a < 3 * 2 -> 0 <= b < 3 * 1 ->
       PPixels pic a b = sheet_pixel ex_lib 3 3 2 1 e a b).
Proof.
  apply (GenerateContactSheet_layout ex_png_env ex_lib (fun s => s) "c.png" 3 3 1 2 ex_sheet_imgs);
    vm_compute; try reflexivity; try lia.
Defined.

Lemma GenerateContactSheet_unreadable_fault_witness :
  GenerateContactSheet ex_sheet_env_b ex_lib (fun s => s) "c.png" 2 2 2 2 ex_sheet_imgs_b = SheetFault.
Proof.
  apply (GenerateContactSheet_unreadable_fault ex_sheet_env_b ex_lib (fun s => s) "c.png" 2 2 2 2
           ex_sheet_imgs_b 1 (fst (Load_noarg ex_sheet_env_b (TacitImage_new ex_sheet_env_b "b.png"))));
    vm_compute; try reflexivity; try lia.
Defined.
